(** * Text anomaly detection pipeline (OCI function behind an API gateway)

    A shallow embedding of
    [functions-code/TextAnomalyDetectionForApiGateway/func.py] and of the
    helpers of [oci_utils/url_utils.py] and [oci_utils/oci_object_storage.py]
    it calls, and of [functions-code/ApiKeyAuthentication/func.py], together
    with the properties of the pipeline that the specification states and
    further properties of the code.

    Python values are modelled by a small universe [pyval] (the values that
    [json.loads] and the SDK's [to_dict] produce), Python exceptions by an
    error result, floats by binary64 values of the standard library's
    [spec_float], and the remote services by a record of oracles whose calls
    are written to a trace.  The examples run on models of
    [mimetypes.guess_type], [json.dumps] and [repr]. *)

From Stdlib Require Import ZArith List String Ascii Bool Lia.
From Stdlib Require Import Floats.SpecFloat.
From Stdlib Require DecimalString.
Import ListNotations.

Local Open Scope string_scope.
Local Open Scope Z_scope.

Set Warnings "-register-all".

(** ** Python values and exceptions *)

Inductive pyval : Type :=
| PNone
| PBool (b : bool)
| PInt (z : Z)
| PFloat (f : spec_float)
| PStr (s : string)
| PList (l : list pyval)
| PDict (d : list (string * pyval)).

(** An exception: the name of its class and the text [str(ex)] gives. *)
Record exn : Type := Exn { exn_type : string; exn_str : string }.

Inductive result (A : Type) : Type :=
| Ok (a : A)
| Err (e : exn).
Arguments Ok {A} a.
Arguments Err {A} e.

Definition rbind {A B : Type} (m : result A) (f : A -> result B) : result B :=
  match m with
  | Ok a => f a
  | Err e => Err e
  end.

Declare Scope result_scope.
Delimit Scope result_scope with res.
Notation "x <- m ;; k" := (rbind m (fun x => k))
  (at level 61, m at next level, right associativity) : result_scope.

Fixpoint rmap {A B : Type} (f : A -> result B) (l : list A) : result (list B) :=
  match l with
  | [] => Ok []
  | a :: l' =>
      match f a with
      | Err e => Err e
      | Ok b =>
          match rmap f l' with
          | Err e => Err e
          | Ok bs => Ok (b :: bs)
          end
      end
  end.

Definition type_name (v : pyval) : string :=
  match v with
  | PNone => "NoneType"
  | PBool _ => "bool"
  | PInt _ => "int"
  | PFloat _ => "float"
  | PStr _ => "str"
  | PList _ => "list"
  | PDict _ => "dict"
  end.

Definition TypeError (msg : string) : exn := Exn "TypeError" msg.
Definition AttributeError (msg : string) : exn := Exn "AttributeError" msg.
Definition IndexError (msg : string) : exn := Exn "IndexError" msg.
Definition KeyError (msg : string) : exn := Exn "KeyError" msg.
Definition OverflowError (msg : string) : exn := Exn "OverflowError" msg.

(** ** Dictionaries, sequences *)

Fixpoint assoc (k : string) (d : list (string * pyval)) : option pyval :=
  match d with
  | [] => None
  | (k', v) :: d' => if String.eqb k k' then Some v else assoc k d'
  end.

(** [v.get(key, default)] *)
Definition py_get (v : pyval) (key : string) (default : pyval) : result pyval :=
  match v with
  | PDict d =>
      Ok (match assoc key d with
          | Some x => x
          | None => default
          end)
  | _ => Err (AttributeError
                ("'" ++ type_name v ++ "' object has no attribute 'get'"))
  end.

Definition string_of_Z (z : Z) : string :=
  DecimalString.NilZero.string_of_int (Z.to_int z).

(** [v[key]] for a string key *)
Definition py_getitem_str (v : pyval) (key : string) : result pyval :=
  match v with
  | PDict d =>
      match assoc key d with
      | Some x => Ok x
      | None => Err (KeyError ("'" ++ key ++ "'"))
      end
  | PStr _ => Err (TypeError "string indices must be integers")
  | PList _ => Err (TypeError "list indices must be integers or slices, not str")
  | _ => Err (TypeError ("'" ++ type_name v ++ "' object is not subscriptable"))
  end.

(** [v[i]] for a literal index [i >= 0] *)
Definition py_getitem_nat (v : pyval) (i : nat) : result pyval :=
  match v with
  | PList l =>
      match nth_error l i with
      | Some x => Ok x
      | None => Err (IndexError "list index out of range")
      end
  | PStr s =>
      match String.get i s with
      | Some c => Ok (PStr (String c EmptyString))
      | None => Err (IndexError "string index out of range")
      end
  | PDict _ => Err (KeyError (string_of_Z (Z.of_nat i)))
  | _ => Err (TypeError ("'" ++ type_name v ++ "' object is not subscriptable"))
  end.

Fixpoint chars (s : string) : list pyval :=
  match s with
  | EmptyString => []
  | String c s' => PStr (String c EmptyString) :: chars s'
  end.

(** [iter(v)] run to the end: the elements a [for] loop over [v] visits. *)
Definition py_iter (v : pyval) : result (list pyval) :=
  match v with
  | PList l => Ok l
  | PStr s => Ok (chars s)
  | PDict d => Ok (map (fun kv => PStr (fst kv)) d)
  | _ => Err (TypeError ("'" ++ type_name v ++ "' object is not iterable"))
  end.

(** ** Numbers

    Python's [float] is IEEE 754 binary64: [spec_float] at precision 53 and
    maximal exponent 1024.  Comparisons are exact (on the real values, with
    NaN unordered), also between an [int] and a [float]. *)

Definition prec : Z := 53.
Definition emax : Z := 1024.

(** [float(z)] for an integer in the range of binary64 *)
Definition float_of_Z (z : Z) : spec_float := binary_normalize prec emax z 0 false.

(** The float a decimal literal [num/den] denotes, for [num] and [den]
    below [2^53]: the binary64 value nearest to the quotient. *)
Definition float_of_decimal (num den : Z) : spec_float :=
  SFdiv prec emax (float_of_Z num) (float_of_Z den).

Inductive number : Type :=
| NInt (z : Z)
| NFloat (f : spec_float).

Definition number_val (n : number) : pyval :=
  match n with
  | NInt z => PInt z
  | NFloat f => PFloat f
  end.

(** The numeric reading of a value; [bool] is a subclass of [int]. *)
Definition as_number (v : pyval) : option number :=
  match v with
  | PBool b => Some (NInt (Z.b2z b))
  | PInt z => Some (NInt z)
  | PFloat f => Some (NFloat f)
  | _ => None
  end.

(** The exact value of a number: [XFin m e] stands for [m * 2^e]. *)
Inductive xval : Type :=
| XNan
| XInf (neg : bool)
| XFin (m e : Z).

Definition float_xval (f : spec_float) : xval :=
  match f with
  | S754_zero _ => XFin 0 0
  | S754_infinity s => XInf s
  | S754_nan => XNan
  | S754_finite s m e => XFin (cond_Zopp s (Zpos m)) e
  end.

Definition number_xval (n : number) : xval :=
  match n with
  | NInt z => XFin z 0
  | NFloat f => float_xval f
  end.

Definition dyadic_compare (m1 e1 m2 e2 : Z) : comparison :=
  let e := Z.min e1 e2 in
  Z.compare (m1 * 2 ^ (e1 - e)) (m2 * 2 ^ (e2 - e)).

(** [None] when the operands are unordered (one of them is NaN). *)
Definition xval_compare (x y : xval) : option comparison :=
  match x, y with
  | XNan, _ | _, XNan => None
  | XInf s1, XInf s2 =>
      Some (match s1, s2 with
            | true, false => Lt
            | false, true => Gt
            | _, _ => Eq
            end)
  | XInf s, XFin _ _ => Some (if s then Lt else Gt)
  | XFin _ _, XInf s => Some (if s then Gt else Lt)
  | XFin m1 e1, XFin m2 e2 => Some (dyadic_compare m1 e1 m2 e2)
  end.

Definition number_compare (a b : number) : option comparison :=
  xval_compare (number_xval a) (number_xval b).

Definition number_ge (a b : number) : bool :=
  match number_compare a b with
  | Some Gt | Some Eq => true
  | _ => false
  end.

Definition number_lt (a b : number) : bool :=
  match number_compare a b with
  | Some Lt => true
  | _ => false
  end.

Definition number_eq (a b : number) : bool :=
  match number_compare a b with
  | Some Eq => true
  | _ => false
  end.

(** [v >= n] for a number [n] *)
Definition py_ge (v : pyval) (n : number) : result bool :=
  match as_number v with
  | Some a => Ok (number_ge a n)
  | None =>
      Err (TypeError ("'>=' not supported between instances of '"
                        ++ type_name v ++ "' and '"
                        ++ type_name (number_val n) ++ "'"))
  end.

(** [v == z] for an integer literal [z] *)
Definition py_eq_int (v : pyval) (z : Z) : bool :=
  match as_number v with
  | Some a => number_eq a (NInt z)
  | None => false
  end.

Fixpoint repeat_string (n : nat) (s : string) : string :=
  match n with
  | O => EmptyString
  | S n' => s ++ repeat_string n' s
  end.

Fixpoint repeat_list {A : Type} (n : nat) (l : list A) : list A :=
  match n with
  | O => []
  | S n' => l ++ repeat_list n' l
  end.

(** [v * z] for a positive integer literal [z]: the product of numbers,
    the repetition of sequences. *)
Definition py_mul_int (v : pyval) (z : Z) : result pyval :=
  match v with
  | PBool b => Ok (PInt (Z.b2z b * z))
  | PInt a => Ok (PInt (a * z))
  | PFloat f => Ok (PFloat (SFmul prec emax f (float_of_Z z)))
  | PStr s => Ok (PStr (repeat_string (Z.to_nat z) s))
  | PList l => Ok (PList (repeat_list (Z.to_nat z) l))
  | _ => Err (TypeError ("unsupported operand type(s) for *: '"
                           ++ type_name v ++ "' and 'int'"))
  end.

(** The integer nearest to [n / d] for [d > 0], ties to the even one. *)
Definition round_half_even (n d : Z) : Z :=
  let q := n / d in
  let r := n mod d in
  match Z.compare (2 * r) d with
  | Lt => q
  | Gt => q + 1
  | Eq => if Z.even q then q else q + 1
  end.

(** The decimal digits of [|x| * 10^ndigits] rounded to an integer, as
    [float.__round__] obtains them from the exact value of [x]. *)
Definition scaled_digits (m : positive) (e : Z) (ndigits : nat) : Z :=
  let p := 10 ^ Z.of_nat ndigits in
  if 0 <=? e then Zpos m * p * 2 ^ e
  else round_half_even (Zpos m * p) (2 ^ (- e)).

(** The float nearest to [(-1)^s * k / 10^ndigits]. *)
Definition float_of_digits (s : bool) (k : Z) (ndigits : nat) : spec_float :=
  match k with
  | Zpos k' =>
      SFdiv prec emax (S754_finite s k' 0)
        (S754_finite false (Z.to_pos (10 ^ Z.of_nat ndigits)) 0)
  | _ => S754_zero s
  end.

(** [round(x, ndigits)] on a float, [ndigits >= 0]: the value is rounded
    correctly to [ndigits] decimal places (ties to even, on its exact
    value), and the decimal result is converted back to the nearest float.
    NaN, the infinities and the zeros round to themselves. *)
Definition float_round (x : spec_float) (ndigits : nat) : result spec_float :=
  match x with
  | S754_finite s m e =>
      match float_of_digits s (scaled_digits m e ndigits) ndigits with
      | S754_infinity _ => Err (OverflowError "rounded value too large to represent")
      | r => Ok r
      end
  | _ => Ok x
  end.

(** [round(v, ndigits)], [ndigits >= 0]: an [int] (or [bool]) rounds to
    itself, as an [int]. *)
Definition py_round (v : pyval) (ndigits : nat) : result pyval :=
  match v with
  | PBool b => Ok (PInt (Z.b2z b))
  | PInt z => Ok (PInt z)
  | PFloat f =>
      match float_round f ndigits with
      | Ok r => Ok (PFloat r)
      | Err e => Err e
      end
  | _ => Err (TypeError ("type " ++ type_name v ++ " doesn't define __round__ method"))
  end.

(** ** The anomaly evaluator and the report payload builder ([func.py]) *)

Module Func.

Local Open Scope result_scope.

(** [detect_text_response.get("image_text", {}).get("words", [])] *)
Definition words_of (detect_text_response : pyval) : result pyval :=
  image_text <- py_get detect_text_response "image_text" (PDict []) ;;
  py_get image_text "words" (PList []).

(** [all(f(x) for x in l)]: stops at the first element that is not true. *)
Fixpoint py_all (f : pyval -> result bool) (l : list pyval) : result bool :=
  match l with
  | [] => Ok true
  | x :: l' =>
      match f x with
      | Err e => Err e
      | Ok false => Ok false
      | Ok true => py_all f l'
      end
  end.

(** [word.get("confidence", 0) >= confidence_level] *)
Definition word_is_clear (confidence_level : number) (word : pyval) : result bool :=
  c <- py_get word "confidence" (PInt 0) ;;
  py_ge c confidence_level.

(** The default of [confidence_level], the literal [0.90]. *)
Definition default_confidence_level : number := NFloat (float_of_decimal 90 100).

Definition all_texts_are_clear_in_the_image
    (detect_text_response : pyval) (confidence_level : number) : result bool :=
  words <- words_of detect_text_response ;;
  ws <- py_iter words ;;
  py_all (word_is_clear confidence_level) ws.

(** [round(word.get("bounding_polygon", {}).get("normalized_vertices", [])[i].get(axis, 0), 2)] *)
Definition vertex_coordinate (word : pyval) (i : nat) (axis : string) : result pyval :=
  bounding_polygon <- py_get word "bounding_polygon" (PDict []) ;;
  normalized_vertices <- py_get bounding_polygon "normalized_vertices" (PList []) ;;
  vertex <- py_getitem_nat normalized_vertices i ;;
  c <- py_get vertex axis (PInt 0) ;;
  py_round c 2.

Definition corner (word : pyval) (i : nat) : result pyval :=
  x <- vertex_coordinate word i "x" ;;
  y <- vertex_coordinate word i "y" ;;
  Ok (PDict [("x", x); ("y", y)]).

(** [round(word.get("confidence", 0) * 100, 1)] *)
Definition confidence_percentage (word : pyval) : result pyval :=
  c <- py_get word "confidence" (PInt 0) ;;
  p <- py_mul_int c 100 ;;
  py_round p 1.

(** One entry of the ["words"] list comprehension. *)
Definition doc_gen_word (word : pyval) : result pyval :=
  text <- py_get word "text" PNone ;;
  confidence <- confidence_percentage word ;;
  corner1 <- corner word 0 ;;
  corner3 <- corner word 2 ;;
  Ok (PDict [("word", text); ("confidence", confidence);
             ("corner1", corner1); ("corner3", corner3)]).

Definition generate_doc_gen_data_content_from_ai_response
    (detect_text_response : pyval) (bucket_name namespace object_name : string)
    : result pyval :=
  words <- words_of detect_text_response ;;
  let image_with_anomalies :=
    PDict [("source", PStr "OBJECT_STORAGE");
           ("objectName", PStr object_name);
           ("namespace", PStr namespace);
           ("bucketName", PStr bucket_name);
           ("mediaType", PStr "image/png");
           ("height", PStr "450px")] in
  ws <- py_iter words ;;
  entries <- rmap doc_gen_word ws ;;
  Ok (PDict [("image_with_anomalies", image_with_anomalies);
             ("words", PList entries)]).

End Func.

(** ** The runtime and the remote services

    What the pipeline calls and the repository does not define: the
    [json], [mimetypes], [uuid], [datetime] and [requests] modules, the OCI
    SDK clients, and the helpers of [oci_utils.oci_ai],
    [oci_utils.oci_functions] and [oci_utils.oci_document_generator].  Each
    is an oracle of the world; one that can fail returns a [result]. *)

Record par_details : Type := ParDetails {
  par_name : string;
  par_access_type : string;
  par_bucket_listing_action : string;
  par_object_name : string;
  par_time_expires : Z
}.

(** The response of [create_preauthenticated_request]: its status, and its
    [data] (absent, or with a [full_path] that may be absent). *)
Record par_response : Type := ParResponse {
  par_status : Z;
  par_data : option (option string)
}.

Record world : Type := World {
  (** [json.loads] and [json.dumps] *)
  json_loads : string -> result pyval;
  json_dumps : pyval -> string;
  (** [str] of a float or of a container *)
  render : pyval -> string;
  (** [mimetypes.guess_type(filename)[0]] *)
  guess_type : string -> option string;
  (** [str(uuid.uuid4())] *)
  uuid4 : string;
  (** [datetime.utcnow()], in seconds *)
  utcnow : Z;
  (** [oci.object_storage.ObjectStorageClient(config, signer)] *)
  new_object_storage_client : result unit;
  (** [requests.get(url, headers)]: the status code and the content *)
  requests_get : string -> result (Z * string);
  (** [client.put_object(namespace, bucket, name, content, content_type).status] *)
  put_object : string -> string -> string -> string -> string -> result Z;
  (** [client.create_preauthenticated_request(namespace, bucket, details)] *)
  create_preauthenticated_request : string -> string -> par_details -> result par_response;
  (** [detect_text_from_oject_storage_image(cfg, signer, compartment, namespace, bucket, name)] *)
  detect_text : string -> string -> string -> string -> result pyval;
  (** [prepare_document_generator_payload(data, namespace, bucket, name, font, template)] *)
  prepare_document_generator_payload :
    pyval -> string -> string -> string -> string -> string -> result pyval;
  (** [build_output_pdf_name(image_name)] *)
  build_output_pdf_name : string -> result string;
  (** [invoke_function(cfg, signer, fn_ocid, payload)]: the [status_code] of
      the response and what [content.decode()] gives *)
  invoke_function : string -> pyval -> result (Z * result string)
}.

Inductive log_level : Type := DEBUG | INFO | ERROR.

(** The calls a run makes, in order. *)
Inductive event : Type :=
| Log (level : log_level) (msg : string)
| CallCreateObjectStorageClient
| CallRequestsGet (url : string)
| CallPutObject (namespace bucket_name object_name file_content content_type : string)
| CallDetectText (compartment_id namespace bucket_name object_name : string)
| CallAllTextsAreClear (detect_text_response : pyval)
| CallGenerateDocGenData (detect_text_response : pyval)
    (bucket_name namespace object_name : string)
| CallPrepareDocGenPayload (data_content : pyval)
| CallInvokeFunction (fn_ocid : string) (payload : pyval)
| CallBuildOutputPdfName (image_name : string)
| CallCreatePar (namespace bucket_name : string) (details : par_details).

(** [fdk.response.Response] *)
Record Response : Type := MkResponse {
  status_code : Z;
  response_data : string;
  headers : list (string * string)
}.

(** ** A monad for the handler: a trace of calls, and a step that goes on,
    returns from the handler, or raises. *)

Inductive outcome (A : Type) : Type :=
| Next (a : A)
| Return (r : Response)
| Raise (e : exn).
Arguments Next {A} a.
Arguments Return {A} r.
Arguments Raise {A} e.

Definition M (A : Type) : Type := list event * outcome A.

Definition mbind {A B : Type} (m : M A) (f : A -> M B) : M B :=
  match snd m with
  | Next a => ((fst m ++ fst (f a))%list, snd (f a))
  | Return r => (fst m, Return r)
  | Raise e => (fst m, Raise e)
  end.

Declare Scope handler_scope.
Delimit Scope handler_scope with M.
Notation "x <- m ;; k" := (mbind m (fun x => k))
  (at level 61, m at next level, right associativity) : handler_scope.
Notation "m ;; k" := (mbind m (fun _ => k))
  (at level 61, right associativity) : handler_scope.

Definition lift {A : Type} (r : result A) : M A :=
  match r with
  | Ok a => ([], Next a)
  | Err e => ([], Raise e)
  end.

(** A call: it is written to the trace, and its result goes on or raises. *)
Definition call {A : Type} (ev : event) (r : result A) : M A :=
  match r with
  | Ok a => ([ev], Next a)
  | Err e => ([ev], Raise e)
  end.

Definition logging (level : log_level) (msg : string) : M unit := ([Log level msg], Next tt).

Definition return_ {A : Type} (r : Response) : M A := ([], Return r).

(** [str(v)] inside an f-string *)
Definition py_str (w : world) (v : pyval) : string :=
  match v with
  | PNone => "None"
  | PBool true => "True"
  | PBool false => "False"
  | PInt z => string_of_Z z
  | PStr s => s
  | _ => render w v
  end.

(** ** [oci_utils/url_utils.py] *)

Module UrlUtils.

Local Open Scope handler_scope.

Definition get_image_content_type (w : world) (filename : string) : option string :=
  match guess_type w filename with
  | Some mime_type =>
      if String.eqb mime_type "image/jpeg" then Some "image/jpeg"
      else if String.eqb mime_type "image/png" then Some "image/png"
      else None
  | None => None
  end.

Fixpoint last_segment_from (acc s : string) : string :=
  match s with
  | EmptyString => acc
  | String c s' =>
      if Ascii.eqb c "/"%char then last_segment_from EmptyString s'
      else last_segment_from (acc ++ String c EmptyString)%string s'
  end.

(** [url.split('/')[-1]] *)
Definition last_segment (url : string) : string := last_segment_from EmptyString url.

Definition get_data_from_url (w : world) (url : pyval) : M (Z * string * string) :=
  match url with
  | PStr u =>
      let file_name := last_segment u in
      get_url_response <- call (CallRequestsGet u) (requests_get w u) ;;
      lift (Ok (fst get_url_response, snd get_url_response, file_name))
  | _ =>
      lift (Err (AttributeError
                   ("'" ++ type_name url ++ "' object has no attribute 'split'")%string))
  end.

Definition get_image_data_from_url (w : world) (url : pyval)
    : M (Z * string * string * option string) :=
  r <- get_data_from_url w url ;;
  let '(status_code, content, file_name) := r in
  let content_type := get_image_content_type w file_name in
  lift (Ok (status_code, content, file_name, content_type)).

End UrlUtils.

(** ** [oci_utils/oci_object_storage.py] *)

Module ObjectStorage.

Local Open Scope handler_scope.

Definition create_object_storage_client (w : world) : M unit :=
  call CallCreateObjectStorageClient (new_object_storage_client w).

Definition put_file_to_object_storage_image (w : world)
    (file_content namespace bucket_name object_name content_type : string) : M Z :=
  call (CallPutObject namespace bucket_name object_name file_content content_type)
       (put_object w namespace bucket_name object_name file_content content_type).

(** [response.data.full_path if response.data and response.data.full_path else None] *)
Definition full_path_of (r : par_response) : option string :=
  match par_data r with
  | Some (Some p) => if String.eqb p "" then None else Some p
  | _ => None
  end.

Definition create_read_only_object_par (w : world)
    (par_name namespace bucket_name object_name : string) (object_expiry_time : Z)
    : M (Z * option string) :=
  let details := ParDetails par_name "ObjectRead" "Deny" object_name object_expiry_time in
  response <- call (CallCreatePar namespace bucket_name details)
                   (create_preauthenticated_request w namespace bucket_name details) ;;
  lift (Ok (par_status response, full_path_of response)).

End ObjectStorage.

(** ** The handler ([func.py]) *)

Module Handler.

Import Func UrlUtils ObjectStorage.
Local Open Scope handler_scope.

Definition compartment_id : string := "ocid1.compartment.oc1..zzz".
Definition fn_ocid : string := "ocid1.fnfunc.oc1.iad..zzz".
Definition fontfile_name : string := "part3/Monoton.zip".
Definition template_name : string := "part3/TextAnomalyTemplate.docx".
Definition bucket_name : string := "fun_oci_functions_bucket".
Definition namespace : string := "idsvv7k2bdum".

Definition json_headers : list (string * string) := [("Content-Type", "application/json")].

(** [prepare_response(ctx, response_payload, status_code=200)] *)
Definition prepare_response (w : world) (response_payload : pyval) (status : Z) : Response :=
  MkResponse status (json_dumps w response_payload) json_headers.

Definition generate_error_response (w : world) (error_message : string) : M Response :=
  logging ERROR error_message ;;
  lift (Ok (prepare_response w (PDict [("message", PStr error_message)]) 400)).

(** ["part3/" + str(uuid.uuid4()) + "-" + file_name] *)
Definition image_name_of (w : world) (file_name : string) : string :=
  ("part3/" ++ uuid4 w ++ "-" ++ file_name)%string.

Definition str_of_option (o : option string) : pyval :=
  match o with
  | Some s => PStr s
  | None => PNone
  end.

(** A text between double quotes, as the f-strings of the log messages
    write it. *)
Definition quoted (s : string) : string :=
  (String (ascii_of_nat 34) s ++ String (ascii_of_nat 34) EmptyString)%string.

(** The body of the [try] block. *)
Definition handler_body (w : world) (data : string) : M Response :=
  (* 1. Parse the event data *)
  payload <- lift (json_loads w data) ;;
  logging INFO ("Received payload: " ++ json_dumps w payload) ;;
  url <- lift (py_getitem_str payload "url") ;;
  create_object_storage_client w ;;
  (* 2. Read Image data from URL *)
  fetched <- get_image_data_from_url w url ;;
  let '(url_status_code, file_content, file_name, content_type) := fetched in
  if negb (url_status_code =? 200) then
    r <- generate_error_response w
           ("Failed to retrieve the file from '" ++ py_str w url
              ++ "'. Status code: " ++ string_of_Z url_status_code) ;;
    return_ r
  else
  match content_type with
  | None =>
      r <- generate_error_response w
             ("Failed to retrieve a jpeg or png image from '" ++ py_str w url ++ "'.") ;;
      return_ r
  | Some content_type =>
  if negb (String.eqb content_type "image/jpeg") && negb (String.eqb content_type "image/png")
  then
    r <- generate_error_response w
           ("Failed to retrieve a jpeg or png image from '" ++ py_str w url ++ "'.") ;;
    return_ r
  else
  (* 3. Store the image in a Bucket *)
  let image_name := image_name_of w file_name in
  object_storage_response <-
    put_file_to_object_storage_image w file_content namespace bucket_name image_name
      content_type ;;
  if negb (object_storage_response =? 200) then
    r <- generate_error_response w
           ("Image " ++ image_name ++ " storing in Bucket " ++ bucket_name
              ++ " failed with status code " ++ string_of_Z object_storage_response ++ ".") ;;
    return_ r
  else
  logging INFO ("Image " ++ image_name ++ " stored successfully in Bucket " ++ bucket_name) ;;
  logging INFO ("Processing Image: " ++ quoted image_name ++ " from Bucket: "
                  ++ quoted bucket_name ++ " in Namespace: " ++ quoted namespace) ;;
  (* 4. Detect texts in the specified object storage image *)
  detect_text_response <-
    call (CallDetectText compartment_id namespace bucket_name image_name)
         (detect_text w compartment_id namespace bucket_name image_name) ;;
  logging DEBUG ("detect_text_response: " ++ py_str w detect_text_response) ;;
  (* 5. Do we have anomalies in some detected Words *)
  clear <- call (CallAllTextsAreClear detect_text_response)
                (all_texts_are_clear_in_the_image detect_text_response
                   default_confidence_level) ;;
  if clear then
    let response_message :=
      ("All Words are clear in Image: " ++ quoted image_name ++ " from Bucket: "
         ++ quoted bucket_name ++ " in Namespace: " ++ quoted namespace)%string in
    logging INFO (response_message ++ ". Processing Complete") ;;
    return_ (prepare_response w (PDict [("message", PStr response_message)]) 204)
  else
  logging INFO ("Anomalies found in Image: " ++ quoted image_name
                  ++ ". Generating PDF Document") ;;
  (* 6. Generate a PDF report using the OCI Document generator *)
  data_content <-
    call (CallGenerateDocGenData detect_text_response bucket_name namespace image_name)
         (generate_doc_gen_data_content_from_ai_response detect_text_response
            bucket_name namespace image_name) ;;
  doc_gen_fn_payload <-
    call (CallPrepareDocGenPayload data_content)
         (prepare_document_generator_payload w data_content namespace bucket_name
            image_name fontfile_name template_name) ;;
  response <- call (CallInvokeFunction fn_ocid doc_gen_fn_payload)
                   (invoke_function w fn_ocid doc_gen_fn_payload) ;;
  document_generator_response <- lift (snd response) ;;
  logging DEBUG ("DocGen Response: status code: " ++ string_of_Z (fst response)
                   ++ ", result: " ++ document_generator_response) ;;
  (if fst response =? 200 then
     document_generator_response_dict <- lift (json_loads w document_generator_response) ;;
     app_response_code <- lift (py_get document_generator_response_dict "code" PNone) ;;
     if py_eq_int app_response_code 200 then
       logging INFO "Document generated successfully"
     else
       r <- generate_error_response w
              ("Document generation failure: '" ++ py_str w app_response_code
                 ++ "'. See Application Log") ;;
       return_ r
   else lift (Ok tt)) ;;
  (* 7. Create PAR with the expiration date and time in 1 Hour from now *)
  pdf_name <- call (CallBuildOutputPdfName image_name) (build_output_pdf_name w image_name) ;;
  par <- create_read_only_object_par w "PAR_for_report" namespace bucket_name pdf_name
           (utcnow w + 3600) ;;
  let '(par_status_code, par_full_path) := par in
  if negb (par_status_code =? 200) then
    r <- generate_error_response w
           ("PAR generation error. Status code: " ++ string_of_Z par_status_code) ;;
    return_ r
  else
  logging INFO ("Pre-Authenticated Request URL: " ++ py_str w (str_of_option par_full_path)) ;;
  (* 8. Prepare response that includes the PAR URL *)
  let response_payload :=
    PDict [("inputUrl", url); ("reportWithAnomalies", str_of_option par_full_path)] in
  return_ (prepare_response w response_payload 200)
  end.

(** [handler(ctx, data)]: the trace of the run, and the response returned or
    the exception that leaves the handler. *)
Definition handler (w : world) (data : option string) : list event * result Response :=
  match data with
  | None =>
      let message := "No data provided"%string in
      ([Log INFO "Inside Python Text Anomaly Detection function (for API Gateway)";
        Log ERROR message],
       Ok (prepare_response w (PStr message) 200))
  | Some bytes =>
      let run := logging INFO "Inside Python Text Anomaly Detection function (for API Gateway)" ;;
                 handler_body w bytes in
      match snd run with
      | Next r | Return r => (fst run, Ok r)
      | Raise ex =>
          ((fst run ++ [Log INFO ("Error in handler: " ++ exn_str ex)])%list, Err ex)
      end
  end.

End Handler.

(** * The runtime: [mimetypes], [repr] and [json.dumps]

    Models of the functions of the standard library (CPython 3.11) that
    the examples run.  The properties of the pipeline hold for every
    world; these models give the worlds of the examples their runtime. *)

(** ** [mimetypes.guess_type]

    [guess_type name] is the first component of what the function returns.
    The table of types depends on the host, whose files [mimetypes.init]
    reads: [guess_type_in types] is the function on the table [types], and
    [guess_type] the function on the built-in table. *)

Module Mimetypes.

Definition suffix_map : list (string * string) :=
  [
   (".svgz", ".svg.gz");
   (".tgz", ".tar.gz");
   (".taz", ".tar.gz");
   (".tz", ".tar.gz");
   (".tbz2", ".tar.bz2");
   (".txz", ".tar.xz")
  ].

Definition encodings_map : list (string * string) :=
  [
   (".gz", "gzip");
   (".Z", "compress");
   (".bz2", "bzip2");
   (".xz", "xz");
   (".br", "br")
  ].

(** The types of the strict table, [types_map[True]]. *)
Definition types_map : list (string * string) :=
  [
   (".js", "application/javascript");
   (".mjs", "application/javascript");
   (".json", "application/json");
   (".webmanifest", "application/manifest+json");
   (".doc", "application/msword");
   (".dot", "application/msword");
   (".wiz", "application/msword");
   (".nq", "application/n-quads");
   (".nt", "application/n-triples");
   (".bin", "application/octet-stream");
   (".a", "application/octet-stream");
   (".dll", "application/octet-stream");
   (".exe", "application/octet-stream");
   (".o", "application/octet-stream");
   (".obj", "application/octet-stream");
   (".so", "application/octet-stream");
   (".oda", "application/oda");
   (".pdf", "application/pdf");
   (".p7c", "application/pkcs7-mime");
   (".ps", "application/postscript");
   (".ai", "application/postscript");
   (".eps", "application/postscript");
   (".trig", "application/trig");
   (".m3u", "application/vnd.apple.mpegurl");
   (".m3u8", "application/vnd.apple.mpegurl");
   (".xls", "application/vnd.ms-excel");
   (".xlb", "application/vnd.ms-excel");
   (".ppt", "application/vnd.ms-powerpoint");
   (".pot", "application/vnd.ms-powerpoint");
   (".ppa", "application/vnd.ms-powerpoint");
   (".pps", "application/vnd.ms-powerpoint");
   (".pwz", "application/vnd.ms-powerpoint");
   (".wasm", "application/wasm");
   (".bcpio", "application/x-bcpio");
   (".cpio", "application/x-cpio");
   (".csh", "application/x-csh");
   (".dvi", "application/x-dvi");
   (".gtar", "application/x-gtar");
   (".hdf", "application/x-hdf");
   (".h5", "application/x-hdf5");
   (".latex", "application/x-latex");
   (".mif", "application/x-mif");
   (".cdf", "application/x-netcdf");
   (".nc", "application/x-netcdf");
   (".p12", "application/x-pkcs12");
   (".pfx", "application/x-pkcs12");
   (".ram", "application/x-pn-realaudio");
   (".pyc", "application/x-python-code");
   (".pyo", "application/x-python-code");
   (".sh", "application/x-sh");
   (".shar", "application/x-shar");
   (".swf", "application/x-shockwave-flash");
   (".sv4cpio", "application/x-sv4cpio");
   (".sv4crc", "application/x-sv4crc");
   (".tar", "application/x-tar");
   (".tcl", "application/x-tcl");
   (".tex", "application/x-tex");
   (".texi", "application/x-texinfo");
   (".texinfo", "application/x-texinfo");
   (".roff", "application/x-troff");
   (".t", "application/x-troff");
   (".tr", "application/x-troff");
   (".man", "application/x-troff-man");
   (".me", "application/x-troff-me");
   (".ms", "application/x-troff-ms");
   (".ustar", "application/x-ustar");
   (".src", "application/x-wais-source");
   (".xsl", "application/xml");
   (".rdf", "application/xml");
   (".wsdl", "application/xml");
   (".xpdl", "application/xml");
   (".zip", "application/zip");
   (".3gp", "audio/3gpp");
   (".3gpp", "audio/3gpp");
   (".3g2", "audio/3gpp2");
   (".3gpp2", "audio/3gpp2");
   (".aac", "audio/aac");
   (".adts", "audio/aac");
   (".loas", "audio/aac");
   (".ass", "audio/aac");
   (".au", "audio/basic");
   (".snd", "audio/basic");
   (".mp3", "audio/mpeg");
   (".mp2", "audio/mpeg");
   (".opus", "audio/opus");
   (".aif", "audio/x-aiff");
   (".aifc", "audio/x-aiff");
   (".aiff", "audio/x-aiff");
   (".ra", "audio/x-pn-realaudio");
   (".wav", "audio/x-wav");
   (".avif", "image/avif");
   (".bmp", "image/bmp");
   (".gif", "image/gif");
   (".ief", "image/ief");
   (".jpg", "image/jpeg");
   (".jpe", "image/jpeg");
   (".jpeg", "image/jpeg");
   (".heic", "image/heic");
   (".heif", "image/heif");
   (".png", "image/png");
   (".svg", "image/svg+xml");
   (".tiff", "image/tiff");
   (".tif", "image/tiff");
   (".ico", "image/vnd.microsoft.icon");
   (".ras", "image/x-cmu-raster");
   (".pnm", "image/x-portable-anymap");
   (".pbm", "image/x-portable-bitmap");
   (".pgm", "image/x-portable-graymap");
   (".ppm", "image/x-portable-pixmap");
   (".rgb", "image/x-rgb");
   (".xbm", "image/x-xbitmap");
   (".xpm", "image/x-xpixmap");
   (".xwd", "image/x-xwindowdump");
   (".eml", "message/rfc822");
   (".mht", "message/rfc822");
   (".mhtml", "message/rfc822");
   (".nws", "message/rfc822");
   (".css", "text/css");
   (".csv", "text/csv");
   (".html", "text/html");
   (".htm", "text/html");
   (".n3", "text/n3");
   (".txt", "text/plain");
   (".bat", "text/plain");
   (".c", "text/plain");
   (".h", "text/plain");
   (".ksh", "text/plain");
   (".pl", "text/plain");
   (".srt", "text/plain");
   (".rtx", "text/richtext");
   (".tsv", "text/tab-separated-values");
   (".vtt", "text/vtt");
   (".py", "text/x-python");
   (".etx", "text/x-setext");
   (".sgm", "text/x-sgml");
   (".sgml", "text/x-sgml");
   (".vcf", "text/x-vcard");
   (".xml", "text/xml");
   (".mp4", "video/mp4");
   (".mpeg", "video/mpeg");
   (".m1v", "video/mpeg");
   (".mpa", "video/mpeg");
   (".mpe", "video/mpeg");
   (".mpg", "video/mpeg");
   (".mov", "video/quicktime");
   (".qt", "video/quicktime");
   (".webm", "video/webm");
   (".avi", "video/x-msvideo");
   (".movie", "video/x-sgi-movie")
  ].

Fixpoint lookup (k : string) (table : list (string * string)) : option string :=
  match table with
  | [] => None
  | (k', v) :: table' => if String.eqb k k' then Some v else lookup k table'
  end.

(** [c.lower()] of an ASCII letter; other bytes are kept. *)
Definition lower_ascii (c : ascii) : ascii :=
  let n := nat_of_ascii c in
  if ((65 <=? n) && (n <=? 90))%nat then ascii_of_nat (n + 32) else c.

Fixpoint lower (s : string) : string :=
  match s with
  | EmptyString => EmptyString
  | String c s' => String (lower_ascii c) (lower s')
  end.

(** [s.rfind(c)] as a cut: what comes before the last [c], and the rest
    from that [c] on. *)
Fixpoint rsplit_at (c : ascii) (s : string) : option (string * string) :=
  match s with
  | EmptyString => None
  | String a s' =>
      match rsplit_at c s' with
      | Some (before, rest) => Some (String a before, rest)
      | None => if Ascii.eqb a c then Some (EmptyString, s) else None
      end
  end.

(** The leading dots of a name, and what follows them. *)
Fixpoint leading_dots (s : string) : string * string :=
  match s with
  | String c s' =>
      if Ascii.eqb c "."%char
      then let '(dots, rest) := leading_dots s' in (String c dots, rest)
      else (EmptyString, s)
  | EmptyString => (EmptyString, s)
  end.

(** [posixpath.splitext(p)]: the extension starts at the last dot of the
    last component, leading dots of the component apart. *)
Definition splitext (p : string) : string * string :=
  let '(directory, name) :=
    match rsplit_at "/"%char p with
    | Some (before, String slash name) => (before ++ String slash EmptyString, name)
    | _ => (EmptyString, p)
    end in
  let '(dots, rest) := leading_dots name in
  match rsplit_at "."%char rest with
  | Some (root, ext) => (directory ++ dots ++ root, ext)
  | None => (p, EmptyString)
  end.

(** The cut of [s] at its first [c]: what comes before, and what comes
    after. *)
Fixpoint split_at (c : ascii) (s : string) : option (string * string) :=
  match s with
  | EmptyString => None
  | String a s' =>
      if Ascii.eqb a c then Some (EmptyString, s')
      else match split_at c s' with
           | Some (before, rest) => Some (String a before, rest)
           | None => None
           end
  end.

Fixpoint has_char (c : ascii) (s : string) : bool :=
  match s with
  | EmptyString => false
  | String a s' => Ascii.eqb a c || has_char c s'
  end.

(** [urllib.parse._splittype(url)]: a scheme is a nonempty text without
    slash before the first colon. *)
Definition splittype (url : string) : option string * string :=
  match split_at ":"%char url with
  | Some (String c scheme, rest) =>
      if has_char "/"%char (String c scheme) then (None, url)
      else (Some (lower (String c scheme)), rest)
  | _ => (None, url)
  end.

(** The type of a data URL. *)
Definition data_type (url : string) : option string :=
  match split_at ","%char url with
  | None => None
  | Some (before, _) =>
      let type :=
        match split_at ";"%char before with
        | Some (t, _) => t
        | None => before
        end in
      if has_char "="%char type || negb (has_char "/"%char type)
      then Some "text/plain" else Some type
  end.

(** The type of a path: a suffix of [suffix_map] is replaced first (what
    replaces it ends in an extension that is no key of [suffix_map], so
    the loop of the source runs once at most), an extension of
    [encodings_map] is taken off, and the extension that remains is looked
    up in lower case. *)
Definition path_type (types : list (string * string)) (path : string) : option string :=
  let '(base, ext) := splitext path in
  let '(base, ext) :=
    match lookup (lower ext) suffix_map with
    | Some suffix => splitext (base ++ suffix)
    | None => (base, ext)
    end in
  let ext :=
    match lookup ext encodings_map with
    | Some _ => snd (splitext base)
    | None => ext
    end in
  lookup (lower ext) types.

Definition guess_type_in (types : list (string * string)) (url : string) : option string :=
  match splittype url with
  | (Some scheme, rest) =>
      if String.eqb scheme "data" then data_type rest else path_type types rest
  | (None, rest) => path_type types rest
  end.

Definition guess_type (url : string) : option string := guess_type_in types_map url.

(** The table gives the image extensions the types of the built-in table. *)
Definition images_as_builtin (types : list (string * string)) : Prop :=
  lookup ".png" types = Some "image/png"
  /\ lookup ".jpg" types = Some "image/jpeg"
  /\ lookup ".jpeg" types = Some "image/jpeg"
  /\ lookup ".jpe" types = Some "image/jpeg"
  /\ lookup ".gif" types = Some "image/gif"
  /\ lookup EmptyString types = None.

End Mimetypes.

(** ** [repr] of a float

    The shortest decimal that reads back as the float, the nearest to it
    among the shortest, written as [repr] writes it. *)

Module FloatRepr.

(** [m * 2^e < 10^k], exactly *)
Definition below_pow10 (m : positive) (e k : Z) : bool :=
  let lhs := Zpos m * 2 ^ (Z.max e 0) * 10 ^ (Z.max (- k) 0) in
  let rhs := 2 ^ (Z.max (- e) 0) * 10 ^ (Z.max k 0) in
  lhs <? rhs.

(** The least [k] from [k0] on with [m * 2^e < 10^k]. *)
Fixpoint decimal_point (fuel : nat) (m : positive) (e k0 : Z) : Z :=
  match fuel with
  | O => k0
  | S fuel' => if below_pow10 m e k0 then k0 else decimal_point fuel' m e (k0 + 1)
  end.

(** The float nearest to [d * 10^j] *)
Definition float_of_scaled (d j : Z) : spec_float :=
  match d with
  | Zpos d' =>
      if 0 <=? j then binary_normalize prec emax (d * 10 ^ j) 0 false
      else SFdiv prec emax (S754_finite false d' 0)
             (S754_finite false (Z.to_pos (10 ^ (- j))) 0)
  | _ => S754_zero false
  end.

Definition same_float (m : positive) (e : Z) (f : spec_float) : bool :=
  match f with
  | S754_finite false m' e' => Pos.eqb m m' && Z.eqb e e'
  | _ => false
  end.

(** [floor (m * 2^e / 10^j)] *)
Definition scaled_floor (m : positive) (e j : Z) : Z :=
  (Zpos m * 2 ^ (Z.max e 0) * 10 ^ (Z.max (- j) 0))
  / (2 ^ (Z.max (- e) 0) * 10 ^ (Z.max j 0)).

(** [2 * m * 2^e ?= (2 * lo + 1) * 10^j]: the value against the middle of
    [lo * 10^j] and [(lo + 1) * 10^j] *)
Definition compare_middle (m : positive) (e j lo : Z) : comparison :=
  (2 * Zpos m * 2 ^ (Z.max e 0) * 10 ^ (Z.max (- j) 0))
  ?= ((2 * lo + 1) * 2 ^ (Z.max (- e) 0) * 10 ^ (Z.max j 0)).

(** The decimal with [p] digits that reads back as the float and is
    nearest to it, when there is one. *)
Definition digits_at (m : positive) (e point : Z) (p : Z) : option Z :=
  let j := point - p in
  let lo := scaled_floor m e j in
  let ok_lo := same_float m e (float_of_scaled lo j) in
  let ok_hi := same_float m e (float_of_scaled (lo + 1) j) in
  match ok_lo, ok_hi with
  | true, false => Some lo
  | false, true => Some (lo + 1)
  | false, false => None
  | true, true =>
      match compare_middle m e j lo with
      | Lt => Some lo
      | Gt => Some (lo + 1)
      | Eq => Some (if Z.even lo then lo else lo + 1)
      end
  end.

(** The shortest such decimal: its digits and their number. *)
Fixpoint shortest (fuel : nat) (m : positive) (e point : Z) (p : Z) : Z * Z :=
  match fuel with
  | O => (scaled_floor m e (point - p), p)
  | S fuel' =>
      match digits_at m e point p with
      | Some d => (d, p)
      | None => shortest fuel' m e point (p + 1)
      end
  end.

Fixpoint strip_zeros (fuel : nat) (d : Z) : Z :=
  match fuel with
  | O => d
  | S fuel' => if (d mod 10 =? 0) && negb (d =? 0) then strip_zeros fuel' (d / 10) else d
  end.

Fixpoint zeros (n : nat) : string :=
  match n with
  | O => EmptyString
  | S n' => String "0" (zeros n')
  end.

Definition two_digits (z : Z) : string :=
  if z <? 10 then String "0" (string_of_Z z) else string_of_Z z.

(** The text of a positive finite float, as [repr] writes it. *)
Definition repr_positive (m : positive) (e : Z) : string :=
  let bits := Zpos (digits2_pos m) + e in
  let point0 := decimal_point 6 m e ((bits - 1) * 30103 / 100000 - 1) in
  let '(d0, p) := shortest 17 m e point0 1 in
  (* [d0] may be [10^p]: one digit more *)
  let point := if d0 =? 10 ^ p then point0 + 1 else point0 in
  let d := strip_zeros 20 d0 in
  let digits := string_of_Z d in
  let n := Z.of_nat (String.length digits) in
  if (point <=? -4) || (16 <? point) then
    let mantissa :=
      match digits with
      | String c EmptyString => digits
      | String c rest => String c (String "." rest)
      | EmptyString => digits
      end in
    let x := point - 1 in
    let sign := if x <? 0 then "-" else "+" in
    (mantissa ++ "e" ++ sign ++ two_digits (Z.abs x))%string
  else if point <=? 0 then
    ("0." ++ zeros (Z.to_nat (- point)) ++ digits)%string
  else if point <? n then
    (substring 0 (Z.to_nat point) digits ++ "."
       ++ substring (Z.to_nat point) (Z.to_nat (n - point)) digits)%string
  else
    (digits ++ zeros (Z.to_nat (point - n)) ++ ".0")%string.

(** [repr(x)] of a float *)
Definition repr (f : spec_float) : string :=
  match f with
  | S754_zero s => if s then "-0.0" else "0.0"
  | S754_infinity s => if s then "-inf" else "inf"
  | S754_nan => "nan"
  | S754_finite s m e => ((if s then "-" else EmptyString) ++ repr_positive m e)%string
  end.

End FloatRepr.

(** ** [json.dumps] and [repr] of a value *)

Module PyText.

Definition hex_digit (n : N) : ascii :=
  ascii_of_N (if (n <? 10)%N then 48 + n else 87 + n)%N.

(** [n] in hexadecimal, lower case, on [width] digits *)
Fixpoint hex (width : nat) (n : N) : string :=
  match width with
  | O => EmptyString
  | S width' => (hex width' (n / 16) ++ String (hex_digit (n mod 16)) EmptyString)%string
  end.

Definition continuation (c : ascii) : option N :=
  let n := N_of_ascii c in
  if ((128 <=? n) && (n <? 192))%N then Some (n - 128)%N else None.

(** The code points of a text in UTF-8; a byte that starts no well-formed
    sequence counts for itself. *)
Fixpoint code_points (s : string) : list N :=
  match s with
  | EmptyString => []
  | String c s1 =>
      let n := N_of_ascii c in
      let single := n :: code_points s1 in
      if (n <? 192)%N then single
      else
        match s1 with
        | String c1 s2 =>
            match continuation c1 with
            | None => single
            | Some n1 =>
                if (n <? 224)%N then ((n - 192) * 64 + n1)%N :: code_points s2
                else
                  match s2 with
                  | String c2 s3 =>
                      match continuation c2 with
                      | None => single
                      | Some n2 =>
                          if (n <? 240)%N
                          then ((n - 224) * 4096 + n1 * 64 + n2)%N :: code_points s3
                          else
                            match s3 with
                            | String c3 s4 =>
                                match continuation c3 with
                                | None => single
                                | Some n3 =>
                                    ((n - 240) * 262144 + n1 * 4096 + n2 * 64 + n3)%N
                                      :: code_points s4
                                end
                            | EmptyString => single
                            end
                      end
                  | EmptyString => single
                  end
            end
        | EmptyString => single
        end
  end.

Definition backslash : ascii := ascii_of_nat 92.

(** What [json.dumps] writes for one code point (with [ensure_ascii]). *)
Definition json_escape (n : N) : string :=
  if (n =? 34)%N then String backslash (String (ascii_of_nat 34) EmptyString)
  else if (n =? 92)%N then String backslash (String backslash EmptyString)
  else if (n =? 8)%N then String backslash "b"
  else if (n =? 12)%N then String backslash "f"
  else if (n =? 10)%N then String backslash "n"
  else if (n =? 13)%N then String backslash "r"
  else if (n =? 9)%N then String backslash "t"
  else if ((32 <=? n) && (n <=? 126))%N then String (ascii_of_N n) EmptyString
  else if (n <? 65536)%N then (String backslash "u" ++ hex 4 n)%string
  else
    let v := (n - 65536)%N in
    (String backslash "u" ++ hex 4 (55296 + (v / 1024) mod 1024)
       ++ String backslash "u" ++ hex 4 (56320 + v mod 1024))%string.

Definition json_string (s : string) : string :=
  Handler.quoted (String.concat EmptyString (map json_escape (code_points s))).

Definition json_float (f : spec_float) : string :=
  match f with
  | S754_nan => "NaN"
  | S754_infinity s => if s then "-Infinity" else "Infinity"
  | _ => FloatRepr.repr f
  end.

(** [json.dumps(v)], with its default settings *)
Fixpoint json_dumps (v : pyval) : string :=
  match v with
  | PNone => "null"
  | PBool b => if b then "true" else "false"
  | PInt z => string_of_Z z
  | PFloat f => json_float f
  | PStr s => json_string s
  | PList l => ("[" ++ String.concat ", " (map json_dumps l) ++ "]")%string
  | PDict d =>
      ("{" ++ String.concat ", "
                (map (fun kv => (json_string (fst kv) ++ ": " ++ json_dumps (snd kv))%string) d)
           ++ "}")%string
  end.

Fixpoint has_char (c : ascii) (s : string) : bool :=
  match s with
  | EmptyString => false
  | String a s' => Ascii.eqb a c || has_char c s'
  end.

(** What [repr] writes for one byte of a string between the quotes [q]; a
    byte of a character outside ASCII is kept. *)
Definition repr_escape (q : ascii) (c : ascii) : string :=
  let n := N_of_ascii c in
  if Ascii.eqb c q || Ascii.eqb c backslash then String backslash (String c EmptyString)
  else if (n =? 9)%N then String backslash "t"
  else if (n =? 10)%N then String backslash "n"
  else if (n =? 13)%N then String backslash "r"
  else if ((n <? 32) || (n =? 127))%N then (String backslash "x" ++ hex 2 n)%string
  else String c EmptyString.

(** [repr(s)] of a string: single quotes, or double quotes when the text
    has a single quote and no double quote. *)
Definition repr_string (s : string) : string :=
  let q := if has_char "'"%char s && negb (has_char (ascii_of_nat 34) s)
           then ascii_of_nat 34 else "'"%char in
  (String q (String.concat EmptyString (map (repr_escape q) (list_ascii_of_string s)))
     ++ String q EmptyString)%string.

(** [repr(v)]; it is also [str(v)] of a float, a list or a dictionary. *)
Fixpoint repr (v : pyval) : string :=
  match v with
  | PNone => "None"
  | PBool b => if b then "True" else "False"
  | PInt z => string_of_Z z
  | PFloat f => FloatRepr.repr f
  | PStr s => repr_string s
  | PList l => ("[" ++ String.concat ", " (map repr l) ++ "]")%string
  | PDict d =>
      ("{" ++ String.concat ", "
                (map (fun kv => (repr_string (fst kv) ++ ": " ++ repr (snd kv))%string) d)
           ++ "}")%string
  end.

End PyText.

(** * Vocabulary of the properties *)

Import Func UrlUtils ObjectStorage Handler.

(** ** The anomaly evaluator *)

(** The words the evaluator and the builder go through. *)
Definition detected_words (detect_text_response : pyval) : result (list pyval) :=
  (words <- words_of detect_text_response ;; py_iter words)%res.

(** [word.get("confidence", 0)] *)
Definition confidence_of (word : pyval) : result pyval :=
  py_get word "confidence" (PInt 0).

(** The word has a confidence, a number, and it is at least [t]. *)
Definition confidence_ge (t : number) (word : pyval) : Prop :=
  exists c n, confidence_of word = Ok c /\ as_number c = Some n /\ number_ge n t = true.

(** The word has a confidence, a number, and it is strictly below [t]. *)
Definition confidence_lt (t : number) (word : pyval) : Prop :=
  exists c n, confidence_of word = Ok c /\ as_number c = Some n /\ number_lt n t = true.

(** The word has a confidence and it is a number. *)
Definition confidence_numeric (word : pyval) : Prop :=
  exists c n, confidence_of word = Ok c /\ as_number c = Some n.

(** ** Detection responses for the examples *)

(** A vertex, its coordinates given in hundredths. *)
Definition sample_vertex (x y : Z) : pyval :=
  PDict [("x", PFloat (float_of_decimal x 100)); ("y", PFloat (float_of_decimal y 100))].

Definition sample_polygon : pyval :=
  PDict [("normalized_vertices",
          PList [sample_vertex 10 10; sample_vertex 40 10;
                 sample_vertex 40 20; sample_vertex 10 20])].

(** A word of the detection response with the given text and confidence
    (in hundredths) and a rectangle for its polygon. *)
Definition sample_word (text : string) (confidence : Z) : pyval :=
  PDict [("text", PStr text);
         ("confidence", PFloat (float_of_decimal confidence 100));
         ("bounding_polygon", sample_polygon)].

(** A word with the confidence [c]. *)
Definition word_with_confidence (c : pyval) : pyval :=
  PDict [("text", PStr "word"); ("confidence", c); ("bounding_polygon", sample_polygon)].

(** A word without a confidence. *)
Definition word_without_confidence : pyval :=
  PDict [("text", PStr "word"); ("bounding_polygon", sample_polygon)].

(** The detection response with the given words. *)
Definition sample_detection (words : list pyval) : pyval :=
  PDict [("image_text", PDict [("words", PList words)])].

(** ** Percentages *)

(** The value is a number between 0 and 100. *)
Definition percentage_in_range (q : pyval) : Prop :=
  exists n, as_number q = Some n
            /\ number_ge n (NInt 0) = true /\ number_ge (NInt 100) n = true.

(** The value is a number between 0 and 1. *)
Definition confidence_in_unit_range (c : pyval) : Prop :=
  exists n, as_number c = Some n
            /\ number_ge n (NInt 0) = true /\ number_ge (NInt 1) n = true.

(** Equality of floats as data (not the IEEE equality). *)
Definition spec_float_eqb (x y : spec_float) : bool :=
  match x, y with
  | S754_zero a, S754_zero b => Bool.eqb a b
  | S754_infinity a, S754_infinity b => Bool.eqb a b
  | S754_nan, S754_nan => true
  | S754_finite a m e, S754_finite b m' e' => Bool.eqb a b && Pos.eqb m m' && Z.eqb e e'
  | _, _ => false
  end.

(** The float of the decimal [k / 10^ndigits] is no infinity and is rounded
    to itself. *)
Definition fixed_by_round (ndigits : nat) (k : Z) : bool :=
  match float_of_digits false k ndigits with
  | S754_infinity _ => false
  | r =>
      match float_round r ndigits with
      | Ok r' => spec_float_eqb r' r
      | Err _ => false
      end
  end.

(** [f] holds of [0], [1], ..., [n]. *)
Definition holds_up_to (f : Z -> bool) (n : nat) : bool :=
  forallb f (map Z.of_nat (seq 0 (S n))).

(** ** Runs of the handler *)

(** The event is an upload or a call of the text detection. *)
Definition is_storage_or_detection (ev : event) : bool :=
  match ev with
  | CallPutObject _ _ _ _ _ | CallDetectText _ _ _ _ => true
  | _ => false
  end.

(** The event belongs to the creation of the link. *)
Definition is_create_par (ev : event) : bool :=
  match ev with
  | CallBuildOutputPdfName _ | CallCreatePar _ _ _ => true
  | _ => false
  end.

(** The event belongs to the report stage or to the creation of the link. *)
Definition is_report_or_link (ev : event) : bool :=
  match ev with
  | CallGenerateDocGenData _ _ _ _ | CallPrepareDocGenPayload _
  | CallInvokeFunction _ _ => true
  | _ => is_create_par ev
  end.

(** The event is an error written to the log. *)
Definition is_error_log (ev : event) : bool :=
  match ev with
  | Log ERROR _ => true
  | _ => false
  end.

(** The response of [generate_error_response]. *)
Definition error_response (w : world) (message : string) : Response :=
  prepare_response w (PDict [("message", PStr message)]) 400.

(** The trace of a run up to the fetch of the image. *)
Definition trace_to_fetch (w : world) (payload : pyval) (u : string) : list event :=
  [Log INFO "Inside Python Text Anomaly Detection function (for API Gateway)";
   Log INFO ("Received payload: " ++ json_dumps w payload);
   CallCreateObjectStorageClient;
   CallRequestsGet u].

(** The trace of a run up to the call of the text detection. *)
Definition trace_to_detection (w : world) (payload : pyval) (u content content_type : string)
    : list event :=
  let image_name := image_name_of w (last_segment u) in
  (trace_to_fetch w payload u ++
   [CallPutObject namespace bucket_name image_name content content_type;
    Log INFO ("Image " ++ image_name ++ " stored successfully in Bucket " ++ bucket_name);
    Log INFO ("Processing Image: " ++ quoted image_name ++ " from Bucket: "
                ++ quoted bucket_name ++ " in Namespace: " ++ quoted namespace);
    CallDetectText compartment_id namespace bucket_name image_name])%list.

(** The trace of a run from the answer of the text detection up to the call
    of the document generator, on an image with anomalies. *)
Definition trace_of_report (w : world) (u : string)
    (d data_content doc_gen_fn_payload : pyval) : list event :=
  let image_name := image_name_of w (last_segment u) in
  [Log DEBUG ("detect_text_response: " ++ py_str w d);
   CallAllTextsAreClear d;
   Log INFO ("Anomalies found in Image: " ++ quoted image_name
               ++ ". Generating PDF Document");
   CallGenerateDocGenData d bucket_name namespace image_name;
   CallPrepareDocGenPayload data_content;
   CallInvokeFunction fn_ocid doc_gen_fn_payload].

(** The details of the link request for the report [pdf_name]. *)
Definition report_par_details (w : world) (pdf_name : string) : par_details :=
  ParDetails "PAR_for_report" "ObjectRead" "Deny" pdf_name (utcnow w + 3600).

(** ** The extensions the specification names *)

(** The extension of a file name: the text after its last dot. *)
Definition spec_extension (name : string) : option string :=
  match Mimetypes.rsplit_at "."%char name with
  | Some (_, String _ ext) => Some ext
  | _ => None
  end.

(** The file name has one of the extensions [jpeg], [jpg] and [png]. *)
Definition spec_recognized (name : string) : bool :=
  match spec_extension name with
  | Some ext => String.eqb ext "jpeg" || String.eqb ext "jpg" || String.eqb ext "png"
  | None => false
  end.

(** ** A world for the scenarios

    A runtime whose JSON reader knows the requests and the two answers of
    the document generator used below, and whose [json.dumps], [str] and
    [mimetypes.guess_type] are the models of the standard library, on the
    built-in table of types.  The remote services answer what the scenario
    says. *)

Module Sample.

Local Open Scope string_scope.

Definition sample_url : string := "https://example.com/images/photo.png".
Definition jpg_url : string := "https://example.com/images/photo.jpg".
Definition gif_url : string := "https://example.com/images/photo.gif".
Definition bare_url : string := "https://example.com/images/photo".
Definition jpe_url : string := "https://example.com/images/photo.jpe".
Definition gz_url : string := "https://example.com/images/photo.png.gz".

Definition request_for (url : string) : string :=
  "{" ++ quoted "url" ++ ": " ++ quoted url ++ "}".

Definition request_text : string := request_for sample_url.

(** A double quote as [json.dumps] writes it inside a string. *)
Definition escaped_quote : string :=
  String (ascii_of_nat 92) (String (ascii_of_nat 34) EmptyString).

Definition docgen_text (code : Z) : string :=
  "{" ++ quoted "code" ++ ": " ++ string_of_Z code ++ "}".

Definition JSONDecodeError : exn :=
  Exn "JSONDecodeError" "Expecting value: line 1 column 1 (char 0)".

Fixpoint request_of (s : string) (urls : list string) : option string :=
  match urls with
  | [] => None
  | url :: urls' => if String.eqb s (request_for url) then Some url else request_of s urls'
  end.

Definition sample_json_loads (s : string) : result pyval :=
  match request_of s [sample_url; jpg_url; gif_url; bare_url; jpe_url; gz_url] with
  | Some url => Ok (PDict [("url", PStr url)])
  | None =>
      if String.eqb s (docgen_text 200) then Ok (PDict [("code", PInt 200)])
      else if String.eqb s (docgen_text 500) then Ok (PDict [("code", PInt 500)])
      else Err JSONDecodeError
  end.

Definition sample_par_url : string :=
  "https://objectstorage.example.com/p/token/n/idsvv7k2bdum/b/fun_oci_functions_bucket/o/report.pdf".

(** The world of a scenario: what the fetch, the upload, the detection,
    the document generator and the link creation answer. *)
Definition scenario (fetch : result (Z * string)) (put : result Z)
    (detect : result pyval) (invoke : result (Z * result string))
    (par : result par_response) : world :=
  {| json_loads := sample_json_loads;
     json_dumps := PyText.json_dumps;
     render := PyText.repr;
     guess_type := Mimetypes.guess_type;
     uuid4 := "123e4567-e89b-42d3-a456-426614174000";
     utcnow := 1700000000;
     new_object_storage_client := Ok tt;
     requests_get := fun _ => fetch;
     put_object := fun _ _ _ _ _ => put;
     create_preauthenticated_request := fun _ _ _ => par;
     detect_text := fun _ _ _ _ => detect;
     prepare_document_generator_payload :=
       fun data _ _ _ _ _ => Ok (PDict [("requestType", PStr "SINGLE"); ("data", data)]);
     build_output_pdf_name := fun name => Ok (name ++ ".pdf");
     invoke_function := fun _ _ => invoke |}.

Definition par_ok : result par_response := Ok (ParResponse 200 (Some (Some sample_par_url))).

Definition clear_detection : pyval :=
  sample_detection [sample_word "INVOICE" 99; sample_word "TOTAL" 93].

Definition anomalous_detection : pyval :=
  sample_detection [sample_word "INVOICE" 99; sample_word "T0TAL" 50].

End Sample.

(** * The API key function ([ApiKeyAuthentication/func.py]) *)

Module ApiKey.

Local Open Scope handler_scope.

(** The hard-coded set of API keys. *)
Definition valid_api_keys : list string :=
  ["11cb5027-28d2-4359-b8e8-cc209a963a0d";
   "6340df79-56c7-401d-b6d0-2cdfb0591ea6";
   "58717bb9-44a1-4072-b498-c78c22a85919"].

(** [token in valid_api_keys]: a value that is no string equals none of
    the keys. *)
Definition token_is_valid (token : pyval) : bool :=
  match token with
  | PStr s => existsb (String.eqb s) valid_api_keys
  | _ => false
  end.

Definition authorized_response (w : world) : Response :=
  MkResponse 200 (json_dumps w (PDict [("active", PBool true)])) [].

Definition unauthorized_response (w : world) : Response :=
  MkResponse 401
    (json_dumps w (PDict [("active", PBool false); ("wwwAuthenticate", PStr "API-key")])) [].

(** The body of the [try] block: it returns the response of an authorized
    caller, or goes on past the block. *)
Definition check_token (w : world) (bytes : string) : M unit :=
  auth_token <- lift (json_loads w bytes) ;;
  data <- lift (py_get auth_token "data" PNone) ;;
  token <- lift (py_get data "api-key" PNone) ;;
  if token_is_valid token then
    logging INFO "Result: Authorized" ;;
    return_ (authorized_response w)
  else lift (Ok tt).

(** [handler(ctx, data)]; [decode_utf8] is [bytes.decode('utf-8')].  The
    body is decoded and logged before the [try] block; what the block
    raises is logged and the caller is not authorized. *)
Definition handler (w : world) (decode_utf8 : string -> result string)
    (data : option string) : list event * result Response :=
  match data with
  | None => ([], Err (AttributeError "'NoneType' object has no attribute 'getvalue'"))
  | Some bytes =>
      match decode_utf8 bytes with
      | Err ex => ([], Err ex)
      | Ok text =>
          let run := check_token w bytes in
          match snd run with
          | Return r => ((Log INFO text :: fst run)%list, Ok r)
          | Next _ =>
              ((Log INFO text :: fst run ++ [Log INFO "Result: Unauthorized"])%list,
               Ok (unauthorized_response w))
          | Raise ex =>
              ((Log INFO text :: fst run
                  ++ [Log INFO ("error parsing json payload: " ++ exn_str ex);
                      Log INFO "Result: Unauthorized"])%list,
               Ok (unauthorized_response w))
          end
      end
  end.

(** The body is a JSON object whose ["data"] object has one of the keys
    under ["api-key"]. *)
Definition carries_valid_key (w : world) (bytes : string) : Prop :=
  exists auth_token data key,
    json_loads w bytes = Ok auth_token
    /\ py_get auth_token "data" PNone = Ok data
    /\ py_get data "api-key" PNone = Ok (PStr key)
    /\ In key valid_api_keys.

(** The [try] block raises [ex]: the body is no JSON text, or the JSON
    value or its ["data"] entry is no object. *)
Definition parsing_raises (w : world) (bytes : string) (ex : exn) : Prop :=
  json_loads w bytes = Err ex
  \/ (exists auth_token,
         json_loads w bytes = Ok auth_token
         /\ py_get auth_token "data" PNone = Err ex)
  \/ (exists auth_token data,
         json_loads w bytes = Ok auth_token
         /\ py_get auth_token "data" PNone = Ok data
         /\ py_get data "api-key" PNone = Err ex).

(** A world for the examples: its JSON reader knows three bodies. *)
Definition key_body (key : string) : string :=
  ("{" ++ quoted "data" ++ ": {" ++ quoted "api-key" ++ ": " ++ quoted key ++ "}}")%string.

Definition empty_body : string := "{}".

Definition sample_loads (s : string) : result pyval :=
  if String.eqb s (key_body "6340df79-56c7-401d-b6d0-2cdfb0591ea6")
  then Ok (PDict [("data", PDict [("api-key", PStr "6340df79-56c7-401d-b6d0-2cdfb0591ea6")])])
  else if String.eqb s (key_body "not-a-key")
  then Ok (PDict [("data", PDict [("api-key", PStr "not-a-key")])])
  else if String.eqb s empty_body then Ok (PDict [])
  else Err (Exn "JSONDecodeError" "Expecting value: line 1 column 1 (char 0)").

Definition sample_world : world :=
  let w := Sample.scenario (Ok (200, EmptyString)) (Ok 200) (Ok PNone)
             (Ok (200, Ok EmptyString)) Sample.par_ok in
  {| json_loads := sample_loads;
     json_dumps := json_dumps w;
     render := render w;
     guess_type := guess_type w;
     uuid4 := uuid4 w;
     utcnow := utcnow w;
     new_object_storage_client := new_object_storage_client w;
     requests_get := requests_get w;
     put_object := put_object w;
     create_preauthenticated_request := create_preauthenticated_request w;
     detect_text := detect_text w;
     prepare_document_generator_payload := prepare_document_generator_payload w;
     build_output_pdf_name := build_output_pdf_name w;
     invoke_function := invoke_function w |}.

(** A decoder for bodies that are ASCII texts. *)
Definition ascii_decode (bytes : string) : result string := Ok bytes.

End ApiKey.

(** * Vocabulary of the further properties *)

(** [Q] holds of the trace and of the outcome of [m]. *)
Definition post {A : Type} (m : M A) (Q : list event -> outcome A -> Prop) : Prop :=
  Q (fst m) (snd m).

(** The place of a call in the pipeline; a log line has none. *)
Definition stage (ev : event) : option nat :=
  match ev with
  | Log _ _ => None
  | CallCreateObjectStorageClient => Some 1%nat
  | CallRequestsGet _ => Some 2%nat
  | CallPutObject _ _ _ _ _ => Some 3%nat
  | CallDetectText _ _ _ _ => Some 4%nat
  | CallAllTextsAreClear _ => Some 5%nat
  | CallGenerateDocGenData _ _ _ _ => Some 6%nat
  | CallPrepareDocGenPayload _ => Some 7%nat
  | CallInvokeFunction _ _ => Some 8%nat
  | CallBuildOutputPdfName _ => Some 9%nat
  | CallCreatePar _ _ _ => Some 10%nat
  end.

(** The places of the calls of a trace, in order. *)
Fixpoint stages (t : list event) : list nat :=
  match t with
  | [] => []
  | ev :: t' =>
      match stage ev with
      | Some n => n :: stages t'
      | None => stages t'
      end
  end.

(** The event is a request to a remote service. *)
Definition is_remote_call (ev : event) : bool :=
  match ev with
  | CallRequestsGet _ | CallPutObject _ _ _ _ _ | CallDetectText _ _ _ _
  | CallInvokeFunction _ _ | CallCreatePar _ _ _ => true
  | _ => false
  end.

(** The upload goes to the bucket of the pipeline, under the key made of
    the prefix, the identifier and the last segment of a URL whose fetch
    answered 200 with this content, with the type of a jpeg or png image. *)
Definition upload_ok (w : world) (ev : event) : Prop :=
  match ev with
  | CallPutObject ns bucket name content content_type =>
      ns = namespace /\ bucket = bucket_name
      /\ (content_type = "image/jpeg"%string \/ content_type = "image/png"%string)
      /\ exists u,
           requests_get w u = Ok (200, content)
           /\ get_image_content_type w (last_segment u) = Some content_type
           /\ name = image_name_of w (last_segment u)
  | _ => True
  end.

(** The object names that the calls of a trace mention. *)
Fixpoint object_names (t : list event) : list string :=
  match t with
  | [] => []
  | CallPutObject _ _ name _ _ :: t'
  | CallDetectText _ _ _ name :: t'
  | CallGenerateDocGenData _ _ _ name :: t'
  | CallBuildOutputPdfName name :: t' => name :: object_names t'
  | _ :: t' => object_names t'
  end.

(** All the strings of the list are the same. *)
Definition all_equal (l : list string) : Prop :=
  match l with
  | [] => True
  | x :: l' => Forall (eq x) l'
  end.

(** The link request is read-only, denies the listing of the bucket,
    expires one hour after [utcnow], and is for the name that
    [build_output_pdf_name] derives from an object name. *)
Definition par_request_ok (w : world) (ev : event) : Prop :=
  match ev with
  | CallCreatePar ns bucket details =>
      ns = namespace /\ bucket = bucket_name
      /\ par_name details = "PAR_for_report"%string
      /\ par_access_type details = "ObjectRead"%string
      /\ par_bucket_listing_action details = "Deny"%string
      /\ par_time_expires details = utcnow w + 3600
      /\ exists image_name,
           build_output_pdf_name w image_name = Ok (par_object_name details)
  | _ => True
  end.

(** The document generator is invoked on the payload prepared from the
    report data of a detection response that has anomalies. *)
Definition invoke_ok (w : world) (ev : event) : Prop :=
  match ev with
  | CallInvokeFunction fn payload =>
      fn = fn_ocid
      /\ exists d image_name data_content,
           all_texts_are_clear_in_the_image d default_confidence_level = Ok false
           /\ generate_doc_gen_data_content_from_ai_response d bucket_name namespace image_name
              = Ok data_content
           /\ prepare_document_generator_payload w data_content namespace bucket_name
                image_name fontfile_name template_name = Ok payload
  | _ => True
  end.

(** The JSON headers, and a status among 200, 204 and 400. *)
Definition response_ok (r : Response) : Prop :=
  headers r = json_headers
  /\ (status_code r = 200 \/ status_code r = 204 \/ status_code r = 400).

(** The last event of a trace. *)
Definition last_event (t : list event) : option event :=
  match rev t with
  | ev :: _ => Some ev
  | [] => None
  end.

(** The string has no slash. *)
Fixpoint no_slash (s : string) : bool :=
  match s with
  | EmptyString => true
  | String c s' => negb (Ascii.eqb c "/"%char) && no_slash s'
  end.

(** The word is a dictionary whose polygon has a vertex at index [i]. *)
Definition has_vertex (i : nat) (word : pyval) : Prop :=
  exists polygon vertices vertex,
    py_get word "bounding_polygon" (PDict []) = Ok polygon
    /\ py_get polygon "normalized_vertices" (PList []) = Ok vertices
    /\ py_getitem_nat vertices i = Ok vertex.

(** The float of the decimal [k / 10^ndigits] is between 0 and [bound]. *)
Definition digits_at_most (ndigits : nat) (bound : Z) (k : Z) : bool :=
  match float_of_digits false k ndigits with
  | S754_infinity _ | S754_nan => false
  | r => number_ge (NFloat r) (NInt 0) && number_ge (NInt bound) (NFloat r)
  end.

(** * Properties *)

(** ** The anomaly evaluator *)

Lemma py_all_true_iff (f : pyval -> result bool) (l : list pyval) :
  py_all f l = Ok true <-> Forall (fun x => f x = Ok true) l.
Proof.
  induction l as [|x l IH]; cbn.
  - split; [constructor | reflexivity].
  - destruct (f x) as [[|]|e] eqn:E.
    + rewrite IH. split.
      * intro H. constructor; assumption.
      * intro H. inversion H; assumption.
    + split; [discriminate|]. intro H. inversion H; congruence.
    + split; [discriminate|]. intro H. inversion H; congruence.
Qed.

Lemma py_all_false_at (f : pyval -> result bool) (l : list pyval) :
  Forall (fun x => exists b, f x = Ok b) l ->
  Exists (fun x => f x = Ok false) l ->
  py_all f l = Ok false.
Proof.
  induction l as [|x l IH]; intros Hall Hex.
  - inversion Hex.
  - cbn. inversion Hall as [|? ? [b Hb] Hl]; subst.
    rewrite Hb. destruct b; [|reflexivity].
    apply IH; [assumption|].
    inversion Hex as [? ? Hx|]; [congruence | assumption].
Qed.

Lemma word_is_clear_true_iff (t : number) (word : pyval) :
  word_is_clear t word = Ok true <-> confidence_ge t word.
Proof.
  unfold word_is_clear, confidence_ge, confidence_of, py_ge, rbind.
  destruct (py_get word "confidence" (PInt 0)) as [c|e].
  - destruct (as_number c) as [n|] eqn:En.
    + split.
      * intro H. injection H as H. exists c, n. auto.
      * intros (c' & n' & Hc & Hn & Hge). injection Hc as <-. congruence.
    + split; [discriminate|].
      intros (c' & n' & Hc & Hn & _). injection Hc as <-. congruence.
  - split; [discriminate|]. intros (c' & n' & Hc & _). discriminate.
Qed.

Lemma number_lt_not_ge (a b : number) : number_lt a b = true -> number_ge a b = false.
Proof.
  unfold number_lt, number_ge.
  destruct (number_compare a b) as [[| |]|]; congruence.
Qed.

Lemma word_is_clear_numeric (t : number) (word : pyval) :
  confidence_numeric word -> exists b, word_is_clear t word = Ok b.
Proof.
  intros (c & n & Hc & Hn).
  unfold word_is_clear, py_ge, rbind. unfold confidence_of in Hc.
  rewrite Hc, Hn. eauto.
Qed.

Lemma word_is_clear_lt (t : number) (word : pyval) :
  confidence_lt t word -> word_is_clear t word = Ok false.
Proof.
  intros (c & n & Hc & Hn & Hlt).
  unfold word_is_clear, py_ge, rbind. unfold confidence_of in Hc.
  rewrite Hc, Hn, (number_lt_not_ge _ _ Hlt). reflexivity.
Qed.

Lemma all_texts_are_clear_unfold (d : pyval) (t : number) :
  all_texts_are_clear_in_the_image d t =
    match detected_words d with
    | Ok ws => py_all (word_is_clear t) ws
    | Err e => Err e
    end.
Proof.
  unfold all_texts_are_clear_in_the_image, detected_words, rbind.
  destruct (words_of d) as [words|e]; [|reflexivity].
  destruct (py_iter words); reflexivity.
Qed.

(** C3. The evaluator returns true exactly when the response has a sequence
    of words and each of them has a confidence at least the threshold; it
    returns true on no words; on words with numeric confidences it returns
    false as soon as one of them is strictly below the threshold; with
    threshold 0.90 and confidences 0.95, 0.91 and 0.89 it returns false. *)
Theorem all_texts_are_clear_spec (d : pyval) (t : number) :
  (all_texts_are_clear_in_the_image d t = Ok true <->
     exists ws, detected_words d = Ok ws /\ Forall (confidence_ge t) ws)
  /\ (detected_words d = Ok [] -> all_texts_are_clear_in_the_image d t = Ok true)
  /\ (forall ws, detected_words d = Ok ws ->
        Forall confidence_numeric ws -> Exists (confidence_lt t) ws ->
        all_texts_are_clear_in_the_image d t = Ok false)
  /\ all_texts_are_clear_in_the_image
       (sample_detection [sample_word "a" 95; sample_word "b" 91; sample_word "c" 89])
       (NFloat (float_of_decimal 90 100)) = Ok false.
Proof.
  rewrite all_texts_are_clear_unfold.
  split; [split|split; [|split]].
  - destruct (detected_words d) as [ws|e]; [|discriminate].
    intro H. exists ws. split; [reflexivity|].
    apply py_all_true_iff in H.
    eapply Forall_impl; [|exact H]. intros a Ha. now apply word_is_clear_true_iff.
  - intros (ws & -> & H). apply py_all_true_iff.
    eapply Forall_impl; [|exact H]. intros a Ha. now apply word_is_clear_true_iff.
  - intros ->. reflexivity.
  - intros ws -> Hnum Hlt. apply py_all_false_at.
    + eapply Forall_impl; [|exact Hnum]. intros a Ha. now apply word_is_clear_numeric.
    + apply Exists_exists in Hlt as (x & Hin & Hx). apply Exists_exists.
      exists x. split; [assumption|]. now apply word_is_clear_lt.
  - vm_compute. reflexivity.
Qed.

Lemma all_texts_are_clear_spec_witness :
  let clear := sample_detection [sample_word "a" 95; sample_word "b" 90] in
  let blurred := sample_detection [sample_word "a" 95; sample_word "b" 50] in
  all_texts_are_clear_in_the_image clear default_confidence_level = Ok true
  /\ all_texts_are_clear_in_the_image blurred default_confidence_level = Ok false.
Proof.
  intros clear blurred. split.
  - apply (proj1 (all_texts_are_clear_spec clear default_confidence_level)).
    exists [sample_word "a" 95; sample_word "b" 90]. split; [reflexivity|].
    repeat constructor.
    + exists (PFloat (float_of_decimal 95 100)), (NFloat (float_of_decimal 95 100)).
      repeat split; vm_compute; reflexivity.
    + exists (PFloat (float_of_decimal 90 100)), (NFloat (float_of_decimal 90 100)).
      repeat split; vm_compute; reflexivity.
  - apply (proj1 (proj2 (proj2 (all_texts_are_clear_spec blurred default_confidence_level)))
             [sample_word "a" 95; sample_word "b" 50] eq_refl).
    + repeat constructor.
      * exists (PFloat (float_of_decimal 95 100)), (NFloat (float_of_decimal 95 100)).
        split; reflexivity.
      * exists (PFloat (float_of_decimal 50 100)), (NFloat (float_of_decimal 50 100)).
        split; reflexivity.
    + apply Exists_cons_tl. apply Exists_cons_hd.
      exists (PFloat (float_of_decimal 50 100)), (NFloat (float_of_decimal 50 100)).
      repeat split; vm_compute; reflexivity.
Defined.

(** ** The exact comparison and the IEEE comparison

    On the floats of binary64 (the valid ones) the exact comparison of the
    values is the comparison [SFcompare] of the standard library. *)

Lemma digits2_pos_bounds (m : positive) :
  2 ^ (Z.pos (digits2_pos m) - 1) <= Z.pos m < 2 ^ Z.pos (digits2_pos m).
Proof.
  induction m as [m IH|m IH|]; cbn [digits2_pos].
  - rewrite Pos2Z.inj_succ.
    replace (Z.succ (Z.pos (digits2_pos m)) - 1) with (Z.succ (Z.pos (digits2_pos m) - 1))
      by lia.
    rewrite !Z.pow_succ_r by lia. lia.
  - rewrite Pos2Z.inj_succ.
    replace (Z.succ (Z.pos (digits2_pos m)) - 1) with (Z.succ (Z.pos (digits2_pos m) - 1))
      by lia.
    rewrite !Z.pow_succ_r by lia. lia.
  - cbn. lia.
Qed.

Lemma bounded_exponent (m : positive) (e : Z) :
  bounded prec emax m e = true ->
  emin prec emax <= e
  /\ Z.pos m < 2 ^ 53
  /\ (emin prec emax < e -> 2 ^ 52 <= Z.pos m).
Proof.
  unfold bounded, canonical_mantissa, fexp. intro H.
  apply andb_prop in H as [H _]. apply Z.eqb_eq in H.
  pose proof (digits2_pos_bounds m) as [Hlo Hhi].
  change prec with 53 in *.
  set (d := Z.pos (digits2_pos m)) in *.
  assert (Hd : 0 < d) by (unfold d; lia).
  split; [lia|]. split.
  - assert (d <= 53) by lia.
    apply Z.lt_le_trans with (2 ^ d); [exact Hhi|].
    apply Z.pow_le_mono_r; lia.
  - intro He. assert (d = 53) by lia.
    replace 52 with (d - 1) by lia. exact Hlo.
Qed.

Lemma dyadic_compare_bounded (m1 m2 : positive) (e1 e2 : Z) :
  bounded prec emax m1 e1 = true ->
  bounded prec emax m2 e2 = true ->
  dyadic_compare (Z.pos m1) e1 (Z.pos m2) e2 =
    match e1 ?= e2 with
    | Lt => Lt
    | Gt => Gt
    | Eq => Pos.compare_cont Eq m1 m2
    end.
Proof.
  intros H1 H2.
  destruct (bounded_exponent _ _ H1) as (Hmin1 & Hhi1 & Hlo1).
  destruct (bounded_exponent _ _ H2) as (Hmin2 & Hhi2 & Hlo2).
  unfold dyadic_compare.
  destruct (Z.compare_spec e1 e2) as [He|He|He].
  - subst e2. rewrite Z.min_id, Z.sub_diag. change (2 ^ 0) with 1.
    rewrite !Z.mul_1_r. reflexivity.
  - rewrite Z.min_l by lia. rewrite Z.sub_diag. change (2 ^ 0) with 1.
    rewrite Z.mul_1_r. apply Z.compare_lt_iff.
    assert (Hp : 2 ^ 1 <= 2 ^ (e2 - e1)) by (apply Z.pow_le_mono_r; lia).
    change (2 ^ 1) with 2 in Hp.
    specialize (Hlo2 ltac:(lia)).
    assert (2 ^ 53 <= Z.pos m2 * 2 ^ (e2 - e1)).
    { change (2 ^ 53) with (2 ^ 52 * 2). apply Z.mul_le_mono_nonneg; lia. }
    lia.
  - rewrite Z.min_r by lia. rewrite Z.sub_diag. change (2 ^ 0) with 1.
    rewrite Z.mul_1_r. apply Z.compare_gt_iff.
    assert (Hp : 2 ^ 1 <= 2 ^ (e1 - e2)) by (apply Z.pow_le_mono_r; lia).
    change (2 ^ 1) with 2 in Hp.
    specialize (Hlo1 ltac:(lia)).
    assert (2 ^ 53 <= Z.pos m1 * 2 ^ (e1 - e2)).
    { change (2 ^ 53) with (2 ^ 52 * 2). apply Z.mul_le_mono_nonneg; lia. }
    lia.
Qed.

Lemma dyadic_compare_opp (m1 e1 m2 e2 : Z) :
  dyadic_compare (- m1) e1 (- m2) e2 = CompOpp (dyadic_compare m1 e1 m2 e2).
Proof.
  unfold dyadic_compare.
  rewrite !Z.mul_opp_l, Z.compare_opp. apply Z.compare_antisym.
Qed.

Lemma dyadic_compare_sign (m1 m2 : positive) (e1 e2 : Z) :
  dyadic_compare (Z.neg m1) e1 (Z.pos m2) e2 = Lt
  /\ dyadic_compare (Z.pos m1) e1 (Z.neg m2) e2 = Gt
  /\ dyadic_compare (Z.neg m1) e1 0 0 = Lt
  /\ dyadic_compare (Z.pos m1) e1 0 0 = Gt
  /\ dyadic_compare 0 0 (Z.neg m2) e2 = Gt
  /\ dyadic_compare 0 0 (Z.pos m2) e2 = Lt.
Proof.
  unfold dyadic_compare.
  assert (Hp : forall a b, 0 < 2 ^ (a - Z.min a b)).
  { intros a b. apply Z.pow_pos_nonneg; lia. }
  assert (Hq : forall a b, 0 < 2 ^ (b - Z.min a b)).
  { intros a b. apply Z.pow_pos_nonneg; lia. }
  repeat split.
  - apply Z.compare_lt_iff. pose proof (Hp e1 e2). pose proof (Hq e1 e2).
    apply Z.lt_trans with 0; [apply Z.mul_neg_pos | apply Z.mul_pos_pos]; lia.
  - apply Z.compare_gt_iff. pose proof (Hp e1 e2). pose proof (Hq e1 e2).
    apply Z.lt_trans with 0; [apply Z.mul_neg_pos | apply Z.mul_pos_pos]; lia.
  - apply Z.compare_lt_iff. pose proof (Hp e1 0). rewrite Z.mul_0_l.
    apply Z.mul_neg_pos; lia.
  - apply Z.compare_gt_iff. pose proof (Hp e1 0). rewrite Z.mul_0_l.
    apply Z.mul_pos_pos; lia.
  - apply Z.compare_gt_iff. pose proof (Hq 0 e2). rewrite Z.mul_0_l.
    apply Z.mul_neg_pos; lia.
  - apply Z.compare_lt_iff. pose proof (Hq 0 e2). rewrite Z.mul_0_l.
    apply Z.mul_pos_pos; lia.
Qed.

Lemma float_compare_is_SFcompare (x y : spec_float) :
  valid_binary prec emax x = true ->
  valid_binary prec emax y = true ->
  xval_compare (float_xval x) (float_xval y) = SFcompare x y.
Proof.
  intros Hx Hy.
  destruct x as [sx|sx| |sx mx ex], y as [sy|sy| |sy my ey]; cbn in *;
    try reflexivity;
    try (destruct sx; reflexivity); try (destruct sy; reflexivity);
    try (destruct sx, sy; reflexivity).
  - destruct sy; f_equal; apply (dyadic_compare_sign my my ey ey).
  - destruct sx; f_equal; apply (dyadic_compare_sign mx mx ex ex).
  - destruct sx, sy; cbn; f_equal.
    + change (Z.neg mx) with (- Z.pos mx). change (Z.neg my) with (- Z.pos my).
      rewrite dyadic_compare_opp, (dyadic_compare_bounded _ _ _ _ Hx Hy).
      destruct (ex ?= ey); reflexivity.
    + apply dyadic_compare_sign.
    + apply dyadic_compare_sign.
    + apply (dyadic_compare_bounded _ _ _ _ Hx Hy).
Qed.

(** ** Runs of the handler *)

Lemma get_image_content_type_cases (w : world) (filename : string) :
  (get_image_content_type w filename = Some "image/jpeg"
   /\ guess_type w filename = Some "image/jpeg")
  \/ (get_image_content_type w filename = Some "image/png"
      /\ guess_type w filename = Some "image/png")
  \/ (get_image_content_type w filename = None
      /\ guess_type w filename <> Some "image/jpeg"
      /\ guess_type w filename <> Some "image/png").
Proof.
  unfold get_image_content_type.
  destruct (guess_type w filename) as [t|].
  - destruct (String.eqb_spec t "image/jpeg") as [->|Hj]; [left; auto|].
    destruct (String.eqb_spec t "image/png") as [->|Hp]; [right; left; auto|].
    right; right. repeat split; congruence.
  - right; right. repeat split; discriminate.
Qed.

Ltac run_handler :=
  cbn [lift mbind logging call return_ generate_error_response fst snd app negb andb].

Section Run.

Variable w : world.
Variables (data : string) (payload : pyval) (u : string).

(** The request is read, it has a ["url"], a string, and the storage client
    is created. *)
Hypothesis Hloads : json_loads w data = Ok payload.
Hypothesis Hurl : py_getitem_str payload "url" = Ok (PStr u).
Hypothesis Hclient : new_object_storage_client w = Ok tt.

Let file_name : string := last_segment u.
Let image_name : string := image_name_of w file_name.

Let to_fetch : list event := trace_to_fetch w payload u.

Lemma run_fetch_failed (status : Z) (content : string) :
  requests_get w u = Ok (status, content) ->
  status <> 200 ->
  let message := ("Failed to retrieve the file from '" ++ u ++ "'. Status code: "
                    ++ string_of_Z status)%string in
  handler w (Some data) =
    ((to_fetch ++ [Log ERROR message])%list, Ok (error_response w message)).
Proof.
  intros Hget Hstatus. apply Z.eqb_neq in Hstatus.
  unfold handler, handler_body. rewrite Hloads. run_handler.
  rewrite Hurl. unfold create_object_storage_client. rewrite Hclient. run_handler.
  unfold get_image_data_from_url, get_data_from_url. rewrite Hget. run_handler.
  rewrite Hstatus. run_handler. reflexivity.
Qed.

Lemma run_not_an_image (content : string) :
  requests_get w u = Ok (200, content) ->
  get_image_content_type w file_name = None ->
  let message := ("Failed to retrieve a jpeg or png image from '" ++ u ++ "'.")%string in
  handler w (Some data) =
    ((to_fetch ++ [Log ERROR message])%list, Ok (error_response w message)).
Proof.
  intros Hget Htype.
  unfold handler, handler_body. rewrite Hloads. run_handler.
  rewrite Hurl. unfold create_object_storage_client. rewrite Hclient. run_handler.
  unfold get_image_data_from_url, get_data_from_url. rewrite Hget. run_handler.
  fold file_name. rewrite Htype. run_handler. reflexivity.
Qed.

Section Stored.

Variables (content content_type : string).

(** The image is fetched, its name has a recognized extension, and the
    upload succeeds. *)
Hypothesis Hget : requests_get w u = Ok (200, content).
Hypothesis Htype : get_image_content_type w file_name = Some content_type.
Hypothesis Hput :
  put_object w namespace bucket_name image_name content content_type = Ok 200.

Let to_detection : list event := trace_to_detection w payload u content content_type.

Lemma content_type_passes :
  negb (String.eqb content_type "image/jpeg") && negb (String.eqb content_type "image/png")
  = false.
Proof.
  destruct (get_image_content_type_cases w file_name) as [[H _]|[[H _]|[H _]]];
    rewrite H in Htype; [| |discriminate]; injection Htype as <-; reflexivity.
Qed.

Lemma run_detection_raised (ex : exn) :
  detect_text w compartment_id namespace bucket_name image_name = Err ex ->
  handler w (Some data) =
    ((to_detection ++ [Log INFO ("Error in handler: " ++ exn_str ex)])%list, Err ex).
Proof.
  intros Hdetect.
  unfold handler, handler_body. rewrite Hloads. run_handler.
  rewrite Hurl. unfold create_object_storage_client. rewrite Hclient. run_handler.
  unfold get_image_data_from_url, get_data_from_url. rewrite Hget. run_handler.
  fold file_name. rewrite Htype. change (200 =? 200) with true. run_handler.
  rewrite content_type_passes.
  unfold put_file_to_object_storage_image. fold image_name. rewrite Hput. run_handler.
  change (200 =? 200) with true. run_handler.
  rewrite Hdetect. run_handler. reflexivity.
Qed.

Lemma run_clear (d : pyval) :
  detect_text w compartment_id namespace bucket_name image_name = Ok d ->
  all_texts_are_clear_in_the_image d default_confidence_level = Ok true ->
  let message := ("All Words are clear in Image: " ++ quoted image_name ++ " from Bucket: "
                    ++ quoted bucket_name ++ " in Namespace: " ++ quoted namespace)%string in
  handler w (Some data) =
    ((to_detection ++
      [Log DEBUG ("detect_text_response: " ++ py_str w d);
       CallAllTextsAreClear d;
       Log INFO (message ++ ". Processing Complete")])%list,
     Ok (prepare_response w (PDict [("message", PStr message)]) 204)).
Proof.
  intros Hdetect Hclear.
  unfold handler, handler_body. rewrite Hloads. run_handler.
  rewrite Hurl. unfold create_object_storage_client. rewrite Hclient. run_handler.
  unfold get_image_data_from_url, get_data_from_url. rewrite Hget. run_handler.
  fold file_name. rewrite Htype. change (200 =? 200) with true. run_handler.
  rewrite content_type_passes.
  unfold put_file_to_object_storage_image. fold image_name. rewrite Hput. run_handler.
  change (200 =? 200) with true. run_handler.
  rewrite Hdetect. run_handler. rewrite Hclear. run_handler. reflexivity.
Qed.

Section Report.

Variables (d data_content doc_gen_fn_payload : pyval) (status : Z) (body : string).

(** The detection answers, a word is below the threshold, the report data
    and the payload are built, and the document generator answers. *)
Hypothesis Hdetect : detect_text w compartment_id namespace bucket_name image_name = Ok d.
Hypothesis Hanomalous : all_texts_are_clear_in_the_image d default_confidence_level = Ok false.
Hypothesis Hdata :
  generate_doc_gen_data_content_from_ai_response d bucket_name namespace image_name
  = Ok data_content.
Hypothesis Hpayload :
  prepare_document_generator_payload w data_content namespace bucket_name image_name
    fontfile_name template_name = Ok doc_gen_fn_payload.
Hypothesis Hinvoke : invoke_function w fn_ocid doc_gen_fn_payload = Ok (status, Ok body).

Let to_invoke : list event :=
  (to_detection ++ trace_of_report w u d data_content doc_gen_fn_payload ++
   [Log DEBUG ("DocGen Response: status code: " ++ string_of_Z status
                 ++ ", result: " ++ body)])%list.

Ltac run_to_invoke :=
  unfold handler, handler_body; rewrite Hloads; run_handler;
  rewrite Hurl; unfold create_object_storage_client; rewrite Hclient; run_handler;
  unfold get_image_data_from_url, get_data_from_url; rewrite Hget; run_handler;
  fold file_name; rewrite Htype; change (200 =? 200) with true; run_handler;
  rewrite content_type_passes;
  unfold put_file_to_object_storage_image; fold image_name; rewrite Hput; run_handler;
  change (200 =? 200) with true; run_handler;
  rewrite Hdetect; run_handler; rewrite Hanomalous; run_handler;
  rewrite Hdata; run_handler; rewrite Hpayload; run_handler;
  rewrite Hinvoke; run_handler.

(** The application answers a code other than 200: the run ends there. *)
Lemma run_report_application_failed (answer code : pyval) :
  status = 200 ->
  json_loads w body = Ok answer ->
  py_get answer "code" PNone = Ok code ->
  py_eq_int code 200 = false ->
  let message := ("Document generation failure: '" ++ py_str w code
                    ++ "'. See Application Log")%string in
  handler w (Some data) =
    ((to_invoke ++ [Log ERROR message])%list, Ok (error_response w message)).
Proof.
  intros -> Hbody Hcode Hne. run_to_invoke.
  change (200 =? 200) with true. cbv iota.
  rewrite Hbody. run_handler. rewrite Hcode. run_handler. rewrite Hne. run_handler.
  reflexivity.
Qed.

(** The transport status is not 200: the answer is not looked at, and the
    run goes on to the creation of the link. *)
Lemma run_report_transport_failed (pdf_name : string) (par : par_response) :
  status <> 200 ->
  build_output_pdf_name w image_name = Ok pdf_name ->
  create_preauthenticated_request w namespace bucket_name (report_par_details w pdf_name)
  = Ok par ->
  par_status par = 200 ->
  handler w (Some data) =
    ((to_invoke ++
      [CallBuildOutputPdfName image_name;
       CallCreatePar namespace bucket_name (report_par_details w pdf_name);
       Log INFO ("Pre-Authenticated Request URL: "
                   ++ py_str w (str_of_option (full_path_of par)))])%list,
     Ok (prepare_response w
           (PDict [("inputUrl", PStr u);
                   ("reportWithAnomalies", str_of_option (full_path_of par))]) 200)).
Proof.
  intros Hstatus Hpdf Hpar Hok. apply Z.eqb_neq in Hstatus. run_to_invoke.
  rewrite Hstatus. run_handler. rewrite Hpdf. run_handler.
  unfold create_read_only_object_par. fold (report_par_details w pdf_name).
  rewrite Hpar. run_handler. rewrite Hok. change (200 =? 200) with true. run_handler.
  reflexivity.
Qed.

(** Both statuses are 200: the link is created and returned. *)
Lemma run_report_ready (answer code : pyval) (pdf_name : string) (par : par_response) :
  status = 200 ->
  json_loads w body = Ok answer ->
  py_get answer "code" PNone = Ok code ->
  py_eq_int code 200 = true ->
  build_output_pdf_name w image_name = Ok pdf_name ->
  create_preauthenticated_request w namespace bucket_name (report_par_details w pdf_name)
  = Ok par ->
  par_status par = 200 ->
  handler w (Some data) =
    ((to_invoke ++
      [Log INFO "Document generated successfully";
       CallBuildOutputPdfName image_name;
       CallCreatePar namespace bucket_name (report_par_details w pdf_name);
       Log INFO ("Pre-Authenticated Request URL: "
                   ++ py_str w (str_of_option (full_path_of par)))])%list,
     Ok (prepare_response w
           (PDict [("inputUrl", PStr u);
                   ("reportWithAnomalies", str_of_option (full_path_of par))]) 200)).
Proof.
  intros -> Hbody Hcode Heq Hpdf Hpar Hok. run_to_invoke.
  change (200 =? 200) with true. cbv iota.
  rewrite Hbody. run_handler. rewrite Hcode. run_handler. rewrite Heq. run_handler.
  rewrite Hpdf. run_handler.
  unfold create_read_only_object_par. fold (report_par_details w pdf_name).
  rewrite Hpar. run_handler. rewrite Hok. change (200 =? 200) with true. run_handler.
  reflexivity.
Qed.

End Report.

End Stored.

End Run.

(** C1. With no request body the handler logs the error and returns the
    response [prepare_response(ctx, "No data provided")]: its status is
    the default 200, not 400, and its body is the JSON text of the bare
    string, not of a dictionary with a ["message"] entry. *)
Theorem handler_no_data (w : world) :
  handler w None =
    ([Log INFO "Inside Python Text Anomaly Detection function (for API Gateway)";
      Log ERROR "No data provided"],
     Ok (MkResponse 200 (json_dumps w (PStr "No data provided")) json_headers))
  /\ (forall r, snd (handler w None) = Ok r -> status_code r <> 400).
Proof.
  split; [reflexivity|].
  intros r H. cbn in H. injection H as <-. cbn. discriminate.
Qed.

(** ** The failure policy of the stages *)

(** C6. When the fetch of the image answers a status other than 200, the
    handler returns the response of status 400 whose body is the JSON text
    of [{"message": m}], where [m] names the URL and the status, and the
    run has no upload and no detection call. *)
Theorem fetch_failure_is_400 (w : world) (data : string) (payload : pyval)
    (u content : string) (status : Z) :
  json_loads w data = Ok payload ->
  py_getitem_str payload "url" = Ok (PStr u) ->
  new_object_storage_client w = Ok tt ->
  requests_get w u = Ok (status, content) ->
  status <> 200 ->
  let message := ("Failed to retrieve the file from '" ++ u ++ "'. Status code: "
                    ++ string_of_Z status)%string in
  snd (handler w (Some data)) =
    Ok (MkResponse 400 (json_dumps w (PDict [("message", PStr message)]))
          [("Content-Type", "application/json")])
  /\ Forall (fun ev => is_storage_or_detection ev = false) (fst (handler w (Some data))).
Proof.
  intros Hloads Hurl Hclient Hget Hstatus message.
  rewrite (run_fetch_failed w data payload u Hloads Hurl Hclient status content Hget Hstatus).
  split; [reflexivity|].
  cbn [fst trace_to_fetch app]. repeat constructor.
Qed.

Lemma fetch_failure_is_400_witness :
  let w := Sample.scenario (Ok (404, "Not Found")) (Ok 200) (Ok Sample.clear_detection)
             (Ok (200, Ok (Sample.docgen_text 200))) Sample.par_ok in
  let body :=
    ("{" ++ quoted "message" ++ ": "
         ++ quoted "Failed to retrieve the file from 'https://example.com/images/photo.png'. Status code: 404"
         ++ "}")%string in
  snd (handler w (Some Sample.request_text)) =
    Ok (MkResponse 400 body [("Content-Type", "application/json")])
  /\ Forall (fun ev => is_storage_or_detection ev = false)
       (fst (handler w (Some Sample.request_text))).
Proof.
  intros w body.
  destruct (fetch_failure_is_400 w Sample.request_text
              (PDict [("url", PStr Sample.sample_url)]) Sample.sample_url "Not Found" 404
              eq_refl eq_refl eq_refl eq_refl ltac:(discriminate)) as [Hresponse Htrace].
  split; [|exact Htrace].
  rewrite Hresponse. vm_compute. reflexivity.
Defined.

Lemma builtin_images : Mimetypes.images_as_builtin Mimetypes.types_map.
Proof.
  repeat split.
Qed.

(** C5. The content type is a function of the file name alone, through
    [mimetypes.guess_type]: it is ["image/jpeg"] or ["image/png"] when that
    is the type guessed for the name and absent otherwise, whatever the
    fetch answers.  On a table of types that has the built-in image
    entries, [photo.png], [photo.jpg], [photo.jpeg], [photo.jpe] and
    [photo.png.gz] have a content type, [photo.gif] and [photo] have none.
    When the name of the fetched file has none, the handler returns the
    response of status 400 whose body is the JSON text of [{"message": m}],
    where [m] names the URL (and the status of the fetch when it is not
    200), and the run has no upload and no detection call. *)
Theorem content_type_gate (w : world) :
  (forall filename,
      (get_image_content_type w filename = Some "image/jpeg"
       /\ guess_type w filename = Some "image/jpeg")
      \/ (get_image_content_type w filename = Some "image/png"
          /\ guess_type w filename = Some "image/png")
      \/ (get_image_content_type w filename = None
          /\ guess_type w filename <> Some "image/jpeg"
          /\ guess_type w filename <> Some "image/png"))
  /\ (forall u status content,
         requests_get w u = Ok (status, content) ->
         get_image_data_from_url w (PStr u) =
           ([CallRequestsGet u],
            Next (status, content, last_segment u,
                  get_image_content_type w (last_segment u))))
  /\ (forall types,
         (forall name, guess_type w name = Mimetypes.guess_type_in types name) ->
         Mimetypes.images_as_builtin types ->
         map (get_image_content_type w)
           ["photo.png"; "photo.jpg"; "photo.jpeg"; "photo.jpe"; "photo.png.gz";
            "photo.gif"; "photo"]
         = [Some "image/png"; Some "image/jpeg"; Some "image/jpeg"; Some "image/jpeg";
            Some "image/png"; None; None])
  /\ (forall data payload u status content,
         json_loads w data = Ok payload ->
         py_getitem_str payload "url" = Ok (PStr u) ->
         new_object_storage_client w = Ok tt ->
         requests_get w u = Ok (status, content) ->
         get_image_content_type w (last_segment u) = None ->
         let message :=
           (if Z.eqb status 200
            then "Failed to retrieve a jpeg or png image from '" ++ u ++ "'."
            else "Failed to retrieve the file from '" ++ u ++ "'. Status code: "
                   ++ string_of_Z status)%string in
         snd (handler w (Some data)) =
           Ok (MkResponse 400 (json_dumps w (PDict [("message", PStr message)]))
                 [("Content-Type", "application/json")])
         /\ Forall (fun ev => is_storage_or_detection ev = false)
              (fst (handler w (Some data)))).
Proof.
  split; [apply get_image_content_type_cases|].
  split.
  { intros u status content Hget.
    unfold get_image_data_from_url, get_data_from_url. rewrite Hget. reflexivity. }
  split.
  { intros types Hguess (Hpng & Hjpg & Hjpeg & Hjpe & Hgif & Hnone).
    unfold get_image_content_type. cbn [map]. rewrite !Hguess.
    change (Mimetypes.guess_type_in types "photo.png") with (Mimetypes.lookup ".png" types).
    change (Mimetypes.guess_type_in types "photo.jpg") with (Mimetypes.lookup ".jpg" types).
    change (Mimetypes.guess_type_in types "photo.jpeg") with (Mimetypes.lookup ".jpeg" types).
    change (Mimetypes.guess_type_in types "photo.jpe") with (Mimetypes.lookup ".jpe" types).
    change (Mimetypes.guess_type_in types "photo.png.gz") with (Mimetypes.lookup ".png" types).
    change (Mimetypes.guess_type_in types "photo.gif") with (Mimetypes.lookup ".gif" types).
    change (Mimetypes.guess_type_in types "photo") with (Mimetypes.lookup EmptyString types).
    rewrite Hpng, Hjpg, Hjpeg, Hjpe, Hgif, Hnone. reflexivity. }
  intros data payload u status content Hloads Hurl Hclient Hget Htype message.
  destruct (Z.eq_dec status 200) as [->|Hstatus].
  - rewrite (run_not_an_image w data payload u Hloads Hurl Hclient content Hget Htype).
    split; [reflexivity|].
    cbn [fst trace_to_fetch app]. repeat constructor.
  - rewrite (run_fetch_failed w data payload u Hloads Hurl Hclient status content Hget Hstatus).
    apply Z.eqb_neq in Hstatus. unfold message. rewrite Hstatus.
    split; [reflexivity|].
    cbn [fst trace_to_fetch app]. repeat constructor.
Qed.

Lemma content_type_gate_witness :
  let w := Sample.scenario (Ok (200, "GIF89a")) (Ok 200) (Ok Sample.clear_detection)
             (Ok (200, Ok (Sample.docgen_text 200))) Sample.par_ok in
  let body :=
    ("{" ++ quoted "message" ++ ": "
         ++ quoted "Failed to retrieve a jpeg or png image from 'https://example.com/images/photo.gif'."
         ++ "}")%string in
  map (get_image_content_type w)
    ["photo.png"; "photo.jpg"; "photo.jpeg"; "photo.jpe"; "photo.png.gz"; "photo.gif"; "photo"]
  = [Some "image/png"; Some "image/jpeg"; Some "image/jpeg"; Some "image/jpeg";
     Some "image/png"; None; None]
  /\ snd (handler w (Some (Sample.request_for Sample.gif_url)))
     = Ok (MkResponse 400 body [("Content-Type", "application/json")])
  /\ Forall (fun ev => is_storage_or_detection ev = false)
       (fst (handler w (Some (Sample.request_for Sample.gif_url)))).
Proof.
  intros w body.
  destruct (content_type_gate w) as (_ & _ & Hexamples & Hgate).
  split.
  - apply (Hexamples Mimetypes.types_map); [reflexivity | exact builtin_images].
  - destruct (Hgate (Sample.request_for Sample.gif_url) (PDict [("url", PStr Sample.gif_url)])
                Sample.gif_url 200 "GIF89a" eq_refl eq_refl eq_refl eq_refl eq_refl)
      as [Hresponse Htrace].
    split; [|exact Htrace].
    rewrite Hresponse. vm_compute. reflexivity.
Defined.

(** The claim of C5 as the specification words it, refuted: [photo.jpe]
    has none of the extensions [jpeg], [jpg] and [png], and yet it has the
    content type ["image/jpeg"], so that a content type is not only given to
    names of these extensions; the run on its URL uploads the file and calls
    the detection, and it ends with the status 204, not 400. *)
Lemma content_type_gate_counterexample :
  let w := Sample.scenario (Ok (200, "JFIF")) (Ok 200) (Ok Sample.clear_detection)
             (Ok (200, Ok (Sample.docgen_text 200))) Sample.par_ok in
  let run := handler w (Some (Sample.request_for Sample.jpe_url)) in
  spec_recognized "photo.jpe" = false
  /\ get_image_content_type w "photo.jpe" = Some "image/jpeg"
  /\ ~ (forall name, get_image_content_type w name <> None -> spec_recognized name = true)
  /\ (exists r, snd run = Ok r /\ status_code r = 204)
  /\ Exists (fun ev => is_storage_or_detection ev = true) (fst run).
Proof.
  intros w run.
  split; [reflexivity|]. split; [reflexivity|].
  split; [intros Hspec; specialize (Hspec "photo.jpe" ltac:(discriminate)); discriminate Hspec|].
  assert (Hrun : run =
                   ((trace_to_detection w (PDict [("url", PStr Sample.jpe_url)])
                       Sample.jpe_url "JFIF" "image/jpeg" ++
                     [Log DEBUG ("detect_text_response: " ++ py_str w Sample.clear_detection);
                      CallAllTextsAreClear Sample.clear_detection;
                      Log INFO (("All Words are clear in Image: "
                                   ++ quoted (image_name_of w (last_segment Sample.jpe_url))
                                   ++ " from Bucket: " ++ quoted bucket_name
                                   ++ " in Namespace: " ++ quoted namespace)
                                  ++ ". Processing Complete")])%list,
                    Ok (prepare_response w
                          (PDict [("message",
                                   PStr ("All Words are clear in Image: "
                                           ++ quoted (image_name_of w (last_segment Sample.jpe_url))
                                           ++ " from Bucket: " ++ quoted bucket_name
                                           ++ " in Namespace: " ++ quoted namespace))]) 204))).
  { apply (run_clear w (Sample.request_for Sample.jpe_url)
             (PDict [("url", PStr Sample.jpe_url)]) Sample.jpe_url
             eq_refl eq_refl eq_refl "JFIF" "image/jpeg" eq_refl eq_refl eq_refl
             Sample.clear_detection eq_refl eq_refl). }
  rewrite Hrun. cbn [fst snd]. split.
  - eexists. split; reflexivity.
  - unfold trace_to_detection, trace_to_fetch. cbn [app].
    do 4 apply Exists_cons_tl. apply Exists_cons_hd. reflexivity.
Qed.

(** C4. When the fetch, the upload and the detection succeed and the
    evaluator finds every word clear, the handler returns the response of
    status 204 whose body is the JSON text of [{"message": m}], where [m]
    says that all words are clear and names the image, the bucket and the
    namespace, and the run has no call of the report builder, of the
    document generator or of the link creation. *)
Theorem clear_image_is_204 (w : world) (data : string) (payload : pyval)
    (u content content_type : string) (d : pyval) :
  json_loads w data = Ok payload ->
  py_getitem_str payload "url" = Ok (PStr u) ->
  new_object_storage_client w = Ok tt ->
  requests_get w u = Ok (200, content) ->
  get_image_content_type w (last_segment u) = Some content_type ->
  put_object w namespace bucket_name (image_name_of w (last_segment u)) content content_type
  = Ok 200 ->
  detect_text w compartment_id namespace bucket_name (image_name_of w (last_segment u))
  = Ok d ->
  all_texts_are_clear_in_the_image d default_confidence_level = Ok true ->
  let message := ("All Words are clear in Image: "
                    ++ quoted (image_name_of w (last_segment u)) ++ " from Bucket: "
                    ++ quoted bucket_name ++ " in Namespace: " ++ quoted namespace)%string in
  snd (handler w (Some data)) =
    Ok (MkResponse 204 (json_dumps w (PDict [("message", PStr message)]))
          [("Content-Type", "application/json")])
  /\ Forall (fun ev => is_report_or_link ev = false) (fst (handler w (Some data))).
Proof.
  intros Hloads Hurl Hclient Hget Htype Hput Hdetect Hclear message.
  rewrite (run_clear w data payload u Hloads Hurl Hclient content content_type
             Hget Htype Hput d Hdetect Hclear).
  split; [reflexivity|].
  cbn [fst trace_to_detection trace_to_fetch app]. repeat constructor.
Qed.

Lemma clear_image_is_204_witness :
  let w := Sample.scenario (Ok (200, "PNG")) (Ok 200) (Ok Sample.clear_detection)
             (Ok (200, Ok (Sample.docgen_text 200))) Sample.par_ok in
  let name (s : string) := (Sample.escaped_quote ++ s ++ Sample.escaped_quote)%string in
  let body :=
    ("{" ++ quoted "message" ++ ": "
         ++ quoted ("All Words are clear in Image: "
                      ++ name "part3/123e4567-e89b-42d3-a456-426614174000-photo.png"
                      ++ " from Bucket: " ++ name "fun_oci_functions_bucket"
                      ++ " in Namespace: " ++ name "idsvv7k2bdum")
         ++ "}")%string in
  snd (handler w (Some Sample.request_text)) =
    Ok (MkResponse 204 body [("Content-Type", "application/json")])
  /\ Forall (fun ev => is_report_or_link ev = false)
       (fst (handler w (Some Sample.request_text))).
Proof.
  intros w name body.
  destruct (clear_image_is_204 w Sample.request_text
              (PDict [("url", PStr Sample.sample_url)]) Sample.sample_url "PNG" "image/png"
              Sample.clear_detection eq_refl eq_refl eq_refl eq_refl eq_refl eq_refl eq_refl
              eq_refl) as [Hresponse Htrace].
  split; [|exact Htrace].
  rewrite Hresponse. vm_compute. reflexivity.
Defined.

(** C8. When the text detection raises, the handler returns no response:
    it logs the exception and raises it again, and no error response is
    prepared in the run. *)
Theorem detection_failure_is_raised (w : world) (data : string) (payload : pyval)
    (u content content_type : string) (ex : exn) :
  json_loads w data = Ok payload ->
  py_getitem_str payload "url" = Ok (PStr u) ->
  new_object_storage_client w = Ok tt ->
  requests_get w u = Ok (200, content) ->
  get_image_content_type w (last_segment u) = Some content_type ->
  put_object w namespace bucket_name (image_name_of w (last_segment u)) content content_type
  = Ok 200 ->
  detect_text w compartment_id namespace bucket_name (image_name_of w (last_segment u))
  = Err ex ->
  handler w (Some data) =
    ((trace_to_detection w payload u content content_type
        ++ [Log INFO ("Error in handler: " ++ exn_str ex)])%list,
     Err ex)
  /\ Forall (fun ev => is_error_log ev = false) (fst (handler w (Some data))).
Proof.
  intros Hloads Hurl Hclient Hget Htype Hput Hdetect.
  rewrite (run_detection_raised w data payload u Hloads Hurl Hclient content content_type
             Hget Htype Hput ex Hdetect).
  split; [reflexivity|].
  cbn [fst trace_to_detection trace_to_fetch app]. repeat constructor.
Qed.

Lemma detection_failure_is_raised_witness :
  let ex := Exn "ServiceError" "The service returned error code 500" in
  let w := Sample.scenario (Ok (200, "PNG")) (Ok 200) (Err ex)
             (Ok (200, Ok (Sample.docgen_text 200))) Sample.par_ok in
  snd (handler w (Some Sample.request_text)) = Err ex
  /\ last (fst (handler w (Some Sample.request_text))) CallCreateObjectStorageClient
     = Log INFO "Error in handler: The service returned error code 500".
Proof.
  intros ex w.
  pose proof (detection_failure_is_raised w Sample.request_text
                (PDict [("url", PStr Sample.sample_url)]) Sample.sample_url "PNG" "image/png"
                ex eq_refl eq_refl eq_refl eq_refl eq_refl eq_refl eq_refl) as [H _].
  rewrite H. split; reflexivity.
Defined.

(** C2. A run in which the document generator answers the transport status
    502: the handler does not stop, it creates the link and returns the
    response of status 200 that carries it. *)
Theorem report_transport_failure_is_ignored :
  let w := Sample.scenario (Ok (200, "PNG")) (Ok 200) (Ok Sample.anomalous_detection)
             (Ok (502, Ok "Bad Gateway")) Sample.par_ok in
  snd (handler w (Some Sample.request_text))
  = Ok (prepare_response w
          (PDict [("inputUrl", PStr Sample.sample_url);
                  ("reportWithAnomalies", PStr Sample.sample_par_url)]) 200)
  /\ Exists (fun ev => is_create_par ev = true) (fst (handler w (Some Sample.request_text)))
  /\ Forall (fun ev => is_error_log ev = false) (fst (handler w (Some Sample.request_text))).
Proof.
  intros w.
  assert (H : exists t,
             handler w (Some Sample.request_text) =
               ((t ++ [CallBuildOutputPdfName
                         (image_name_of w (last_segment Sample.sample_url));
                       CallCreatePar namespace bucket_name
                         (report_par_details w
                            (image_name_of w (last_segment Sample.sample_url) ++ ".pdf"));
                       Log INFO ("Pre-Authenticated Request URL: " ++ Sample.sample_par_url)])%list,
                Ok (prepare_response w
                      (PDict [("inputUrl", PStr Sample.sample_url);
                              ("reportWithAnomalies", PStr Sample.sample_par_url)]) 200))
             /\ Forall (fun ev => is_error_log ev = false) t).
  { eexists. split.
    - refine (run_report_transport_failed w Sample.request_text
                (PDict [("url", PStr Sample.sample_url)]) Sample.sample_url
                eq_refl eq_refl eq_refl "PNG" "image/png" eq_refl eq_refl eq_refl
                Sample.anomalous_detection _ _ 502 "Bad Gateway"
                eq_refl eq_refl eq_refl eq_refl eq_refl _ _ _ eq_refl eq_refl eq_refl).
      discriminate.
    - cbn [trace_to_detection trace_to_fetch trace_of_report app]. repeat constructor. }
  destruct H as (t & -> & Ht). cbn [fst snd].
  split; [reflexivity|]. split.
  - apply Exists_app. right. constructor. reflexivity.
  - apply Forall_app. split; [exact Ht|]. repeat constructor.
Qed.

(** ** The report payload builder *)

Lemma generate_doc_gen_data_unfold (d : pyval) (bucket ns obj : string) :
  generate_doc_gen_data_content_from_ai_response d bucket ns obj =
    match detected_words d with
    | Ok ws =>
        match rmap doc_gen_word ws with
        | Ok entries =>
            Ok (PDict [("image_with_anomalies",
                        PDict [("source", PStr "OBJECT_STORAGE");
                               ("objectName", PStr obj);
                               ("namespace", PStr ns);
                               ("bucketName", PStr bucket);
                               ("mediaType", PStr "image/png");
                               ("height", PStr "450px")]);
                       ("words", PList entries)])
        | Err e => Err e
        end
    | Err e => Err e
    end.
Proof.
  unfold generate_doc_gen_data_content_from_ai_response, detected_words, rbind.
  destruct (words_of d) as [words|e]; [|reflexivity].
  destruct (py_iter words) as [ws|e]; reflexivity.
Qed.

Lemma rmap_nth_error {A B : Type} (f : A -> result B) (l : list A) (l' : list B) :
  rmap f l = Ok l' ->
  forall i a, nth_error l i = Some a ->
  exists b, nth_error l' i = Some b /\ f a = Ok b.
Proof.
  revert l'. induction l as [|x l IH]; intros l' H i a Hi.
  - destruct i; discriminate.
  - cbn in H. destruct (f x) as [b|e] eqn:Ex; [|discriminate].
    destruct (rmap f l) as [bs|e] eqn:El; [|discriminate].
    injection H as <-. destruct i as [|i]; cbn in Hi |- *.
    + injection Hi as <-. eauto.
    + eapply IH; eauto.
Qed.

Lemma doc_gen_word_confidence (word entry : pyval) :
  doc_gen_word word = Ok entry ->
  exists p, confidence_percentage word = Ok p
            /\ py_getitem_str entry "confidence" = Ok p.
Proof.
  unfold doc_gen_word, rbind. intro H.
  destruct (py_get word "text" PNone) as [text|]; [|discriminate].
  destruct (confidence_percentage word) as [p|]; [|discriminate].
  destruct (corner word 0) as [c1|]; [|discriminate].
  destruct (corner word 2) as [c3|]; [|discriminate].
  injection H as <-. exists p. split; reflexivity.
Qed.

(** C9. Whatever the detection response and the storage coordinates, the
    payload the builder returns describes the stored image by these
    coordinates, with the media type ["image/png"] and the height
    ["450px"]; the content type of the upload is no input of the builder.
    On a response with no words the builder does return a payload. *)
Theorem doc_gen_data_image_is_png (d : pyval) (bucket ns obj : string) :
  (forall p,
      generate_doc_gen_data_content_from_ai_response d bucket ns obj = Ok p ->
      exists image,
        py_getitem_str p "image_with_anomalies" = Ok image
        /\ py_getitem_str image "mediaType" = Ok (PStr "image/png")
        /\ py_getitem_str image "height" = Ok (PStr "450px")
        /\ py_getitem_str image "source" = Ok (PStr "OBJECT_STORAGE")
        /\ py_getitem_str image "objectName" = Ok (PStr obj)
        /\ py_getitem_str image "namespace" = Ok (PStr ns)
        /\ py_getitem_str image "bucketName" = Ok (PStr bucket))
  /\ (detected_words d = Ok [] ->
      exists p, generate_doc_gen_data_content_from_ai_response d bucket ns obj = Ok p).
Proof.
  rewrite generate_doc_gen_data_unfold. split.
  - intros p H.
    destruct (detected_words d) as [ws|]; [|discriminate].
    destruct (rmap doc_gen_word ws) as [entries|]; [|discriminate].
    injection H as <-. eexists. repeat split.
  - intros ->. cbn. eauto.
Qed.

Lemma doc_gen_data_image_is_png_witness :
  exists p image,
    generate_doc_gen_data_content_from_ai_response Sample.anomalous_detection
      "fun_oci_functions_bucket" "idsvv7k2bdum" "part3/photo.jpg" = Ok p
    /\ py_getitem_str p "image_with_anomalies" = Ok image
    /\ py_getitem_str image "mediaType" = Ok (PStr "image/png")
    /\ py_getitem_str image "height" = Ok (PStr "450px").
Proof.
  destruct (generate_doc_gen_data_content_from_ai_response Sample.anomalous_detection
              "fun_oci_functions_bucket" "idsvv7k2bdum" "part3/photo.jpg")
    as [p|e] eqn:E; [|vm_compute in E; discriminate E].
  destruct (proj1 (doc_gen_data_image_is_png Sample.anomalous_detection
                     "fun_oci_functions_bucket" "idsvv7k2bdum" "part3/photo.jpg") p E)
    as (image & H1 & H2 & H3 & _).
  exists p, image. auto.
Defined.

(** ** Words without a confidence *)

Lemma missing_confidence (fields : list (string * pyval)) :
  assoc "confidence" fields = None -> confidence_of (PDict fields) = Ok (PInt 0).
Proof.
  intro H. unfold confidence_of, py_get. rewrite H. reflexivity.
Qed.

(** C10. A word with no ["confidence"] entry has the confidence 0 for the
    evaluator and for the builder: against a threshold above 0 the word is
    not clear, so the evaluator never answers true and answers false when
    the confidences of all words are numbers; in the payload of the
    builder the entry of the word has the percentage 0, the integer, equal
    to 0.0. *)
Theorem missing_confidence_is_zero (d : pyval) (ws : list pyval) (i : nat)
    (fields : list (string * pyval)) :
  detected_words d = Ok ws ->
  nth_error ws i = Some (PDict fields) ->
  assoc "confidence" fields = None ->
  confidence_of (PDict fields) = Ok (PInt 0)
  /\ (forall t, number_lt (NInt 0) t = true ->
        word_is_clear t (PDict fields) = Ok false
        /\ all_texts_are_clear_in_the_image d t <> Ok true
        /\ (Forall confidence_numeric ws ->
            all_texts_are_clear_in_the_image d t = Ok false))
  /\ (forall bucket ns obj p,
        generate_doc_gen_data_content_from_ai_response d bucket ns obj = Ok p ->
        exists entries entry,
          py_getitem_str p "words" = Ok (PList entries)
          /\ nth_error entries i = Some entry
          /\ py_getitem_str entry "confidence" = Ok (PInt 0)
          /\ number_eq (NInt 0) (NFloat (float_of_Z 0)) = true).
Proof.
  intros Hws Hi Hmissing.
  pose proof (missing_confidence fields Hmissing) as Hzero.
  split; [exact Hzero|]. split.
  - intros t Ht.
    assert (Hword : word_is_clear t (PDict fields) = Ok false).
    { apply word_is_clear_lt. exists (PInt 0), (NInt 0). auto. }
    split; [exact Hword|].
    rewrite all_texts_are_clear_unfold, Hws. split.
    + intro H. apply py_all_true_iff in H.
      rewrite Forall_forall in H.
      specialize (H _ (nth_error_In _ _ Hi)). congruence.
    + intro Hnum. apply py_all_false_at.
      * eapply Forall_impl; [|exact Hnum]. intros a Ha. now apply word_is_clear_numeric.
      * apply Exists_exists. exists (PDict fields). split; [|exact Hword].
        eapply nth_error_In; eassumption.
  - intros bucket ns obj p H.
    rewrite generate_doc_gen_data_unfold, Hws in H.
    destruct (rmap doc_gen_word ws) as [entries|] eqn:Hentries; [|discriminate].
    injection H as <-.
    destruct (rmap_nth_error _ _ _ Hentries _ _ Hi) as (entry & Hentry & Hbuilt).
    destruct (doc_gen_word_confidence _ _ Hbuilt) as (c & Hc & Hget).
    exists entries, entry. repeat split; try assumption.
    unfold confidence_percentage, rbind in Hc.
    unfold confidence_of in Hzero. rewrite Hzero in Hc. cbn in Hc.
    injection Hc as <-. exact Hget.
Qed.

Lemma missing_confidence_is_zero_witness :
  let d := sample_detection [sample_word "a" 95; word_without_confidence] in
  all_texts_are_clear_in_the_image d default_confidence_level = Ok false
  /\ exists p entries entry,
       generate_doc_gen_data_content_from_ai_response d "bucket" "namespace" "object" = Ok p
       /\ py_getitem_str p "words" = Ok (PList entries)
       /\ nth_error entries 1 = Some entry
       /\ py_getitem_str entry "confidence" = Ok (PInt 0).
Proof.
  intros d.
  destruct (missing_confidence_is_zero d [sample_word "a" 95; word_without_confidence] 1%nat
              [("text", PStr "word"); ("bounding_polygon", sample_polygon)]
              eq_refl eq_refl eq_refl) as (_ & Heval & Hbuild).
  split.
  - apply (Heval default_confidence_level); [vm_compute; reflexivity|].
    repeat constructor.
    + exists (PFloat (float_of_decimal 95 100)), (NFloat (float_of_decimal 95 100)).
      split; reflexivity.
    + exists (PInt 0), (NInt 0). split; reflexivity.
  - destruct (generate_doc_gen_data_content_from_ai_response d "bucket" "namespace" "object")
      as [p|e] eqn:E; [|vm_compute in E; discriminate E].
    destruct (Hbuild "bucket" "namespace" "object" p E)
      as (entries & entry & H1 & H2 & H3 & _).
    exists p, entries, entry. auto.
Defined.

(** ** Rounding of the percentage *)

Lemma spec_float_eqb_eq (x y : spec_float) : spec_float_eqb x y = true -> x = y.
Proof.
  destruct x as [a|a| |a m e], y as [b|b| |b m' e']; cbn; try discriminate.
  - intro H. apply Bool.eqb_prop in H. now subst.
  - intro H. apply Bool.eqb_prop in H. now subst.
  - reflexivity.
  - intro H. apply andb_prop in H as [H He]. apply andb_prop in H as [Hs Hm].
    apply Bool.eqb_prop in Hs. apply Pos.eqb_eq in Hm. apply Z.eqb_eq in He.
    now subst.
Qed.

Lemma holds_up_to_spec (f : Z -> bool) (n : nat) (k : Z) :
  holds_up_to f n = true -> 0 <= k <= Z.of_nat n -> f k = true.
Proof.
  unfold holds_up_to. intros H Hk.
  rewrite forallb_forall in H. apply H.
  apply in_map_iff. exists (Z.to_nat k). split; [lia|].
  apply in_seq. lia.
Qed.

Lemma percentages_fixed_by_round (k : Z) :
  0 <= k <= 1000 -> fixed_by_round 1 k = true.
Proof.
  apply (holds_up_to_spec (fixed_by_round 1) 1000).
  vm_compute. reflexivity.
Qed.

Lemma round_half_even_bound (n d K : Z) :
  0 < d -> 0 <= n <= K * d -> 0 <= round_half_even n d <= K.
Proof.
  intros Hd Hn. unfold round_half_even.
  pose proof (Z.div_mod n d ltac:(lia)) as Hdiv.
  pose proof (Z.mod_pos_bound n d Hd) as Hmod.
  assert (Hq : 0 <= n / d) by (apply Z.div_pos; lia).
  assert (HqK : n / d <= K).
  { apply Z.div_le_upper_bound; lia. }
  destruct (Z.eq_dec (n / d) K) as [HK|HK].
  - assert (Hr : n mod d = 0) by nia.
    rewrite Hr.
    assert (Hc : (2 * 0 ?= d) = Lt) by (apply Z.compare_lt_iff; lia).
    rewrite Hc. lia.
  - destruct (2 * (n mod d) ?= d); [destruct (Z.even (n / d))| |]; lia.
Qed.

Lemma scaled_digits_bound (m : positive) (e : Z) :
  number_ge (NInt 100) (NFloat (S754_finite false m e)) = true ->
  0 <= scaled_digits m e 1 <= 1000.
Proof.
  unfold number_ge, number_compare, number_xval, float_xval, xval_compare,
    dyadic_compare, cond_Zopp, scaled_digits.
  change (10 ^ Z.of_nat 1) with 10.
  destruct (Z.leb_spec 0 e) as [He|He].
  - rewrite (Z.min_l 0 e) by lia. rewrite !Z.sub_0_r.
    change (100 * 2 ^ 0) with 100.
    assert (Hp : 0 < 2 ^ e) by (apply Z.pow_pos_nonneg; lia).
    replace (Z.pos m * 10 * 2 ^ e) with (10 * (Z.pos m * 2 ^ e)) by ring.
    assert (Hm : 0 < Z.pos m * 2 ^ e) by (apply Z.mul_pos_pos; lia).
    generalize dependent (Z.pos m * 2 ^ e). intros x Hx.
    destruct (Z.compare_spec 100 x) as [Hc|Hc|Hc];
      intros Hge; try discriminate Hge; lia.
  - rewrite (Z.min_r 0 e) by lia. rewrite Z.sub_diag, Z.sub_0_l.
    change (2 ^ 0) with 1. rewrite Z.mul_1_r.
    assert (Hp : 0 < 2 ^ (- e)) by (apply Z.pow_pos_nonneg; lia).
    generalize dependent (2 ^ (- e)). intros x Hx.
    destruct (Z.compare_spec (100 * x) (Z.pos m)) as [Hc|Hc|Hc];
      intros Hge; try discriminate Hge; apply round_half_even_bound; lia.
Qed.

Lemma nonnegative_float_sign (s : bool) (m : positive) (e : Z) :
  number_ge (NFloat (S754_finite s m e)) (NInt 0) = true -> s = false.
Proof.
  destruct s; [|reflexivity].
  unfold number_ge, number_compare, number_xval, float_xval, xval_compare,
    dyadic_compare, cond_Zopp.
  assert (Hp : 0 < 2 ^ (e - Z.min e 0)) by (apply Z.pow_pos_nonneg; lia).
  assert (Hc : (- Z.pos m * 2 ^ (e - Z.min e 0) ?= 0 * 2 ^ (0 - Z.min e 0)) = Lt)
    by (apply Z.compare_lt_iff; nia).
  rewrite Hc. discriminate.
Qed.

Lemma float_round_fixed (k : Z) :
  fixed_by_round 1 k = true ->
  float_round (float_of_digits false k 1) 1 = Ok (float_of_digits false k 1)
  /\ (forall s, float_of_digits false k 1 <> S754_infinity s).
Proof.
  unfold fixed_by_round. generalize (float_of_digits false k 1). intros r H.
  assert (Hround : match float_round r 1 with
                   | Ok r' => spec_float_eqb r' r
                   | Err _ => false
                   end = true /\ forall s, r <> S754_infinity s).
  { destruct r; try discriminate H; split; try exact H; discriminate. }
  destruct Hround as [Hround Hfinite]. split; [|exact Hfinite].
  destruct (float_round r 1) as [r'|]; [|discriminate].
  apply spec_float_eqb_eq in Hround. now subst.
Qed.

(** Rounding a float between 0 and 100 to one decimal place gives a float
    that the same rounding leaves unchanged. *)
Lemma float_round_idempotent (g : spec_float) :
  percentage_in_range (PFloat g) ->
  exists r, float_round g 1 = Ok r /\ float_round r 1 = Ok r.
Proof.
  intros (n & Hn & Hlo & Hhi). cbn in Hn. injection Hn as <-.
  destruct g as [s|s| |s m e].
  - exists (S754_zero s). split; reflexivity.
  - destruct s; discriminate.
  - discriminate.
  - pose proof (nonnegative_float_sign _ _ _ Hlo) as ->.
    pose proof (scaled_digits_bound _ _ Hhi) as Hk.
    destruct (float_round_fixed _ (percentages_fixed_by_round _ Hk)) as [Hfix Hfinite].
    exists (float_of_digits false (scaled_digits m e 1) 1). split; [|exact Hfix].
    unfold float_round at 1.
    destruct (float_of_digits false (scaled_digits m e 1) 1) as [?|s'| |? ? ?];
      try reflexivity.
    now destruct (Hfinite s').
Qed.

Lemma py_round_idempotent (q : pyval) :
  percentage_in_range q ->
  exists p, py_round q 1 = Ok p /\ py_round p 1 = Ok p.
Proof.
  intros Hq. destruct q as [|b|z|g|s|l|kvs];
    try (destruct Hq as (n & Hn & _); discriminate Hn).
  - exists (PInt (Z.b2z b)). split; reflexivity.
  - exists (PInt z). split; reflexivity.
  - destruct (float_round_idempotent g Hq) as (r & Hr & Hfix).
    exists (PFloat r). cbn. rewrite Hr, Hfix. split; reflexivity.
Qed.

(** *** The product of a confidence between 0 and 1 and 100

    The rounding of the product to binary64 keeps it between 0 and 100:
    [binary_round_aux] shifts the mantissa, [shr_1] once per bit, and
    rounds it up by one at most, and not at all when nothing was shifted
    out. *)

Lemma shr_1_nonneg (m : Z) (r s : bool) :
  0 <= m ->
  shr_1 (Build_shr_record m r s) = Build_shr_record (m / 2) (Z.odd m) (r || s).
Proof.
  intro Hm. destruct m as [|p|p]; [reflexivity| |lia].
  destruct p as [p|p|]; cbn [shr_1].
  - f_equal. rewrite Pos2Z.inj_xI. apply Z.div_unique with 1; lia.
  - f_equal. rewrite Pos2Z.inj_xO. apply Z.div_unique with 0; lia.
  - reflexivity.
Qed.

Lemma iter_pos_nat {A : Type} (f : A -> A) (p : positive) (x : A) :
  iter_pos f p x = Nat.iter (Pos.to_nat p) f x.
Proof.
  revert x. induction p as [p IH|p IH|]; intro x; cbn [iter_pos].
  - rewrite !IH, Pos2Nat.inj_xI.
    replace (S (2 * Pos.to_nat p)) with (Pos.to_nat p + S (Pos.to_nat p))%nat by lia.
    rewrite Nat.iter_add, Nat.iter_succ_r. reflexivity.
  - rewrite !IH, Pos2Nat.inj_xO.
    replace (2 * Pos.to_nat p)%nat with (Pos.to_nat p + Pos.to_nat p)%nat by lia.
    rewrite Nat.iter_add. reflexivity.
  - reflexivity.
Qed.

(** [k] shifts of a mantissa [m >= 0] that nothing was shifted out of *)
Lemma shr_iter (k : nat) (m : Z) :
  0 <= m ->
  let mrs := Nat.iter k shr_1 (Build_shr_record m false false) in
  shr_m mrs = m / 2 ^ Z.of_nat k
  /\ (forall t, m = t * 2 ^ Z.of_nat k -> shr_r mrs = false /\ shr_s mrs = false).
Proof.
  intro Hm. induction k as [|k IH].
  - cbn. split; [now rewrite Z.div_1_r | auto].
  - cbv zeta in IH |- *. rewrite Nat.iter_succ. destruct IH as [IHm IHe].
    destruct (Nat.iter k shr_1 (Build_shr_record m false false)) as [mk rk sk].
    cbn [shr_m shr_r shr_s] in *.
    assert (Hp : 0 < 2 ^ Z.of_nat k) by (apply Z.pow_pos_nonneg; lia).
    assert (Hmk : 0 <= mk) by (subst mk; apply Z.div_pos; lia).
    rewrite (shr_1_nonneg _ _ _ Hmk). cbn [shr_m shr_r shr_s].
    rewrite Nat2Z.inj_succ, Z.pow_succ_r by lia.
    split.
    + subst mk. rewrite Z.div_div by lia. f_equal. lia.
    + intros t Ht.
      destruct (IHe (2 * t) ltac:(lia)) as [-> ->].
      split; [|reflexivity].
      subst mk. replace m with (2 * t * 2 ^ Z.of_nat k) by lia.
      rewrite Z.div_mul by lia. rewrite Z.odd_mul. reflexivity.
Qed.

Lemma shr_spec (m e n : Z) :
  0 <= m ->
  let r := shr (Build_shr_record m false false) e n in
  snd r = e + Z.max n 0
  /\ shr_m (fst r) = m / 2 ^ Z.max n 0
  /\ (forall t, m = t * 2 ^ Z.max n 0 -> loc_of_shr_record (fst r) = loc_Exact).
Proof.
  intros Hm. destruct n as [|p|p]; cbn [shr fst snd Z.max Z.compare].
  - change (Z.max 0 0) with 0. rewrite Z.add_0_r, Z.div_1_r. auto.
  - rewrite iter_pos_nat.
    replace (Z.max (Z.pos p) 0) with (Z.pos p) by lia.
    destruct (shr_iter (Pos.to_nat p) m Hm) as [H1 H2].
    rewrite positive_nat_Z in H1, H2.
    split; [reflexivity|]. split; [exact H1|].
    intros t Ht. destruct (H2 t Ht) as [Hr Hs].
    destruct (Nat.iter (Pos.to_nat p) shr_1 (Build_shr_record m false false)) as [m' r' s'].
    cbn in Hr, Hs. subst. reflexivity.
  - change (Z.max (Z.neg p) 0) with 0. rewrite Z.add_0_r, Z.div_1_r. auto.
Qed.

Lemma round_nearest_even_bounds (m : Z) (l : location) :
  m <= round_nearest_even m l <= m + 1.
Proof.
  destruct l as [|[| |]]; cbn; [lia| |lia|lia].
  destruct (Z.even m); lia.
Qed.

Lemma pow2_lt_exponent (a b : Z) : 0 <= b -> 2 ^ a < 2 ^ b -> a < b.
Proof.
  intros Hb H. destruct (Z.lt_ge_cases a b) as [|Hge]; [assumption|].
  assert (2 ^ b <= 2 ^ a) by (apply Z.pow_le_mono_r; lia). lia.
Qed.

Lemma binary_round_aux_in_range (mx : positive) (ex : Z) :
  ex <= 0 ->
  Z.pos mx <= 100 * 2 ^ (- ex) ->
  percentage_in_range (PFloat (binary_round_aux prec emax false (Z.pos mx) ex loc_Exact)).
Proof.
  intros Hex Hmx.
  unfold binary_round_aux, shr_fexp. cbn [shr_record_of_loc].
  set (n := fexp prec emax (Zdigits2 (Z.pos mx) + ex) - ex).
  destruct (shr_spec (Z.pos mx) ex n ltac:(lia)) as (He1 & Hm1 & Hexact1).
  destruct (shr (Build_shr_record (Z.pos mx) false false) ex n) as [mrs1 e1].
  cbn [fst snd] in He1, Hm1, Hexact1.
  (* the exponent after the first shift is not positive *)
  assert (Hp7 : 100 * 2 ^ (- ex) < 2 ^ (7 - ex)).
  { replace (7 - ex) with (7 + - ex) by lia. rewrite Z.pow_add_r by lia.
    assert (0 < 2 ^ (- ex)) by (apply Z.pow_pos_nonneg; lia).
    change (2 ^ 7) with 128. lia. }
  assert (He1le : e1 <= 0).
  { subst e1. destruct (Z.max_spec n 0) as [[_ ->]|[Hn ->]]; [lia|].
    unfold n, fexp. cbn [Zdigits2].
    pose proof (digits2_pos_bounds mx) as [Hlo _].
    assert (Z.pos (digits2_pos mx) - 1 < 7 - ex).
    { apply pow2_lt_exponent; lia. }
    unfold emin. change prec with 53. change emax with 1024. lia. }
  set (s1 := Z.max n 0) in *.
  assert (Hs1 : 0 <= s1) by (unfold s1; lia).
  assert (Hpow1 : 0 < 2 ^ s1) by (apply Z.pow_pos_nonneg; lia).
  set (B := 100 * 2 ^ (- e1)).
  assert (HB : 100 * 2 ^ (- ex) = B * 2 ^ s1).
  { unfold B. replace (- ex) with (- e1 + s1) by lia. rewrite Z.pow_add_r by lia. ring. }
  assert (Hm1B : shr_m mrs1 <= B).
  { rewrite Hm1. apply Z.div_le_upper_bound; lia. }
  assert (Hm1pos : 0 <= shr_m mrs1).
  { rewrite Hm1. apply Z.div_pos; lia. }
  set (m1 := round_nearest_even (shr_m mrs1) (loc_of_shr_record mrs1)).
  assert (Hround : 0 <= m1 <= B).
  { pose proof (round_nearest_even_bounds (shr_m mrs1) (loc_of_shr_record mrs1)) as Hb.
    fold m1 in Hb. split; [lia|].
    destruct (Z.eq_dec (shr_m mrs1) B) as [HeqB|Hne]; [|lia].
    assert (Hmul : 2 ^ s1 * (Z.pos mx / 2 ^ s1) <= Z.pos mx)
      by (apply Z.mul_div_le; lia).
    assert (Heq : Z.pos mx = B * 2 ^ s1).
    { rewrite <- Hm1, HeqB, Z.mul_comm in Hmul.
      apply Z.le_antisymm; [rewrite <- HB; exact Hmx | exact Hmul]. }
    unfold m1. rewrite (Hexact1 B Heq). cbn [round_nearest_even]. exact Hm1B. }
  (* the second shift *)
  set (n2 := fexp prec emax (Zdigits2 m1 + e1) - e1).
  destruct (shr_spec m1 e1 n2 ltac:(lia)) as (He2 & Hm2 & _).
  destruct (shr (Build_shr_record m1 false false) e1 n2) as [mrs2 e2].
  cbn [fst snd] in He2, Hm2.
  set (s2 := Z.max n2 0) in *.
  assert (Hs2 : 0 <= s2) by (unfold s2; lia).
  assert (Hpow2 : 0 < 2 ^ s2) by (apply Z.pow_pos_nonneg; lia).
  assert (Hm2B : shr_m mrs2 * 2 ^ s2 <= B).
  { rewrite Hm2. pose proof (Z.mul_div_le m1 (2 ^ s2) Hpow2). lia. }
  assert (Hm2pos : 0 <= shr_m mrs2).
  { rewrite Hm2. apply Z.div_pos; lia. }
  destruct (shr_m mrs2) as [|p|p]; [| |lia].
  - exists (NFloat (S754_zero false)). repeat split.
  - assert (HBlt : B < 2 ^ (7 - e1)).
    { unfold B. replace (7 - e1) with (7 + - e1) by lia. rewrite Z.pow_add_r by lia.
      assert (0 < 2 ^ (- e1)) by (apply Z.pow_pos_nonneg; lia).
      change (2 ^ 7) with 128. lia. }
    assert (Hs2lt : s2 < 7 - e1).
    { apply pow2_lt_exponent; [lia|]. nia. }
    replace (e2 <=? emax - prec) with true by (symmetry; apply Z.leb_le; unfold emax, prec; lia).
    exists (NFloat (S754_finite false p e2)). split; [reflexivity|]. split.
    + unfold number_ge, number_compare. cbn [number_xval float_xval xval_compare cond_Zopp].
      now rewrite (proj1 (proj2 (proj2 (proj2 (dyadic_compare_sign p p e2 e2))))).
    + unfold number_ge, number_compare. cbn [number_xval float_xval xval_compare cond_Zopp].
      unfold dyadic_compare.
      destruct (Z.le_gt_cases e2 0) as [Hneg|Hpos].
      * rewrite (Z.min_r 0 e2) by lia. rewrite Z.sub_diag, Z.sub_0_l.
        change (2 ^ 0) with 1. rewrite Z.mul_1_r.
        assert (Hle : Z.pos p <= 100 * 2 ^ (- e2)).
        { unfold B in Hm2B. replace (- e1) with (- e2 + s2) in Hm2B by lia.
          rewrite Z.pow_add_r in Hm2B by lia.
          assert (0 < 2 ^ (- e2)) by (apply Z.pow_pos_nonneg; lia). nia. }
        destruct (Z.compare_spec (100 * 2 ^ (- e2)) (Z.pos p)); [reflexivity|lia|reflexivity].
      * rewrite (Z.min_l 0 e2) by lia. rewrite !Z.sub_0_r.
        change (100 * 2 ^ 0) with 100.
        assert (Hle : Z.pos p * 2 ^ e2 <= 100).
        { unfold B in Hm2B. replace s2 with (e2 + - e1) in Hm2B by lia.
          rewrite Z.pow_add_r in Hm2B by lia.
          assert (0 < 2 ^ (- e1)) by (apply Z.pow_pos_nonneg; lia). nia. }
        destruct (Z.compare_spec 100 (Z.pos p * 2 ^ e2)); [reflexivity|lia|reflexivity].
Qed.

Lemma unit_float_mantissa (m : positive) (e : Z) :
  number_ge (NInt 1) (NFloat (S754_finite false m e)) = true ->
  e <= 0 /\ Z.pos m <= 2 ^ (- e).
Proof.
  unfold number_ge, number_compare. cbn [number_xval float_xval xval_compare cond_Zopp].
  unfold dyadic_compare.
  destruct (Z.le_gt_cases e 0) as [He|He].
  - rewrite (Z.min_r 0 e) by lia. rewrite Z.sub_diag, Z.sub_0_l.
    change (2 ^ 0) with 1. rewrite Z.mul_1_l, Z.mul_1_r.
    destruct (Z.compare_spec (2 ^ (- e)) (Z.pos m)); intro Hc;
      try discriminate Hc; lia.
  - rewrite (Z.min_l 0 e) by lia. rewrite !Z.sub_0_r.
    change (1 * 2 ^ 0) with 1.
    assert (2 ^ 1 <= 2 ^ e) by (apply Z.pow_le_mono_r; lia).
    change (2 ^ 1) with 2 in *.
    assert (2 <= Z.pos m * 2 ^ e) by nia.
    destruct (Z.compare_spec 1 (Z.pos m * 2 ^ e)); intro Hc;
      try discriminate Hc; lia.
Qed.

Lemma mul_100_in_range (c : pyval) :
  confidence_in_unit_range c ->
  exists q, py_mul_int c 100 = Ok q /\ percentage_in_range q.
Proof.
  intros (n & Hn & Hlo & Hhi).
  destruct c as [|b|z|f|s|l|kvs]; try discriminate Hn; cbn in Hn; injection Hn as <-.
  - exists (PInt (Z.b2z b * 100)). split; [reflexivity|].
    exists (NInt (Z.b2z b * 100)). destruct b; repeat split.
  - assert (Hz : z = 0 \/ z = 1).
    { revert Hlo Hhi. unfold number_ge, number_compare.
      cbn [number_xval xval_compare]. unfold dyadic_compare.
      change (Z.min 0 0) with 0. change (0 - 0) with 0. change (2 ^ 0) with 1.
      rewrite !Z.mul_1_r.
      destruct (Z.compare_spec z 0); destruct (Z.compare_spec 1 z);
        intros H1 H2; try discriminate H1; try discriminate H2; lia. }
    exists (PInt (z * 100)). split; [reflexivity|].
    exists (NInt (z * 100)). destruct Hz as [-> | ->]; repeat split.
  - destruct f as [s|s| |s m e].
    + exists (PFloat (S754_zero (xorb s false))). split; [reflexivity|].
      exists (NFloat (S754_zero (xorb s false))). repeat split.
    + destruct s; discriminate.
    + discriminate.
    + pose proof (nonnegative_float_sign _ _ _ Hlo) as ->.
      destruct (unit_float_mantissa _ _ Hhi) as [He Hm].
      eexists. split; [reflexivity|].
      change (float_of_Z 100) with (S754_finite false 7036874417766400 (-46)).
      cbn [SFmul xorb].
      apply binary_round_aux_in_range; [lia|].
      rewrite Pos2Z.inj_mul.
      replace (- (e + -46)) with (- e + 46) by lia.
      rewrite Z.pow_add_r by lia.
      change (Z.pos 7036874417766400) with (100 * 2 ^ 46).
      assert (0 < 2 ^ 46) by (apply Z.pow_pos_nonneg; lia).
      nia.
Qed.

(** C7. The percentage of a word is its confidence times 100, rounded to
    one decimal place.  For a confidence between 0 and 1, and more
    generally when the product lies between 0 and 100, the rounding gives
    a value, the one the payload entry of the word carries, and rounding
    that value again gives it back.  The confidence 0.8234 gives 82.3, and
    82.3 is rounded to 82.3. *)
Theorem percentage_rounding_is_idempotent :
  (forall word c,
      confidence_of word = Ok c ->
      confidence_in_unit_range c ->
      exists p,
        confidence_percentage word = Ok p
        /\ py_round p 1 = Ok p
        /\ (forall entry, doc_gen_word word = Ok entry ->
                          py_getitem_str entry "confidence" = Ok p))
  /\ (forall word c q,
         confidence_of word = Ok c ->
         py_mul_int c 100 = Ok q ->
         percentage_in_range q ->
         exists p,
           confidence_percentage word = Ok p
           /\ py_round q 1 = Ok p
           /\ py_round p 1 = Ok p
           /\ (forall entry, doc_gen_word word = Ok entry ->
                             py_getitem_str entry "confidence" = Ok p))
  /\ confidence_percentage (word_with_confidence (PFloat (float_of_decimal 8234 10000)))
     = Ok (PFloat (float_of_decimal 823 10))
  /\ py_round (PFloat (float_of_decimal 823 10)) 1 = Ok (PFloat (float_of_decimal 823 10)).
Proof.
  assert (Hproduct : forall word c q,
             confidence_of word = Ok c ->
             py_mul_int c 100 = Ok q ->
             percentage_in_range q ->
             exists p,
               confidence_percentage word = Ok p
               /\ py_round q 1 = Ok p
               /\ py_round p 1 = Ok p
               /\ (forall entry, doc_gen_word word = Ok entry ->
                                 py_getitem_str entry "confidence" = Ok p)).
  { intros word c q Hc Hq Hrange.
    destruct (py_round_idempotent q Hrange) as (p & Hp & Hfix).
    assert (Hword : confidence_percentage word = Ok p).
    { unfold confidence_percentage, rbind. unfold confidence_of in Hc.
      rewrite Hc, Hq. exact Hp. }
    exists p. repeat split; try assumption.
    intros entry Hentry.
    destruct (doc_gen_word_confidence _ _ Hentry) as (p' & Hp' & Hget). congruence. }
  split; [|split; [exact Hproduct | split; vm_compute; reflexivity]].
  intros word c Hc Hunit.
  destruct (mul_100_in_range c Hunit) as (q & Hq & Hrange).
  destruct (Hproduct word c q Hc Hq Hrange) as (p & Hp & _ & Hfix & Hentry).
  exists p. auto.
Qed.

Lemma percentage_rounding_is_idempotent_witness :
  exists p,
    confidence_percentage (word_with_confidence (PFloat (float_of_decimal 8234 10000))) = Ok p
    /\ p = PFloat (float_of_decimal 823 10)
    /\ py_round p 1 = Ok p.
Proof.
  destruct (proj1 percentage_rounding_is_idempotent
              (word_with_confidence (PFloat (float_of_decimal 8234 10000)))
              (PFloat (float_of_decimal 8234 10000)))
    as (p & Hp & Hfix & _).
  - reflexivity.
  - exists (NFloat (float_of_decimal 8234 10000)).
    repeat split; vm_compute; reflexivity.
  - exists p. repeat split; try assumption.
    vm_compute in Hp. injection Hp as <-. vm_compute. reflexivity.
Defined.

(** * Further properties *)

(** ** The API key function *)

Lemma token_is_valid_iff (token : pyval) :
  ApiKey.token_is_valid token = true <->
  exists key, token = PStr key /\ In key ApiKey.valid_api_keys.
Proof.
  destruct token as [|b|z|f|s|l|d]; cbn [ApiKey.token_is_valid];
    try (split; [discriminate | intros (key & H & _); discriminate H]).
  rewrite existsb_exists. split.
  - intros (key & Hin & Heq). apply String.eqb_eq in Heq. subst. eauto.
  - intros (key & Heq & Hin). injection Heq as <-. exists s. split; [assumption|].
    apply String.eqb_refl.
Qed.

Lemma check_token_outcome (w : world) (bytes : string) :
  (ApiKey.carries_valid_key w bytes
   /\ ApiKey.check_token w bytes
      = ([Log INFO "Result: Authorized"], Return (ApiKey.authorized_response w)))
  \/ (~ ApiKey.carries_valid_key w bytes
      /\ ((ApiKey.check_token w bytes = ([], Next tt)
           /\ forall ex, ~ ApiKey.parsing_raises w bytes ex)
          \/ exists ex, ApiKey.parsing_raises w bytes ex
                        /\ ApiKey.check_token w bytes = ([], Raise ex))).
Proof.
  unfold ApiKey.check_token, ApiKey.carries_valid_key, ApiKey.parsing_raises.
  destruct (json_loads w bytes) as [auth_token|ex] eqn:Hloads.
  2:{ right. split.
      - intros (a & d & k & H & _). discriminate H.
      - right. exists ex. split; [left; reflexivity | reflexivity]. }
  cbn [lift mbind fst snd app].
  destruct (py_get auth_token "data" PNone) as [data|ex] eqn:Hdata.
  2:{ right. split.
      - intros (a & d & k & H & Hd & _). injection H as <-. congruence.
      - right. exists ex. split; [|reflexivity].
        right; left. exists auth_token. auto. }
  cbn [lift mbind fst snd app].
  destruct (py_get data "api-key" PNone) as [token|ex] eqn:Htoken.
  2:{ right. split.
      - intros (a & d & k & H & Hd & Hk & _). injection H as <-.
        rewrite Hdata in Hd. injection Hd as <-. congruence.
      - right. exists ex. split; [|reflexivity].
        right; right. exists auth_token, data. auto. }
  cbn [lift mbind fst snd app].
  destruct (ApiKey.token_is_valid token) eqn:Hvalid.
  - left. apply token_is_valid_iff in Hvalid as (key & -> & Hin).
    split; [|reflexivity]. exists auth_token, data, key. auto.
  - right. split.
    + intros (a & d & k & H & Hd & Hk & Hin). injection H as <-.
      rewrite Hdata in Hd. injection Hd as <-.
      rewrite Htoken in Hk. injection Hk as ->.
      assert (ApiKey.token_is_valid (PStr k) = true)
        by (apply token_is_valid_iff; eauto).
      congruence.
    + left. split; [reflexivity|].
      intros ex [H|[(a & H & Hd)|(a & d & H & Hd & Hk)]].
      * discriminate H.
      * injection H as <-. congruence.
      * injection H as <-. rewrite Hdata in Hd. injection Hd as <-. congruence.
Qed.

(** X1. For a body that decodes, the API key function answers 200 with
    [{"active": true}] exactly when the body is a JSON object whose
    ["data"] object carries one of the three keys under ["api-key"], and
    answers 401 with [{"active": false, "wwwAuthenticate": "API-key"}] in
    every other case; the bodies are the JSON texts of these objects and
    the responses have no headers of their own. *)
Theorem api_key_authorized_iff (w : world) (decode_utf8 : string -> result string)
    (bytes text : string) :
  decode_utf8 bytes = Ok text ->
  (snd (ApiKey.handler w decode_utf8 (Some bytes))
   = Ok (MkResponse 200 (json_dumps w (PDict [("active", PBool true)])) [])
   <-> ApiKey.carries_valid_key w bytes)
  /\ (snd (ApiKey.handler w decode_utf8 (Some bytes))
      = Ok (MkResponse 401
              (json_dumps w (PDict [("active", PBool false);
                                    ("wwwAuthenticate", PStr "API-key")])) [])
      <-> ~ ApiKey.carries_valid_key w bytes).
Proof.
  intros Hdecode.
  change (MkResponse 200 _ _) with (ApiKey.authorized_response w).
  change (MkResponse 401 _ _) with (ApiKey.unauthorized_response w).
  unfold ApiKey.handler. rewrite Hdecode.
  destruct (check_token_outcome w bytes)
    as [[Hvalid ->]|[Hinvalid [[-> _]|(ex & _ & ->)]]]; cbn [fst snd].
  - repeat split; auto; intro H; [discriminate H | contradiction].
  - repeat split; auto; intro H; [discriminate H | contradiction].
  - repeat split; auto; intro H; [discriminate H | contradiction].
Qed.

Lemma api_key_authorized_iff_witness :
  snd (ApiKey.handler ApiKey.sample_world ApiKey.ascii_decode
         (Some (ApiKey.key_body "6340df79-56c7-401d-b6d0-2cdfb0591ea6")))
  = Ok (MkResponse 200 ("{" ++ quoted "active" ++ ": true}") [])
  /\ snd (ApiKey.handler ApiKey.sample_world ApiKey.ascii_decode
            (Some (ApiKey.key_body "not-a-key")))
     = Ok (MkResponse 401
             ("{" ++ quoted "active" ++ ": false, " ++ quoted "wwwAuthenticate" ++ ": "
                  ++ quoted "API-key" ++ "}") []).
Proof.
  split.
  - rewrite (proj2 (proj1 (api_key_authorized_iff ApiKey.sample_world ApiKey.ascii_decode
                             (ApiKey.key_body "6340df79-56c7-401d-b6d0-2cdfb0591ea6") _
                             eq_refl))).
    + vm_compute. reflexivity.
    + exists (PDict [("data", PDict [("api-key", PStr "6340df79-56c7-401d-b6d0-2cdfb0591ea6")])]),
        (PDict [("api-key", PStr "6340df79-56c7-401d-b6d0-2cdfb0591ea6")]),
        "6340df79-56c7-401d-b6d0-2cdfb0591ea6"%string.
      repeat split. right; left; reflexivity.
  - rewrite (proj2 (proj2 (api_key_authorized_iff ApiKey.sample_world ApiKey.ascii_decode
                             (ApiKey.key_body "not-a-key") _ eq_refl))).
    + vm_compute. reflexivity.
    + intros (a & d & k & Ha & Hd & Hk & Hin).
      vm_compute in Ha. injection Ha as <-.
      vm_compute in Hd. injection Hd as <-.
      vm_compute in Hk. injection Hk as <-.
      repeat (destruct Hin as [Hin|Hin]; [discriminate Hin|]). exact Hin.
Defined.

(** X2. The API key function raises only before its [try] block: when
    there is no body ([data.getvalue()] on [None]) or when the body is no
    UTF-8 text; nothing is logged then.  Whatever the parsing of a decoded
    body raises is caught. *)
Theorem api_key_raises_iff (w : world) (decode_utf8 : string -> result string)
    (data : option string) (ex : exn) :
  snd (ApiKey.handler w decode_utf8 data) = Err ex <->
  (data = None /\ ex = AttributeError "'NoneType' object has no attribute 'getvalue'")
  \/ (exists bytes, data = Some bytes /\ decode_utf8 bytes = Err ex).
Proof.
  unfold ApiKey.handler. destruct data as [bytes|].
  - destruct (decode_utf8 bytes) as [text|ex'] eqn:Hdecode.
    + split.
      * destruct (snd (ApiKey.check_token w bytes)); discriminate.
      * intros [[H _]|(b & H & Hb)]; [discriminate H|].
        injection H as <-. congruence.
    + cbn [snd]. split.
      * intro H. injection H as <-. right. eauto.
      * intros [[H _]|(b & H & Hb)]; [discriminate H|].
        injection H as <-. congruence.
  - cbn [snd]. split.
    + intro H. injection H as <-. left. auto.
    + intros [[_ ->]|(b & H & _)]; [reflexivity | discriminate H].
Qed.

Lemma parsing_raises_unique (w : world) (bytes : string) (ex ex' : exn) :
  ApiKey.parsing_raises w bytes ex -> ApiKey.parsing_raises w bytes ex' -> ex = ex'.
Proof.
  intros [H|[(a & H & Hd)|(a & d & H & Hd & Hk)]]
         [H'|[(a' & H' & Hd')|(a' & d' & H' & Hd' & Hk')]];
    rewrite H in H'; try discriminate H'; injection H' as <-;
    try (rewrite Hd in Hd'; try discriminate Hd'; injection Hd' as <-);
    congruence.
Qed.

(** X3. When the parsing of a decoded body raises (the body is no JSON
    text, or it has no ["data"] object), the API key function logs the
    body, then the exception, then the refusal, and answers 401. *)
Theorem api_key_parse_error_is_logged (w : world) (decode_utf8 : string -> result string)
    (bytes text : string) (ex : exn) :
  decode_utf8 bytes = Ok text ->
  ApiKey.parsing_raises w bytes ex ->
  ApiKey.handler w decode_utf8 (Some bytes) =
    ([Log INFO text;
      Log INFO ("error parsing json payload: " ++ exn_str ex);
      Log INFO "Result: Unauthorized"],
     Ok (MkResponse 401
           (json_dumps w (PDict [("active", PBool false);
                                 ("wwwAuthenticate", PStr "API-key")])) [])).
Proof.
  intros Hdecode Hraises.
  change (MkResponse 401 _ _) with (ApiKey.unauthorized_response w).
  unfold ApiKey.handler. rewrite Hdecode.
  destruct (check_token_outcome w bytes)
    as [[(a & d & k & Ha & Hd & Hk & _) _]|[_ [[_ Hnone]|(ex' & Hraises' & ->)]]].
  - destruct Hraises as [H|[(a' & H & Hd')|(a' & d' & H & Hd' & Hk')]].
    + congruence.
    + rewrite Ha in H. injection H as <-. congruence.
    + rewrite Ha in H. injection H as <-. rewrite Hd in Hd'. injection Hd' as <-.
      congruence.
  - destruct (Hnone ex Hraises).
  - rewrite (parsing_raises_unique _ _ _ _ Hraises' Hraises). reflexivity.
Qed.

Lemma api_key_parse_error_is_logged_witness :
  ApiKey.handler ApiKey.sample_world ApiKey.ascii_decode (Some ApiKey.empty_body) =
    ([Log INFO "{}";
      Log INFO "error parsing json payload: 'NoneType' object has no attribute 'get'";
      Log INFO "Result: Unauthorized"],
     Ok (MkResponse 401
           ("{" ++ quoted "active" ++ ": false, " ++ quoted "wwwAuthenticate" ++ ": "
                ++ quoted "API-key" ++ "}") [])).
Proof.
  assert (Hraises : ApiKey.parsing_raises ApiKey.sample_world ApiKey.empty_body
                      (AttributeError "'NoneType' object has no attribute 'get'")).
  { right; right. exists (PDict []), PNone. repeat split. }
  rewrite (api_key_parse_error_is_logged ApiKey.sample_world ApiKey.ascii_decode
             ApiKey.empty_body "{}"
             (AttributeError "'NoneType' object has no attribute 'get'") eq_refl Hraises).
  vm_compute. reflexivity.
Defined.

(** * The other ways a run of the handler ends *)

Lemma recognized_type_passes (w : world) (file_name content_type : string) :
  get_image_content_type w file_name = Some content_type ->
  negb (String.eqb content_type "image/jpeg") && negb (String.eqb content_type "image/png")
  = false.
Proof.
  intros Htype.
  destruct (get_image_content_type_cases w file_name) as [[H _]|[[H _]|[H _]]];
    rewrite H in Htype; [| |discriminate]; injection Htype as <-; reflexivity.
Qed.

Lemma stages_app (t t' : list event) : stages (t ++ t') = (stages t ++ stages t')%list.
Proof.
  induction t as [|ev t IH]; [reflexivity|].
  cbn [app stages]. destruct (stage ev); cbn [app]; now rewrite IH.
Qed.

(** X4. When the upload of the fetched image answers a status other than
    200, the run ends after the upload: the handler logs the error and
    returns the response of status 400 whose message names the object, the
    bucket and the status; the detection is not called. *)
Theorem upload_failure_is_400 (w : world) (data : string) (payload : pyval)
    (u content content_type : string) (status : Z) :
  json_loads w data = Ok payload ->
  py_getitem_str payload "url" = Ok (PStr u) ->
  new_object_storage_client w = Ok tt ->
  requests_get w u = Ok (200, content) ->
  get_image_content_type w (last_segment u) = Some content_type ->
  put_object w "idsvv7k2bdum" "fun_oci_functions_bucket" (image_name_of w (last_segment u))
    content content_type = Ok status ->
  status <> 200 ->
  let image_name := ("part3/" ++ uuid4 w ++ "-" ++ last_segment u)%string in
  let message := ("Image " ++ image_name ++ " storing in Bucket fun_oci_functions_bucket"
                    ++ " failed with status code " ++ string_of_Z status ++ ".")%string in
  handler w (Some data) =
    ([Log INFO "Inside Python Text Anomaly Detection function (for API Gateway)";
      Log INFO ("Received payload: " ++ json_dumps w payload);
      CallCreateObjectStorageClient;
      CallRequestsGet u;
      CallPutObject "idsvv7k2bdum" "fun_oci_functions_bucket" image_name content content_type;
      Log ERROR message],
     Ok (MkResponse 400 (json_dumps w (PDict [("message", PStr message)]))
           [("Content-Type", "application/json")])).
Proof.
  intros Hloads Hurl Hclient Hget Htype Hput Hstatus image_name message.
  apply Z.eqb_neq in Hstatus.
  unfold handler, handler_body. rewrite Hloads. run_handler.
  rewrite Hurl. unfold create_object_storage_client. rewrite Hclient. run_handler.
  unfold get_image_data_from_url, get_data_from_url. rewrite Hget. run_handler.
  rewrite Htype. change (200 =? 200) with true. run_handler.
  rewrite (recognized_type_passes w _ _ Htype).
  unfold put_file_to_object_storage_image.
  change namespace with "idsvv7k2bdum"%string.
  change bucket_name with "fun_oci_functions_bucket"%string.
  rewrite Hput. run_handler. rewrite Hstatus. run_handler. reflexivity.
Qed.

Lemma upload_failure_is_400_witness :
  let w := Sample.scenario (Ok (200, "PNG")) (Ok 503) (Ok Sample.clear_detection)
             (Ok (200, Ok (Sample.docgen_text 200))) Sample.par_ok in
  let body :=
    ("{" ++ quoted "message" ++ ": "
         ++ quoted ("Image part3/123e4567-e89b-42d3-a456-426614174000-photo.png storing in"
                      ++ " Bucket fun_oci_functions_bucket failed with status code 503.")
         ++ "}")%string in
  snd (handler w (Some Sample.request_text)) =
    Ok (MkResponse 400 body [("Content-Type", "application/json")])
  /\ Forall (fun ev => match ev with CallDetectText _ _ _ _ => False | _ => True end)
       (fst (handler w (Some Sample.request_text))).
Proof.
  intros w body.
  rewrite (upload_failure_is_400 w Sample.request_text
             (PDict [("url", PStr Sample.sample_url)]) Sample.sample_url "PNG" "image/png" 503
             eq_refl eq_refl eq_refl eq_refl eq_refl eq_refl ltac:(discriminate)).
  split; [vm_compute; reflexivity | repeat constructor].
Defined.

(** X5. When the document generator answers the transport status 200 and
    an application code other than 200, the handler logs the error and
    returns the response of status 400 whose message carries the code; the
    name of the report is not built and no link is requested. *)
Theorem application_failure_is_400 (w : world) (data : string) (payload : pyval)
    (u content content_type : string) (d data_content doc_gen_fn_payload : pyval)
    (body : string) (answer code : pyval) :
  json_loads w data = Ok payload ->
  py_getitem_str payload "url" = Ok (PStr u) ->
  new_object_storage_client w = Ok tt ->
  requests_get w u = Ok (200, content) ->
  get_image_content_type w (last_segment u) = Some content_type ->
  put_object w namespace bucket_name (image_name_of w (last_segment u)) content content_type
  = Ok 200 ->
  detect_text w compartment_id namespace bucket_name (image_name_of w (last_segment u))
  = Ok d ->
  all_texts_are_clear_in_the_image d default_confidence_level = Ok false ->
  generate_doc_gen_data_content_from_ai_response d bucket_name namespace
    (image_name_of w (last_segment u)) = Ok data_content ->
  prepare_document_generator_payload w data_content namespace bucket_name
    (image_name_of w (last_segment u)) fontfile_name template_name = Ok doc_gen_fn_payload ->
  invoke_function w fn_ocid doc_gen_fn_payload = Ok (200, Ok body) ->
  json_loads w body = Ok answer ->
  py_get answer "code" PNone = Ok code ->
  py_eq_int code 200 = false ->
  let message := ("Document generation failure: '" ++ py_str w code
                    ++ "'. See Application Log")%string in
  snd (handler w (Some data)) =
    Ok (MkResponse 400 (json_dumps w (PDict [("message", PStr message)]))
          [("Content-Type", "application/json")])
  /\ last_event (fst (handler w (Some data))) = Some (Log ERROR message)
  /\ stages (fst (handler w (Some data))) = seq 1 8
  /\ Forall (fun ev => is_create_par ev = false) (fst (handler w (Some data))).
Proof.
  intros Hloads Hurl Hclient Hget Htype Hput Hdetect Hanomalous Hdata Hpayload Hinvoke
         Hbody Hcode Hne message.
  rewrite (run_report_application_failed w data payload u Hloads Hurl Hclient
             content content_type Hget Htype Hput d data_content doc_gen_fn_payload 200 body
             Hdetect Hanomalous Hdata Hpayload Hinvoke answer code eq_refl Hbody Hcode Hne).
  cbn [fst snd]. split; [reflexivity|].
  split; [unfold last_event; rewrite rev_app_distr; reflexivity|].
  split; [reflexivity|].
  unfold trace_to_detection, trace_to_fetch, trace_of_report. cbn [app].
  repeat constructor.
Qed.

Lemma application_failure_is_400_witness :
  let w := Sample.scenario (Ok (200, "PNG")) (Ok 200) (Ok Sample.anomalous_detection)
             (Ok (200, Ok (Sample.docgen_text 500))) Sample.par_ok in
  let body :=
    ("{" ++ quoted "message" ++ ": "
         ++ quoted "Document generation failure: '500'. See Application Log" ++ "}")%string in
  snd (handler w (Some Sample.request_text)) =
    Ok (MkResponse 400 body [("Content-Type", "application/json")])
  /\ Forall (fun ev => is_create_par ev = false) (fst (handler w (Some Sample.request_text))).
Proof.
  intros w body.
  destruct (application_failure_is_400 w Sample.request_text
              (PDict [("url", PStr Sample.sample_url)]) Sample.sample_url "PNG" "image/png"
              Sample.anomalous_detection
              _ _ (Sample.docgen_text 500) (PDict [("code", PInt 500)]) (PInt 500)
              eq_refl eq_refl eq_refl eq_refl eq_refl eq_refl eq_refl
              eq_refl eq_refl eq_refl eq_refl eq_refl eq_refl eq_refl)
    as (Hresponse & _ & _ & Htrace).
  split; [|exact Htrace].
  rewrite Hresponse. vm_compute. reflexivity.
Defined.

(** X6. When every stage succeeds on an image with anomalies (the
    document generator answers 200 with the application code 200 and the
    link request answers 200), the handler returns the response of status
    200 whose body is the JSON text of the input URL and of the link, the
    link being [null] when the answer of the link request carries no path;
    the ten calls of the pipeline are made, each once, in order. *)
Theorem report_ready_is_200 (w : world) (data : string) (payload : pyval)
    (u content content_type : string) (d data_content doc_gen_fn_payload : pyval)
    (body : string) (answer code : pyval) (pdf_name : string) (par : par_response) :
  json_loads w data = Ok payload ->
  py_getitem_str payload "url" = Ok (PStr u) ->
  new_object_storage_client w = Ok tt ->
  requests_get w u = Ok (200, content) ->
  get_image_content_type w (last_segment u) = Some content_type ->
  put_object w namespace bucket_name (image_name_of w (last_segment u)) content content_type
  = Ok 200 ->
  detect_text w compartment_id namespace bucket_name (image_name_of w (last_segment u))
  = Ok d ->
  all_texts_are_clear_in_the_image d default_confidence_level = Ok false ->
  generate_doc_gen_data_content_from_ai_response d bucket_name namespace
    (image_name_of w (last_segment u)) = Ok data_content ->
  prepare_document_generator_payload w data_content namespace bucket_name
    (image_name_of w (last_segment u)) fontfile_name template_name = Ok doc_gen_fn_payload ->
  invoke_function w fn_ocid doc_gen_fn_payload = Ok (200, Ok body) ->
  json_loads w body = Ok answer ->
  py_get answer "code" PNone = Ok code ->
  py_eq_int code 200 = true ->
  build_output_pdf_name w (image_name_of w (last_segment u)) = Ok pdf_name ->
  create_preauthenticated_request w "idsvv7k2bdum" "fun_oci_functions_bucket"
    (ParDetails "PAR_for_report" "ObjectRead" "Deny" pdf_name (utcnow w + 3600)) = Ok par ->
  par_status par = 200 ->
  let link :=
    match par_data par with
    | Some (Some path) => if String.eqb path EmptyString then PNone else PStr path
    | _ => PNone
    end in
  snd (handler w (Some data)) =
    Ok (MkResponse 200
          (json_dumps w (PDict [("inputUrl", PStr u); ("reportWithAnomalies", link)]))
          [("Content-Type", "application/json")])
  /\ stages (fst (handler w (Some data))) = seq 1 10
  /\ Forall (fun ev => is_error_log ev = false) (fst (handler w (Some data))).
Proof.
  intros Hloads Hurl Hclient Hget Htype Hput Hdetect Hanomalous Hdata Hpayload Hinvoke
         Hbody Hcode Heq Hpdf Hpar Hok link.
  rewrite (run_report_ready w data payload u Hloads Hurl Hclient
             content content_type Hget Htype Hput d data_content doc_gen_fn_payload 200 body
             Hdetect Hanomalous Hdata Hpayload Hinvoke answer code pdf_name par
             eq_refl Hbody Hcode Heq Hpdf Hpar Hok).
  cbn [fst snd]. split.
  - unfold prepare_response, json_headers, full_path_of, link, str_of_option.
    destruct (par_data par) as [[path|]|]; [destruct (String.eqb path EmptyString)| |]; reflexivity.
  - split; [reflexivity|].
    unfold trace_to_detection, trace_to_fetch, trace_of_report. cbn [app].
    repeat constructor.
Qed.

Lemma report_ready_is_200_witness :
  let w := Sample.scenario (Ok (200, "PNG")) (Ok 200) (Ok Sample.anomalous_detection)
             (Ok (200, Ok (Sample.docgen_text 200))) Sample.par_ok in
  let body :=
    ("{" ++ quoted "inputUrl" ++ ": " ++ quoted "https://example.com/images/photo.png" ++ ", "
         ++ quoted "reportWithAnomalies" ++ ": " ++ quoted Sample.sample_par_url ++ "}")%string in
  snd (handler w (Some Sample.request_text)) =
    Ok (MkResponse 200 body [("Content-Type", "application/json")])
  /\ stages (fst (handler w (Some Sample.request_text))) = [1; 2; 3; 4; 5; 6; 7; 8; 9; 10]%nat.
Proof.
  intros w body.
  destruct (report_ready_is_200 w Sample.request_text
              (PDict [("url", PStr Sample.sample_url)]) Sample.sample_url "PNG" "image/png"
              Sample.anomalous_detection
              _ _ (Sample.docgen_text 200) (PDict [("code", PInt 200)]) (PInt 200)
              "part3/123e4567-e89b-42d3-a456-426614174000-photo.png.pdf"
              (ParResponse 200 (Some (Some Sample.sample_par_url)))
              eq_refl eq_refl eq_refl eq_refl eq_refl eq_refl eq_refl
              eq_refl eq_refl eq_refl eq_refl eq_refl eq_refl eq_refl
              eq_refl eq_refl eq_refl)
    as (Hresponse & Hstages & _).
  split; [|exact Hstages].
  rewrite Hresponse. vm_compute. reflexivity.
Defined.



(** X8. When the body of the request is no JSON text, or the JSON value
    has no ["url"], the handler logs the exception and raises it again: it
    returns no response, and it has made no call, not even the creation of
    the storage client. *)
Theorem request_without_url_raises (w : world) (data : string) (ex : exn) :
  json_loads w data = Err ex
  \/ (exists payload, json_loads w data = Ok payload
                      /\ py_getitem_str payload "url" = Err ex) ->
  snd (handler w (Some data)) = Err ex
  /\ stages (fst (handler w (Some data))) = []
  /\ last_event (fst (handler w (Some data)))
     = Some (Log INFO ("Error in handler: " ++ exn_str ex))
  /\ Forall (fun ev => is_error_log ev = false) (fst (handler w (Some data))).
Proof.
  intros [Hloads|(payload & Hloads & Hurl)];
    unfold handler, handler_body; rewrite Hloads; run_handler;
    [|rewrite Hurl; run_handler];
    repeat split; repeat constructor.
Qed.

Lemma request_without_url_raises_witness :
  let w := Sample.scenario (Ok (200, "PNG")) (Ok 200) (Ok Sample.clear_detection)
             (Ok (200, Ok (Sample.docgen_text 200))) Sample.par_ok in
  handler w (Some "not json") =
    ([Log INFO "Inside Python Text Anomaly Detection function (for API Gateway)";
      Log INFO "Error in handler: Expecting value: line 1 column 1 (char 0)"],
     Err Sample.JSONDecodeError)
  /\ snd (handler w (Some (Sample.docgen_text 200))) = Err (KeyError "'url'").
Proof.
  intros w. split; [reflexivity|].
  apply (request_without_url_raises w (Sample.docgen_text 200) (KeyError "'url'")).
  right. exists (PDict [("code", PInt 200)]). split; reflexivity.
Defined.

(** X9. When the ["url"] of the request is no string, the handler creates
    the storage client and then raises the [AttributeError] of the missing
    [split]: nothing is fetched, uploaded or detected. *)
Theorem non_string_url_raises (w : world) (data : string) (payload url : pyval) :
  json_loads w data = Ok payload ->
  py_getitem_str payload "url" = Ok url ->
  (forall u, url <> PStr u) ->
  new_object_storage_client w = Ok tt ->
  let ex := AttributeError ("'" ++ type_name url ++ "' object has no attribute 'split'") in
  handler w (Some data) =
    ([Log INFO "Inside Python Text Anomaly Detection function (for API Gateway)";
      Log INFO ("Received payload: " ++ json_dumps w payload);
      CallCreateObjectStorageClient;
      Log INFO ("Error in handler: " ++ exn_str ex)],
     Err ex)
  /\ Forall (fun ev => is_remote_call ev = false) (fst (handler w (Some data))).
Proof.
  intros Hloads Hurl Hstr Hclient ex.
  assert (Hrun : handler w (Some data) =
                   ([Log INFO "Inside Python Text Anomaly Detection function (for API Gateway)";
                     Log INFO ("Received payload: " ++ json_dumps w payload);
                     CallCreateObjectStorageClient;
                     Log INFO ("Error in handler: " ++ exn_str ex)],
                    Err ex)).
  { unfold handler, handler_body. rewrite Hloads. run_handler.
    rewrite Hurl. unfold create_object_storage_client. rewrite Hclient. run_handler.
    unfold get_image_data_from_url, get_data_from_url.
    destruct url; try (run_handler; reflexivity).
    destruct (Hstr s eq_refl). }
  split; [exact Hrun|]. rewrite Hrun. repeat constructor.
Qed.

Lemma non_string_url_raises_witness :
  let w := Sample.scenario (Ok (200, "PNG")) (Ok 200) (Ok Sample.clear_detection)
             (Ok (200, Ok (Sample.docgen_text 200))) Sample.par_ok in
  let w' :=
    {| json_loads := fun _ => Ok (PDict [("url", PInt 7)]);
       json_dumps := json_dumps w;
       render := render w;
       guess_type := guess_type w;
       uuid4 := uuid4 w;
       utcnow := utcnow w;
       new_object_storage_client := new_object_storage_client w;
       requests_get := requests_get w;
       put_object := put_object w;
       create_preauthenticated_request := create_preauthenticated_request w;
       detect_text := detect_text w;
       prepare_document_generator_payload := prepare_document_generator_payload w;
       build_output_pdf_name := build_output_pdf_name w;
       invoke_function := invoke_function w |} in
  snd (handler w' (Some "{}")) = Err (AttributeError "'int' object has no attribute 'split'").
Proof.
  intros w w'.
  rewrite (proj1 (non_string_url_raises w' "{}" (PDict [("url", PInt 7)]) (PInt 7)
                    eq_refl eq_refl ltac:(discriminate) eq_refl)).
  reflexivity.
Defined.

(** X30. When the builder of the report data raises (a word of the
    detection response is malformed), the handler logs the exception and
    raises it again: no response is returned, and the document generator
    is not invoked. *)
Theorem report_data_failure_is_raised (w : world) (data : string) (payload : pyval)
    (u content content_type : string) (d : pyval) (ex : exn) :
  json_loads w data = Ok payload ->
  py_getitem_str payload "url" = Ok (PStr u) ->
  new_object_storage_client w = Ok tt ->
  requests_get w u = Ok (200, content) ->
  get_image_content_type w (last_segment u) = Some content_type ->
  put_object w namespace bucket_name (image_name_of w (last_segment u)) content content_type
  = Ok 200 ->
  detect_text w compartment_id namespace bucket_name (image_name_of w (last_segment u))
  = Ok d ->
  all_texts_are_clear_in_the_image d default_confidence_level = Ok false ->
  generate_doc_gen_data_content_from_ai_response d bucket_name namespace
    (image_name_of w (last_segment u)) = Err ex ->
  snd (handler w (Some data)) = Err ex
  /\ last_event (fst (handler w (Some data)))
     = Some (Log INFO ("Error in handler: " ++ exn_str ex))
  /\ stages (fst (handler w (Some data))) = seq 1 6
  /\ Forall (fun ev => is_error_log ev = false) (fst (handler w (Some data))).
Proof.
  intros Hloads Hurl Hclient Hget Htype Hput Hdetect Hanomalous Hdata.
  assert (Hrun : handler w (Some data) =
                   ((trace_to_detection w payload u content content_type ++
                     [Log DEBUG ("detect_text_response: " ++ py_str w d);
                      CallAllTextsAreClear d;
                      Log INFO ("Anomalies found in Image: "
                                  ++ quoted (image_name_of w (last_segment u))
                                  ++ ". Generating PDF Document");
                      CallGenerateDocGenData d bucket_name namespace
                        (image_name_of w (last_segment u));
                      Log INFO ("Error in handler: " ++ exn_str ex)])%list,
                    Err ex)).
  { unfold handler, handler_body. rewrite Hloads. run_handler.
    rewrite Hurl. unfold create_object_storage_client. rewrite Hclient. run_handler.
    unfold get_image_data_from_url, get_data_from_url. rewrite Hget. run_handler.
    rewrite Htype. change (200 =? 200) with true. run_handler.
    rewrite (recognized_type_passes w _ _ Htype).
    unfold put_file_to_object_storage_image. rewrite Hput. run_handler.
    change (200 =? 200) with true. run_handler.
    rewrite Hdetect. run_handler. rewrite Hanomalous. run_handler.
    rewrite Hdata. run_handler. reflexivity. }
  rewrite Hrun. cbn [fst snd]. split; [reflexivity|].
  split; [unfold last_event; rewrite rev_app_distr; reflexivity|].
  split; [reflexivity|].
  unfold trace_to_detection, trace_to_fetch. cbn [app]. repeat constructor.
Qed.

Lemma report_data_failure_is_raised_witness :
  let word := PDict [("text", PStr "T0TAL"); ("confidence", PFloat (float_of_decimal 50 100))] in
  let w := Sample.scenario (Ok (200, "PNG")) (Ok 200) (Ok (sample_detection [word]))
             (Ok (200, Ok (Sample.docgen_text 200))) Sample.par_ok in
  snd (handler w (Some Sample.request_text)) = Err (IndexError "list index out of range")
  /\ last_event (fst (handler w (Some Sample.request_text)))
     = Some (Log INFO "Error in handler: list index out of range").
Proof.
  intros word w.
  destruct (report_data_failure_is_raised w Sample.request_text
              (PDict [("url", PStr Sample.sample_url)]) Sample.sample_url "PNG" "image/png"
              (sample_detection [word]) (IndexError "list index out of range")
              eq_refl eq_refl eq_refl eq_refl eq_refl eq_refl eq_refl
              ltac:(vm_compute; reflexivity) ltac:(vm_compute; reflexivity))
    as (Hresponse & Hlast & _).
  split; [exact Hresponse | exact Hlast].
Defined.

(** * What holds of every run of the handler *)

(** A rule for [mbind], to go through the body of the handler one step at
    a time, and the tactics that apply it. *)
Lemma post_bind {A B : Type} (m : M A) (f : A -> M B) (Q : list event -> outcome B -> Prop) :
  post m (fun t o =>
            match o with
            | Next a => post (f a) (fun t' o' => Q (t ++ t')%list o')
            | Return r => Q t (Return r)
            | Raise e => Q t (Raise e)
            end) ->
  post (mbind m f) Q.
Proof.
  unfold post, mbind. destruct m as [t [a|r|e]]; cbn [fst snd]; auto.
Qed.

Ltac wp_unfold :=
  unfold create_object_storage_client, get_image_data_from_url, get_data_from_url,
    put_file_to_object_storage_image, create_read_only_object_par,
    generate_error_response.

Ltac wp_simpl := cbn [post lift call logging return_ fst snd app].

Ltac wp_step :=
  lazymatch goal with
  | |- post (mbind _ _) _ => apply post_bind
  | |- post (lift ?r) _ =>
      lazymatch r with
      | Ok _ => wp_simpl
      | Err _ => wp_simpl
      | _ => destruct r eqn:?; wp_simpl
      end
  | |- post (call _ ?r) _ =>
      lazymatch r with
      | Ok _ => wp_simpl
      | Err _ => wp_simpl
      | _ => destruct r eqn:?; wp_simpl
      end
  | |- post (logging _ _) _ => wp_simpl
  | |- post (_, Next _) _ => wp_simpl
  | |- post (if ?c then _ else _) _ => destruct c eqn:?
  | |- post (match ?x with Some _ => _ | None => _ end) _ => destruct x eqn:?
  | |- post (match ?x with PStr _ => _ | _ => _ end) _ => destruct x eqn:?
  | |- post (let '(_, _) := ?p in _) _ => destruct p
  end.

(** All the runs of the body, one goal for each way it ends. *)
Ltac wp := unfold handler_body; wp_unfold; repeat wp_step; wp_simpl.

(** One goal for each event of the trace of a run. *)
Ltac each_event tac :=
  repeat first [apply Forall_nil | apply Forall_cons; [tac|]].

Ltac leaf_facts :=
  repeat match goal with
         | H : negb _ = false |- _ => apply negb_false_iff in H
         | H : negb _ = true |- _ => apply negb_true_iff in H
         | H : Z.eqb _ _ = true |- _ => apply Z.eqb_eq in H
         | H : Z.eqb _ _ = false |- _ => apply Z.eqb_neq in H
         end.

Lemma handler_some (w : world) (bytes : string) :
  handler w (Some bytes) =
    match snd (handler_body w bytes) with
    | Next r | Return r =>
        (Log INFO "Inside Python Text Anomaly Detection function (for API Gateway)"
           :: fst (handler_body w bytes),
         Ok r)
    | Raise ex =>
        (Log INFO "Inside Python Text Anomaly Detection function (for API Gateway)"
           :: fst (handler_body w bytes) ++ [Log INFO ("Error in handler: " ++ exn_str ex)],
         Err ex)
    end.
Proof.
  unfold handler, mbind, logging. cbn [fst snd app].
  destruct (snd (handler_body w bytes)); reflexivity.
Qed.

(** What holds of the log lines and of the events of the body of every
    run holds of the events of every run. *)
Lemma handler_trace_forall (P : event -> Prop) (w : world) :
  (forall level msg, P (Log level msg)) ->
  (forall bytes, post (handler_body w bytes) (fun t _ => Forall P t)) ->
  forall data, Forall P (fst (handler w data)).
Proof.
  intros Hlog Hbody [bytes|]; [|cbn; repeat constructor; apply Hlog].
  rewrite handler_some. specialize (Hbody bytes). unfold post in Hbody.
  destruct (snd (handler_body w bytes)); cbn [fst].
  - constructor; auto.
  - constructor; auto.
  - constructor; [auto|]. apply Forall_app. split; [auto|]. constructor; auto.
Qed.

Lemma last_event_cons (ev ev' : event) (t : list event) :
  last_event t = Some ev -> last_event (ev' :: t) = Some ev.
Proof.
  unfold last_event. cbn [rev]. destruct (rev t) as [|x l]; [discriminate|].
  intro H. exact H.
Qed.

Lemma last_event_snoc (ev : event) (t : list event) : last_event (t ++ [ev]) = Some ev.
Proof.
  unfold last_event. rewrite rev_app_distr. reflexivity.
Qed.

Lemma image_type_cases (content_type : string) :
  negb (content_type =? "image/jpeg")%string && negb (content_type =? "image/png")%string
  = false ->
  content_type = "image/jpeg"%string \/ content_type = "image/png"%string.
Proof.
  destruct (String.eqb_spec content_type "image/jpeg") as [->|_]; [auto|].
  destruct (String.eqb_spec content_type "image/png") as [->|_]; [auto|].
  discriminate.
Qed.

Lemma stages_at_most_10 (t : list event) : Forall (fun n => (n <= 10)%nat) (stages t).
Proof.
  induction t as [|ev t IH]; [constructor|].
  cbn [stages]. destruct ev; cbn [stage]; try exact IH; constructor; try exact IH; lia.
Qed.

Lemma object_names_app (t t' : list event) :
  object_names (t ++ t') = (object_names t ++ object_names t')%list.
Proof.
  induction t as [|ev t IH]; [reflexivity|].
  destruct ev; cbn [app object_names]; rewrite IH; reflexivity.
Qed.

Lemma handler_body_in_order (w : world) (bytes : string) :
  post (handler_body w bytes)
       (fun t _ => stages t = seq 1 (List.length (stages t))).
Proof.
  wp; reflexivity.
Qed.

Lemma handler_body_responses (w : world) (bytes : string) :
  post (handler_body w bytes)
       (fun t o =>
          match o with
          | Next r | Return r =>
              response_ok r
              /\ (status_code r = 400 ->
                  exists message,
                    r = error_response w message
                    /\ last_event t = Some (Log ERROR message))
          | Raise _ => True
          end).
Proof.
  wp; try exact I;
    (split; [split; [reflexivity | cbn; auto]|]);
    cbn [status_code prepare_response]; intro H; try discriminate H;
    eexists; split; reflexivity.
Qed.

Lemma handler_body_error_logs (w : world) (bytes : string) :
  post (handler_body w bytes)
       (fun t o =>
          match o with
          | Next r | Return r =>
              if status_code r =? 400
              then Exists (fun ev => is_error_log ev = true) t
              else Forall (fun ev => is_error_log ev = false) t
          | Raise _ => Forall (fun ev => is_error_log ev = false) t
          end).
Proof.
  wp; cbn [status_code prepare_response Z.eqb Pos.eqb];
    solve [ each_event ltac:(reflexivity)
          | repeat first [ apply Exists_cons_hd; reflexivity | apply Exists_cons_tl ] ].
Qed.

Lemma handler_body_uploads (w : world) (bytes : string) :
  post (handler_body w bytes) (fun t _ => Forall (upload_ok w) t).
Proof.
  wp; leaf_facts;
    each_event ltac:(first
      [ exact I
      | match goal with
        | Hget : requests_get w ?u = Ok ?a, Hs : fst ?a = 200,
          Htype : get_image_content_type w _ = Some ?ct,
          Hct : _ && _ = false |- _ =>
            cbn [upload_ok]; split; [reflexivity|]; split; [reflexivity|];
            split; [now apply image_type_cases|];
            exists u; destruct a; cbn [fst snd] in *; subst; auto
        end ]).
Qed.

Lemma handler_body_objects (w : world) (bytes : string) :
  post (handler_body w bytes) (fun t _ => all_equal (object_names t)).
Proof.
  wp; cbn [object_names all_equal]; repeat constructor.
Qed.

Lemma handler_body_par_requests (w : world) (bytes : string) :
  post (handler_body w bytes) (fun t _ => Forall (par_request_ok w) t).
Proof.
  wp; each_event ltac:(first
    [ exact I
    | cbn [par_request_ok par_name par_access_type par_bucket_listing_action
           par_time_expires par_object_name];
      repeat (split; [reflexivity|]); eexists; eassumption ]).
Qed.

Lemma handler_body_invocations (w : world) (bytes : string) :
  post (handler_body w bytes) (fun t _ => Forall (invoke_ok w) t).
Proof.
  wp; each_event ltac:(first
    [ exact I
    | cbn [invoke_ok]; split; [reflexivity|];
      do 3 eexists; split; [eassumption|]; split; eassumption ]).
Qed.

(** X10. In every run of the handler the calls are made in the order of
    the pipeline, from the creation of the storage client on, none twice
    and none skipped: a run stops somewhere in the pipeline, it never goes
    back and never jumps over a stage. *)
Theorem handler_calls_in_order (w : world) (data : option string) :
  let calls := stages (fst (handler w data)) in
  calls = seq 1 (List.length calls) /\ (List.length calls <= 10)%nat.
Proof.
  intros calls.
  assert (Hseq : calls = seq 1 (List.length calls)).
  { unfold calls. destruct data as [bytes|]; [|reflexivity].
    rewrite handler_some. pose proof (handler_body_in_order w bytes) as Hbody.
    unfold post in Hbody.
    destruct (snd (handler_body w bytes)); cbn [fst stages stage]; try exact Hbody.
    rewrite stages_app. cbn [stages stage]. rewrite app_nil_r. exact Hbody. }
  split; [exact Hseq|].
  destruct (Nat.le_gt_cases (List.length calls) 10) as [Hle|Hgt]; [exact Hle|].
  pose proof (stages_at_most_10 (fst (handler w data))) as Hmax.
  fold calls in Hmax. rewrite Hseq in Hmax. rewrite Forall_forall in Hmax.
  specialize (Hmax 11%nat). rewrite in_seq in Hmax. lia.
Qed.

(** X11. Every response the handler returns has the JSON content type and
    the status 200, 204 or 400; when the status is 400 the body is the
    JSON text of [{"message": m}] and [m] is the error the handler logged
    last. *)
Theorem handler_response_shape (w : world) (data : option string) (r : Response) :
  snd (handler w data) = Ok r ->
  headers r = [("Content-Type", "application/json")]
  /\ (status_code r = 200 \/ status_code r = 204 \/ status_code r = 400)
  /\ (status_code r = 400 ->
      exists message,
        response_data r = json_dumps w (PDict [("message", PStr message)])
        /\ last_event (fst (handler w data)) = Some (Log ERROR message)).
Proof.
  destruct data as [bytes|].
  - rewrite handler_some. pose proof (handler_body_responses w bytes) as Hbody.
    unfold post in Hbody.
    destruct (snd (handler_body w bytes)) as [r'|r'|ex]; cbn [fst snd];
      intros H; try discriminate H; injection H as <-;
      destruct Hbody as [[Hheaders Hstatus] Herror];
      (split; [exact Hheaders|]; split; [exact Hstatus|]);
      intros H400; destruct (Herror H400) as (message & -> & Hlast);
      exists message; (split; [reflexivity|]); apply last_event_cons; exact Hlast.
  - cbn [handler snd fst]. intros H. injection H as <-.
    split; [reflexivity|]. split; [left; reflexivity|].
    cbn [status_code prepare_response]. discriminate.
Qed.

Lemma handler_response_shape_witness :
  let w := Sample.scenario (Ok (404, "Not Found")) (Ok 200) (Ok Sample.clear_detection)
             (Ok (200, Ok (Sample.docgen_text 200))) Sample.par_ok in
  exists r,
    snd (handler w (Some Sample.request_text)) = Ok r
    /\ headers r = [("Content-Type", "application/json")]
    /\ status_code r = 400.
Proof.
  intros w. eexists. split; [reflexivity|].
  split; [|reflexivity].
  apply (handler_response_shape w (Some Sample.request_text) _ eq_refl).
Defined.

(** X12. An error is written to the log in exactly the runs that have no
    request body or that return a response of status 400; a run that
    raises and a run that returns 200 or 204 on a request body log no
    error. *)
Theorem error_log_iff_failure (w : world) (data : option string) :
  Exists (fun ev => is_error_log ev = true) (fst (handler w data))
  <-> data = None
      \/ exists r, snd (handler w data) = Ok r /\ status_code r = 400.
Proof.
  assert (Hnot : forall t, Forall (fun ev => is_error_log ev = false) t ->
                           ~ Exists (fun ev => is_error_log ev = true) t).
  { intros t Hall Hex. rewrite Forall_forall in Hall. rewrite Exists_exists in Hex.
    destruct Hex as (ev & Hin & Htrue). rewrite (Hall ev Hin) in Htrue. discriminate. }
  destruct data as [bytes|].
  - rewrite handler_some. pose proof (handler_body_error_logs w bytes) as Hbody.
    unfold post in Hbody.
    destruct (snd (handler_body w bytes)) as [r|r|ex]; cbn [fst snd].
    + destruct (Z.eqb_spec (status_code r) 400) as [H400|Hne]; split.
      * intros _. right. exists r. auto.
      * intros _. apply Exists_cons_tl. exact Hbody.
      * intros Hex. inversion Hex as [? ? Hhd|? ? Htl]; [discriminate Hhd|].
        destruct (Hnot _ Hbody Htl).
      * intros [H|(r' & H & H400)]; [discriminate H|]. injection H as <-. contradiction.
    + destruct (Z.eqb_spec (status_code r) 400) as [H400|Hne]; split.
      * intros _. right. exists r. auto.
      * intros _. apply Exists_cons_tl. exact Hbody.
      * intros Hex. inversion Hex as [? ? Hhd|? ? Htl]; [discriminate Hhd|].
        destruct (Hnot _ Hbody Htl).
      * intros [H|(r' & H & H400)]; [discriminate H|]. injection H as <-. contradiction.
    + split.
      * intros Hex. inversion Hex as [? ? Hhd|? ? Htl]; [discriminate Hhd|].
        apply Exists_app in Htl. destruct Htl as [Htl|Htl]; [destruct (Hnot _ Hbody Htl)|].
        inversion Htl as [? ? Hhd|? ? Hnil]; [discriminate Hhd | inversion Hnil].
      * intros [H|(r' & H & _)]; discriminate H.
  - split; [auto|]. intros _. cbn [handler fst].
    apply Exists_cons_tl. apply Exists_cons_hd. reflexivity.
Qed.

(** X13. When the handler raises, there was a request body, the last line
    of the log is the exception, at the level of an information, and no
    error was logged before. *)
Theorem handler_raise_is_logged (w : world) (data : option string) (ex : exn) :
  snd (handler w data) = Err ex ->
  exists bytes t,
    data = Some bytes
    /\ fst (handler w data) =
         (Log INFO "Inside Python Text Anomaly Detection function (for API Gateway)"
            :: t ++ [Log INFO ("Error in handler: " ++ exn_str ex)])%list
    /\ Forall (fun ev => is_error_log ev = false) t.
Proof.
  destruct data as [bytes|]; [|discriminate].
  rewrite handler_some. pose proof (handler_body_error_logs w bytes) as Hbody.
  unfold post in Hbody.
  destruct (snd (handler_body w bytes)) as [r|r|ex']; cbn [fst snd];
    intros H; try discriminate H. injection H as <-.
  exists bytes, (fst (handler_body w bytes)). auto.
Qed.

Lemma handler_raise_is_logged_witness :
  let w := Sample.scenario (Ok (200, "PNG")) (Ok 200) (Err (Exn "ServiceError" "Too many requests"))
             (Ok (200, Ok (Sample.docgen_text 200))) Sample.par_ok in
  exists t,
    fst (handler w (Some Sample.request_text)) =
      (Log INFO "Inside Python Text Anomaly Detection function (for API Gateway)"
         :: t ++ [Log INFO "Error in handler: Too many requests"])%list
    /\ Forall (fun ev => is_error_log ev = false) t.
Proof.
  intros w.
  destruct (handler_raise_is_logged w (Some Sample.request_text)
              (Exn "ServiceError" "Too many requests") eq_refl)
    as (bytes & t & _ & Htrace & Hlogs).
  exists t. split; [exact Htrace | exact Hlogs].
Defined.

(** X14. Whatever the services answer, the handler uploads only to the
    bucket of the pipeline, only with the content type of a jpeg or png
    image, and only what a fetch answered with the status 200, under the
    name made of the prefix, a fresh identifier and the last segment of
    the fetched URL. *)
Theorem handler_uploads_fetched_images (w : world) (data : option string) :
  Forall (fun ev =>
            match ev with
            | CallPutObject ns bucket name content content_type =>
                ns = "idsvv7k2bdum"%string
                /\ bucket = "fun_oci_functions_bucket"%string
                /\ (content_type = "image/jpeg"%string \/ content_type = "image/png"%string)
                /\ exists u,
                     requests_get w u = Ok (200, content)
                     /\ get_image_content_type w (last_segment u) = Some content_type
                     /\ name = ("part3/" ++ uuid4 w ++ "-" ++ last_segment u)%string
            | _ => True
            end)
    (fst (handler w data)).
Proof.
  apply (handler_trace_forall (upload_ok w) w); [intros; exact I|].
  apply handler_body_uploads.
Qed.

(** X15. The upload, the detection, the report data and the name of the
    report are all given the same object name in a run. *)
Theorem handler_uses_one_object_name (w : world) (data : option string) :
  all_equal (object_names (fst (handler w data))).
Proof.
  destruct data as [bytes|]; [|exact I].
  rewrite handler_some. pose proof (handler_body_objects w bytes) as Hbody.
  unfold post in Hbody.
  destruct (snd (handler_body w bytes)); cbn [fst object_names]; try exact Hbody.
  rewrite object_names_app. cbn [object_names]. rewrite app_nil_r. exact Hbody.
Qed.

(** X16. Every link the handler requests is a read-only link named
    [PAR_for_report] in the bucket of the pipeline, it denies the listing
    of the bucket, it expires one hour after the time of the request, and
    it is for the report name that [build_output_pdf_name] gave. *)
Theorem handler_links_are_read_only (w : world) (data : option string) :
  Forall (fun ev =>
            match ev with
            | CallCreatePar ns bucket details =>
                ns = "idsvv7k2bdum"%string
                /\ bucket = "fun_oci_functions_bucket"%string
                /\ par_name details = "PAR_for_report"%string
                /\ par_access_type details = "ObjectRead"%string
                /\ par_bucket_listing_action details = "Deny"%string
                /\ par_time_expires details = utcnow w + 3600
                /\ exists image_name,
                     build_output_pdf_name w image_name = Ok (par_object_name details)
            | _ => True
            end)
    (fst (handler w data)).
Proof.
  apply (handler_trace_forall (par_request_ok w) w); [intros; exact I|].
  apply handler_body_par_requests.
Qed.

(** X17. The document generator is invoked only on an image that has
    anomalies: on the payload prepared from the report data of a detection
    response that the evaluator did not find clear. *)
Theorem handler_reports_only_anomalies (w : world) (data : option string) :
  Forall (fun ev =>
            match ev with
            | CallInvokeFunction fn payload =>
                fn = "ocid1.fnfunc.oc1.iad..zzz"%string
                /\ exists d image_name data_content,
                     all_texts_are_clear_in_the_image d default_confidence_level = Ok false
                     /\ generate_doc_gen_data_content_from_ai_response d
                          "fun_oci_functions_bucket" "idsvv7k2bdum" image_name
                        = Ok data_content
                     /\ prepare_document_generator_payload w data_content
                          "idsvv7k2bdum" "fun_oci_functions_bucket" image_name
                          "part3/Monoton.zip" "part3/TextAnomalyTemplate.docx" = Ok payload
            | _ => True
            end)
    (fst (handler w data)).
Proof.
  apply (handler_trace_forall (invoke_ok w) w); [intros; exact I|].
  apply handler_body_invocations.
Qed.

(** * The file name of a URL *)

Lemma string_app_nil_r (s : string) : (s ++ EmptyString)%string = s.
Proof.
  induction s as [|c s IH]; [reflexivity|]. cbn. now rewrite IH.
Qed.

Lemma string_app_assoc (a b c : string) : ((a ++ b) ++ c)%string = (a ++ b ++ c)%string.
Proof.
  induction a as [|x a IH]; [reflexivity|]. cbn. now rewrite IH.
Qed.

Lemma no_slash_app (a b : string) :
  no_slash (a ++ b) = no_slash a && no_slash b.
Proof.
  induction a as [|c a IH]; [reflexivity|].
  cbn [append no_slash]. rewrite IH. now rewrite andb_assoc.
Qed.

Lemma last_segment_from_no_slash (s acc : string) :
  no_slash acc = true -> no_slash (last_segment_from acc s) = true.
Proof.
  revert acc. induction s as [|c s IH]; intros acc Hacc; [exact Hacc|].
  cbn [last_segment_from]. destruct (Ascii.eqb c "/") eqn:Hc.
  - apply IH. reflexivity.
  - apply IH. rewrite no_slash_app, Hacc. cbn [no_slash]. now rewrite Hc.
Qed.

Lemma last_segment_from_cut (s acc : string) :
  exists before,
    (acc ++ s)%string = (before ++ last_segment_from acc s)%string
    /\ (before = EmptyString \/ exists b, before = (b ++ "/")%string).
Proof.
  revert acc. induction s as [|c s IH]; intros acc.
  - exists EmptyString. split; [apply string_app_nil_r | now left].
  - cbn [last_segment_from]. destruct (Ascii.eqb_spec c "/") as [->|Hc].
    + destruct (IH EmptyString) as (before & Hcut & Hform).
      exists (acc ++ "/" ++ before)%string. split.
      * cbn [append] in Hcut. rewrite !string_app_assoc. cbn [append].
        now rewrite <- Hcut.
      * right. destruct Hform as [->|(b & ->)].
        -- exists acc. now rewrite string_app_nil_r.
        -- exists (acc ++ "/" ++ b)%string. now rewrite !string_app_assoc.
    + destruct (IH (acc ++ String c EmptyString)%string) as (before & Hcut & Hform).
      exists before. split; [|exact Hform].
      rewrite <- Hcut. now rewrite string_app_assoc.
Qed.

Lemma last_segment_from_whole (s acc : string) :
  no_slash s = true -> last_segment_from acc s = (acc ++ s)%string.
Proof.
  revert acc. induction s as [|c s IH]; intros acc Hs.
  - symmetry. apply string_app_nil_r.
  - cbn [no_slash] in Hs. apply andb_prop in Hs as [Hc Hs].
    apply negb_true_iff in Hc. cbn [last_segment_from]. rewrite Hc.
    rewrite (IH _ Hs). now rewrite string_app_assoc.
Qed.

Lemma last_segment_from_after_slash (a b acc : string) :
  no_slash b = true -> last_segment_from acc (a ++ "/" ++ b) = b.
Proof.
  intros Hb. revert acc. induction a as [|c a IH]; intros acc.
  - cbn [append last_segment_from]. change (Ascii.eqb "/" "/") with true. cbv iota.
    now rewrite (last_segment_from_whole b EmptyString Hb).
  - cbn [append last_segment_from]. destruct (Ascii.eqb c "/"); apply IH.
Qed.

(** X18. The file name that [get_data_from_url] takes from a URL has no
    slash, and it is the end of the URL: what comes before it is empty or
    ends with a slash. *)
Theorem last_segment_is_the_end (u : string) :
  no_slash (last_segment u) = true
  /\ exists before,
       u = (before ++ last_segment u)%string
       /\ (before = EmptyString \/ exists b, before = (b ++ "/")%string).
Proof.
  split.
  - apply last_segment_from_no_slash. reflexivity.
  - apply (last_segment_from_cut u EmptyString).
Qed.

(** X19. The file name of a URL is what follows its last slash, and the
    whole of a text without slash; the name is empty when the URL ends
    with a slash. *)
Theorem last_segment_of_path (a b : string) :
  no_slash b = true ->
  last_segment (a ++ "/" ++ b) = b /\ last_segment b = b.
Proof.
  intros Hb. split.
  - apply last_segment_from_after_slash. exact Hb.
  - apply (last_segment_from_whole b EmptyString Hb).
Qed.

Lemma last_segment_of_path_witness :
  last_segment "https://example.com/images/photo.png" = "photo.png"%string
  /\ last_segment "https://example.com/images/" = EmptyString.
Proof.
  split.
  - apply (proj1 (last_segment_of_path "https://example.com/images" "photo.png" eq_refl)).
  - apply (proj1 (last_segment_of_path "https://example.com/images" EmptyString eq_refl)).
Defined.

(** X20. A URL that ends with a slash has an empty file name: when the
    table of types gives no type to the empty name (the built-in table
    does not), the handler answers 400 whatever the fetch returns, and
    nothing is uploaded or detected. *)
Theorem trailing_slash_is_rejected (w : world) (data : string) (payload : pyval)
    (a : string) (status : Z) (content : string) :
  json_loads w data = Ok payload ->
  py_getitem_str payload "url" = Ok (PStr (a ++ "/")) ->
  new_object_storage_client w = Ok tt ->
  requests_get w (a ++ "/") = Ok (status, content) ->
  guess_type w EmptyString = None ->
  let message :=
    (if Z.eqb status 200
     then "Failed to retrieve a jpeg or png image from '" ++ a ++ "/'."
     else "Failed to retrieve the file from '" ++ a ++ "/'. Status code: "
            ++ string_of_Z status)%string in
  snd (handler w (Some data)) =
    Ok (MkResponse 400 (json_dumps w (PDict [("message", PStr message)]))
          [("Content-Type", "application/json")])
  /\ Forall (fun ev => is_storage_or_detection ev = false) (fst (handler w (Some data))).
Proof.
  intros Hloads Hurl Hclient Hget Hguess message.
  assert (Hname : last_segment (a ++ "/") = EmptyString).
  { apply (last_segment_from_after_slash a EmptyString EmptyString). reflexivity. }
  assert (Htype : get_image_content_type w (last_segment (a ++ "/")) = None).
  { rewrite Hname. unfold get_image_content_type. now rewrite Hguess. }
  destruct (Z.eq_dec status 200) as [->|Hstatus].
  - rewrite (run_not_an_image w data payload _ Hloads Hurl Hclient content Hget Htype).
    split; [|cbn [fst trace_to_fetch app]; repeat constructor].
    unfold message. cbn [snd Z.eqb Pos.eqb]. unfold error_response, prepare_response.
    rewrite !string_app_assoc. reflexivity.
  - rewrite (run_fetch_failed w data payload _ Hloads Hurl Hclient status content Hget Hstatus).
    apply Z.eqb_neq in Hstatus. unfold message. rewrite Hstatus.
    split; [|cbn [fst trace_to_fetch app]; repeat constructor].
    cbn [snd]. unfold error_response, prepare_response.
    rewrite !string_app_assoc. reflexivity.
Qed.

Lemma trailing_slash_is_rejected_witness :
  let w := Sample.scenario (Ok (200, "PNG")) (Ok 200) (Ok Sample.clear_detection)
             (Ok (200, Ok (Sample.docgen_text 200))) Sample.par_ok in
  let w' :=
    {| json_loads := fun _ => Ok (PDict [("url", PStr "https://example.com/images/")]);
       json_dumps := json_dumps w;
       render := render w;
       guess_type := guess_type w;
       uuid4 := uuid4 w;
       utcnow := utcnow w;
       new_object_storage_client := new_object_storage_client w;
       requests_get := requests_get w;
       put_object := put_object w;
       create_preauthenticated_request := create_preauthenticated_request w;
       detect_text := detect_text w;
       prepare_document_generator_payload := prepare_document_generator_payload w;
       build_output_pdf_name := build_output_pdf_name w;
       invoke_function := invoke_function w |} in
  let body :=
    ("{" ++ quoted "message" ++ ": "
         ++ quoted "Failed to retrieve a jpeg or png image from 'https://example.com/images/'."
         ++ "}")%string in
  snd (handler w' (Some "{}")) = Ok (MkResponse 400 body [("Content-Type", "application/json")]).
Proof.
  intros w w' body.
  rewrite (proj1 (trailing_slash_is_rejected w' "{}"
                    (PDict [("url", PStr "https://example.com/images/")])
                    "https://example.com/images" 200 "PNG"
                    eq_refl eq_refl eq_refl eq_refl eq_refl)).
  vm_compute. reflexivity.
Defined.

(** X21. The content type follows the rules of [mimetypes.guess_type] on
    the built-in table, not the letters after the last dot: the case of
    the extension does not matter, a name that is only an extension has no
    type, and what follows the name in the URL (a query, a fragment) is
    part of the extension, so that such a URL has no content type, unless
    the query itself ends with a slash and a file name. *)
Theorem content_type_of_unusual_names :
  let w := Sample.scenario (Ok (200, "PNG")) (Ok 200) (Ok Sample.clear_detection)
             (Ok (200, Ok (Sample.docgen_text 200))) Sample.par_ok in
  map (fun u => get_image_content_type w (last_segment u))
    ["https://example.com/images/PHOTO.PNG";
     "https://example.com/images/photo.JPeG";
     "https://example.com/images/.png";
     "https://example.com/images/photo.png?size=large";
     "https://example.com/images/photo.png#top";
     "https://example.com/images/photo.jpg.bak";
     "https://example.com/images/archive.tar.png";
     "https://example.com/download?file=a/photo.png"]
  = [Some "image/png"; Some "image/jpeg"; None; None; None; None;
     Some "image/png"; Some "image/png"].
Proof.
  vm_compute. reflexivity.
Qed.

(** * More on the evaluator and on the builder *)

Lemma py_all_app_false (f : pyval -> result bool) (l l' : list pyval) (x : pyval) :
  Forall (fun a => f a = Ok true) l -> f x = Ok false -> py_all f (l ++ x :: l') = Ok false.
Proof.
  intros Hl Hx. induction Hl as [|a l Ha _ IH]; cbn [app py_all].
  - now rewrite Hx.
  - now rewrite Ha.
Qed.

Lemma py_all_app_raise (f : pyval -> result bool) (l l' : list pyval) (x : pyval) (e : exn) :
  Forall (fun a => f a = Ok true) l -> f x = Err e -> py_all f (l ++ x :: l') = Err e.
Proof.
  intros Hl Hx. induction Hl as [|a l Ha _ IH]; cbn [app py_all].
  - now rewrite Hx.
  - now rewrite Ha.
Qed.

Lemma clear_words (t : number) (ws : list pyval) :
  Forall (confidence_ge t) ws -> Forall (fun a => word_is_clear t a = Ok true) ws.
Proof.
  intros H. eapply Forall_impl; [|exact H]. intros a Ha. now apply word_is_clear_true_iff.
Qed.

Lemma dyadic_compare_refl (m e : Z) : dyadic_compare m e m e = Eq.
Proof.
  unfold dyadic_compare. apply Z.compare_refl.
Qed.

Lemma number_ge_refl (n : number) : n <> NFloat S754_nan -> number_ge n n = true.
Proof.
  intros Hn. unfold number_ge, number_compare.
  destruct n as [z|[s|s| |s m e]]; cbn [number_xval float_xval xval_compare];
    rewrite ?dyadic_compare_refl; try reflexivity.
  - destruct s; reflexivity.
  - now destruct Hn.
Qed.

Lemma rmap_length {A B : Type} (f : A -> result B) (l : list A) (l' : list B) :
  rmap f l = Ok l' -> List.length l' = List.length l.
Proof.
  revert l'. induction l as [|x l IH]; intros l' H; cbn in H.
  - injection H as <-. reflexivity.
  - destruct (f x) as [b|e]; [|discriminate].
    destruct (rmap f l) as [bs|e]; [|discriminate].
    injection H as <-. cbn. now rewrite (IH bs eq_refl).
Qed.

Lemma rmap_all {A B : Type} (f : A -> result B) (l : list A) (l' : list B) :
  rmap f l = Ok l' -> Forall (fun a => exists b, f a = Ok b) l.
Proof.
  revert l'. induction l as [|x l IH]; intros l' H; cbn in H; [constructor|].
  destruct (f x) as [b|e] eqn:Hx; [|discriminate].
  destruct (rmap f l) as [bs|e]; [|discriminate].
  constructor; [eauto | eapply IH; reflexivity].
Qed.


Lemma corner_has_vertex (word c : pyval) (i : nat) : corner word i = Ok c -> has_vertex i word.
Proof.
  unfold corner, vertex_coordinate, rbind, has_vertex. intros H.
  destruct (py_get word "bounding_polygon" (PDict [])) as [polygon|] eqn:Hpolygon;
    [|discriminate].
  destruct (py_get polygon "normalized_vertices" (PList [])) as [vertices|] eqn:Hvertices;
    [|discriminate].
  destruct (py_getitem_nat vertices i) as [vertex|] eqn:Hvertex; [|discriminate].
  exists polygon, vertices, vertex. auto.
Qed.

Lemma scaled_digits_bound_at (n : nat) (K : Z) (m : positive) (e : Z) :
  number_ge (NInt K) (NFloat (S754_finite false m e)) = true ->
  0 <= scaled_digits m e n <= K * 10 ^ Z.of_nat n.
Proof.
  unfold number_ge, number_compare, number_xval, float_xval, xval_compare,
    dyadic_compare, cond_Zopp, scaled_digits.
  assert (HP : 0 < 10 ^ Z.of_nat n) by (apply Z.pow_pos_nonneg; lia).
  generalize dependent (10 ^ Z.of_nat n). intros P HP.
  destruct (Z.leb_spec 0 e) as [He|He].
  - rewrite (Z.min_l 0 e) by lia. rewrite !Z.sub_0_r.
    change (2 ^ 0) with 1. rewrite Z.mul_1_r.
    assert (Hp : 0 < 2 ^ e) by (apply Z.pow_pos_nonneg; lia).
    replace (Z.pos m * P * 2 ^ e) with (P * (Z.pos m * 2 ^ e)) by ring.
    assert (Hm : 0 < Z.pos m * 2 ^ e) by (apply Z.mul_pos_pos; lia).
    generalize dependent (Z.pos m * 2 ^ e). intros x Hx.
    destruct (Z.compare_spec K x) as [Hc|Hc|Hc];
      intros Hge; try discriminate Hge; nia.
  - rewrite (Z.min_r 0 e) by lia. rewrite Z.sub_diag, Z.sub_0_l.
    change (2 ^ 0) with 1. rewrite Z.mul_1_r.
    assert (Hp : 0 < 2 ^ (- e)) by (apply Z.pow_pos_nonneg; lia).
    generalize dependent (2 ^ (- e)). intros x Hx.
    destruct (Z.compare_spec (K * x) (Z.pos m)) as [Hc|Hc|Hc];
      intros Hge; try discriminate Hge; apply round_half_even_bound; nia.
Qed.

Lemma digits_at_most_spec (ndigits : nat) (bound k : Z) :
  digits_at_most ndigits bound k = true ->
  (forall s, float_of_digits false k ndigits <> S754_infinity s)
  /\ number_ge (NFloat (float_of_digits false k ndigits)) (NInt 0) = true
  /\ number_ge (NInt bound) (NFloat (float_of_digits false k ndigits)) = true.
Proof.
  unfold digits_at_most. generalize (float_of_digits false k ndigits). intros r H.
  destruct r; try discriminate H; apply andb_prop in H as [H0 H1];
    repeat split; try assumption; discriminate.
Qed.

Lemma fixed_by_round_spec (ndigits : nat) (k : Z) :
  fixed_by_round ndigits k = true ->
  float_round (float_of_digits false k ndigits) ndigits = Ok (float_of_digits false k ndigits).
Proof.
  unfold fixed_by_round. generalize (float_of_digits false k ndigits). intros r H.
  assert (Hround : match float_round r ndigits with
                   | Ok r' => spec_float_eqb r' r
                   | Err _ => false
                   end = true).
  { destruct r; try discriminate H; exact H. }
  destruct (float_round r ndigits) as [r'|]; [|discriminate].
  apply spec_float_eqb_eq in Hround. now subst.
Qed.

Lemma hundredths_in_unit_range (k : Z) :
  0 <= k <= 100 -> fixed_by_round 2 k = true /\ digits_at_most 2 1 k = true.
Proof.
  intros Hk. apply andb_prop.
  apply (holds_up_to_spec (fun k => fixed_by_round 2 k && digits_at_most 2 1 k) 100);
    [vm_compute; reflexivity | exact Hk].
Qed.

Lemma tenths_in_percentage_range (k : Z) :
  0 <= k <= 1000 -> digits_at_most 1 100 k = true.
Proof.
  apply (holds_up_to_spec (digits_at_most 1 100) 1000). vm_compute. reflexivity.
Qed.

(** X22. The evaluator stops at the first word below the threshold: it
    returns false when the words before that one are clear, whatever the
    words after it are, even words whose confidence is no number. *)
Theorem evaluator_stops_at_first_anomaly (d : pyval) (t : number)
    (clear : list pyval) (anomaly : pyval) (rest : list pyval) :
  detected_words d = Ok (clear ++ anomaly :: rest)%list ->
  Forall (confidence_ge t) clear ->
  confidence_lt t anomaly ->
  all_texts_are_clear_in_the_image d t = Ok false.
Proof.
  intros Hwords Hclear Hlt. rewrite all_texts_are_clear_unfold, Hwords.
  apply py_all_app_false; [now apply clear_words | now apply word_is_clear_lt].
Qed.

Lemma evaluator_stops_at_first_anomaly_witness :
  all_texts_are_clear_in_the_image
    (sample_detection [sample_word "a" 95; sample_word "b" 50;
                       word_with_confidence (PStr "high")])
    default_confidence_level = Ok false.
Proof.
  apply (evaluator_stops_at_first_anomaly
           (sample_detection [sample_word "a" 95; sample_word "b" 50;
                              word_with_confidence (PStr "high")])
           default_confidence_level [sample_word "a" 95] (sample_word "b" 50)
           [word_with_confidence (PStr "high")] eq_refl).
  - constructor; [|constructor].
    exists (PFloat (float_of_decimal 95 100)), (NFloat (float_of_decimal 95 100)).
    repeat split; vm_compute; reflexivity.
  - exists (PFloat (float_of_decimal 50 100)), (NFloat (float_of_decimal 50 100)).
    repeat split; vm_compute; reflexivity.
Defined.

(** X23. The evaluator raises a [TypeError] when the first word that is
    not clear has a confidence that is no number (a text, [None], a list):
    the comparison with the threshold is not defined. *)
Theorem evaluator_raises_on_non_numeric_confidence (d : pyval) (t : number)
    (clear : list pyval) (word : pyval) (rest : list pyval) (c : pyval) :
  detected_words d = Ok (clear ++ word :: rest)%list ->
  Forall (confidence_ge t) clear ->
  confidence_of word = Ok c ->
  as_number c = None ->
  all_texts_are_clear_in_the_image d t =
    Err (TypeError ("'>=' not supported between instances of '" ++ type_name c
                      ++ "' and '" ++ type_name (number_val t) ++ "'")).
Proof.
  intros Hwords Hclear Hc Hn. rewrite all_texts_are_clear_unfold, Hwords.
  apply py_all_app_raise; [now apply clear_words|].
  unfold word_is_clear, py_ge, rbind. unfold confidence_of in Hc.
  rewrite Hc, Hn. reflexivity.
Qed.

Lemma evaluator_raises_on_non_numeric_confidence_witness :
  all_texts_are_clear_in_the_image
    (sample_detection [word_with_confidence (PStr "high"); sample_word "b" 50])
    default_confidence_level
  = Err (TypeError "'>=' not supported between instances of 'str' and 'float'").
Proof.
  apply (evaluator_raises_on_non_numeric_confidence
           (sample_detection [word_with_confidence (PStr "high"); sample_word "b" 50])
           default_confidence_level [] (word_with_confidence (PStr "high"))
           [sample_word "b" 50] (PStr "high") eq_refl (Forall_nil _) eq_refl eq_refl).
Defined.

(** X24. The threshold is inclusive: words whose confidence is exactly the
    threshold are clear. *)
Theorem threshold_is_inclusive (d : pyval) (t : number) (ws : list pyval) :
  t <> NFloat S754_nan ->
  detected_words d = Ok ws ->
  Forall (fun word => exists c, confidence_of word = Ok c /\ as_number c = Some t) ws ->
  all_texts_are_clear_in_the_image d t = Ok true.
Proof.
  intros Ht Hwords Hall. rewrite all_texts_are_clear_unfold, Hwords.
  apply py_all_true_iff. eapply Forall_impl; [|exact Hall].
  intros word (c & Hc & Hn). apply word_is_clear_true_iff.
  exists c, t. repeat split; try assumption. now apply number_ge_refl.
Qed.

Lemma threshold_is_inclusive_witness :
  all_texts_are_clear_in_the_image
    (sample_detection [sample_word "a" 90; sample_word "b" 90]) default_confidence_level
  = Ok true.
Proof.
  apply (threshold_is_inclusive
           (sample_detection [sample_word "a" 90; sample_word "b" 90])
           default_confidence_level [sample_word "a" 90; sample_word "b" 90]).
  - discriminate.
  - reflexivity.
  - repeat constructor; exists (PFloat (float_of_decimal 90 100)); split; reflexivity.
Defined.

(** X25. The payload the builder returns has one entry for each word of
    the detection response, in the same order, and the entry of a word
    carries the text of the word ([None] when the word has no text). *)
Theorem doc_gen_data_keeps_words (d : pyval) (bucket ns obj : string) (payload : pyval) :
  generate_doc_gen_data_content_from_ai_response d bucket ns obj = Ok payload ->
  exists ws entries,
    detected_words d = Ok ws
    /\ py_getitem_str payload "words" = Ok (PList entries)
    /\ List.length entries = List.length ws
    /\ forall i word,
         nth_error ws i = Some word ->
         exists entry text,
           nth_error entries i = Some entry
           /\ py_get word "text" PNone = Ok text
           /\ py_getitem_str entry "word" = Ok text.
Proof.
  rewrite generate_doc_gen_data_unfold.
  destruct (detected_words d) as [ws|e]; [|discriminate].
  destruct (rmap doc_gen_word ws) as [entries|e] eqn:Hentries; [|discriminate].
  intros H. injection H as <-. exists ws, entries.
  split; [reflexivity|]. split; [reflexivity|].
  split; [exact (rmap_length _ _ _ Hentries)|].
  intros i word Hi.
  destruct (rmap_nth_error _ _ _ Hentries i word Hi) as (entry & Hentry & Hword).
  unfold doc_gen_word, rbind in Hword.
  destruct (py_get word "text" PNone) as [text|]; [|discriminate].
  destruct (confidence_percentage word) as [p|]; [|discriminate].
  destruct (corner word 0) as [c1|]; [|discriminate].
  destruct (corner word 2) as [c3|]; [|discriminate].
  injection Hword as <-. eexists. exists text.
  split; [exact Hentry|]. split; reflexivity.
Qed.

Lemma doc_gen_data_keeps_words_witness :
  exists payload entries,
    generate_doc_gen_data_content_from_ai_response Sample.anomalous_detection
      "fun_oci_functions_bucket" "idsvv7k2bdum" "part3/photo.png" = Ok payload
    /\ py_getitem_str payload "words" = Ok (PList entries)
    /\ List.length entries = 2%nat.
Proof.
  assert (Hrun : exists payload,
             generate_doc_gen_data_content_from_ai_response Sample.anomalous_detection
               "fun_oci_functions_bucket" "idsvv7k2bdum" "part3/photo.png" = Ok payload).
  { vm_compute. eexists. reflexivity. }
  destruct Hrun as (payload & Hrun).
  destruct (doc_gen_data_keeps_words _ _ _ _ _ Hrun)
    as (ws & entries & Hwords & Hentries & Hlength & _).
  exists payload, entries. split; [exact Hrun|]. split; [exact Hentries|].
  rewrite Hlength. vm_compute in Hwords. injection Hwords as <-. reflexivity.
Defined.

(** X26. The builder returns a payload only if every word has a polygon
    with a first and a third vertex; the evaluator does not look at the
    polygons. *)
Theorem doc_gen_data_needs_corners (d : pyval) (bucket ns obj : string) (payload : pyval) :
  generate_doc_gen_data_content_from_ai_response d bucket ns obj = Ok payload ->
  exists ws,
    detected_words d = Ok ws
    /\ Forall (fun word => has_vertex 0 word /\ has_vertex 2 word) ws.
Proof.
  rewrite generate_doc_gen_data_unfold.
  destruct (detected_words d) as [ws|e]; [|discriminate].
  destruct (rmap doc_gen_word ws) as [entries|e] eqn:Hentries; [|discriminate].
  intros _. exists ws. split; [reflexivity|].
  eapply Forall_impl; [|exact (rmap_all _ _ _ Hentries)].
  intros word (entry & Hword). unfold doc_gen_word, rbind in Hword.
  destruct (py_get word "text" PNone) as [text|]; [|discriminate].
  destruct (confidence_percentage word) as [p|]; [|discriminate].
  destruct (corner word 0) as [c1|] eqn:H1; [|discriminate].
  destruct (corner word 2) as [c3|] eqn:H3; [|discriminate].
  split; eapply corner_has_vertex; eassumption.
Qed.

Lemma doc_gen_data_needs_corners_witness :
  Forall (fun word => has_vertex 0 word /\ has_vertex 2 word)
    [sample_word "INVOICE" 99; sample_word "T0TAL" 50].
Proof.
  assert (Hrun : exists payload,
             generate_doc_gen_data_content_from_ai_response Sample.anomalous_detection
               "fun_oci_functions_bucket" "idsvv7k2bdum" "part3/photo.png" = Ok payload).
  { vm_compute. eexists. reflexivity. }
  destruct Hrun as (payload & Hrun).
  destruct (doc_gen_data_needs_corners _ _ _ _ _ Hrun) as (ws & Hwords & Hall).
  vm_compute in Hwords. injection Hwords as <-. exact Hall.
Defined.



(** X28. The percentage of a word whose confidence is between 0 and 1 is
    between 0 and 100. *)
Theorem percentage_is_between_0_and_100 (word c : pyval) :
  confidence_of word = Ok c ->
  confidence_in_unit_range c ->
  exists p, confidence_percentage word = Ok p /\ percentage_in_range p.
Proof.
  intros Hc Hunit.
  destruct (mul_100_in_range c Hunit) as (q & Hq & Hrange).
  unfold confidence_percentage, rbind. unfold confidence_of in Hc. rewrite Hc, Hq.
  destruct q as [|b|z|g|s|l|kvs];
    try (destruct Hrange as (n & Hn & _); discriminate Hn).
  - exists (PInt (Z.b2z b)). split; [reflexivity|].
    exists (NInt (Z.b2z b)). destruct b; repeat split.
  - exists (PInt z). split; [reflexivity | exact Hrange].
  - destruct Hrange as (n & Hn & Hlo & Hhi). cbn in Hn. injection Hn as <-.
    destruct g as [s|s| |s m e].
    + exists (PFloat (S754_zero s)). split; [reflexivity|].
      exists (NFloat (S754_zero s)). repeat split.
    + destruct s; discriminate.
    + discriminate.
    + pose proof (nonnegative_float_sign _ _ _ Hlo) as ->.
      pose proof (scaled_digits_bound _ _ Hhi) as Hk.
      destruct (digits_at_most_spec _ _ _ (tenths_in_percentage_range _ Hk))
        as (Hfinite & Hge & Hle).
      exists (PFloat (float_of_digits false (scaled_digits m e 1) 1)). split.
      * cbn [py_round float_round].
        destruct (float_of_digits false (scaled_digits m e 1) 1) as [?|s'| |? ? ?];
          try reflexivity.
        now destruct (Hfinite s').
      * exists (NFloat (float_of_digits false (scaled_digits m e 1) 1)). repeat split; assumption.
Qed.

Lemma percentage_is_between_0_and_100_witness :
  exists p,
    confidence_percentage (sample_word "TOTAL" 93) = Ok p /\ percentage_in_range p.
Proof.
  apply (percentage_is_between_0_and_100 (sample_word "TOTAL" 93)
           (PFloat (float_of_decimal 93 100)) eq_refl).
  exists (NFloat (float_of_decimal 93 100)). repeat split; vm_compute; reflexivity.
Defined.

(** X29. A coordinate of a vertex between 0 and 1 is rounded to two
    decimal places: the builder gets a value between 0 and 1 that the same
    rounding leaves unchanged. *)
Theorem coordinate_rounding_is_idempotent (word polygon vertices vertex c : pyval)
    (i : nat) (axis : string) :
  py_get word "bounding_polygon" (PDict []) = Ok polygon ->
  py_get polygon "normalized_vertices" (PList []) = Ok vertices ->
  py_getitem_nat vertices i = Ok vertex ->
  py_get vertex axis (PInt 0) = Ok c ->
  confidence_in_unit_range c ->
  exists p,
    vertex_coordinate word i axis = Ok p
    /\ py_round p 2 = Ok p
    /\ confidence_in_unit_range p.
Proof.
  intros Hpolygon Hvertices Hvertex Hc Hunit.
  unfold vertex_coordinate, rbind. rewrite Hpolygon, Hvertices, Hvertex, Hc.
  destruct c as [|b|z|g|s|l|kvs];
    try (destruct Hunit as (n & Hn & _); discriminate Hn).
  - exists (PInt (Z.b2z b)). split; [reflexivity|]. split; [reflexivity|].
    exists (NInt (Z.b2z b)). destruct b; repeat split.
  - exists (PInt z). split; [reflexivity|]. split; [reflexivity | exact Hunit].
  - destruct Hunit as (n & Hn & Hlo & Hhi). cbn in Hn. injection Hn as <-.
    destruct g as [s|s| |s m e].
    + exists (PFloat (S754_zero s)). split; [reflexivity|]. split; [reflexivity|].
      exists (NFloat (S754_zero s)). repeat split.
    + destruct s; discriminate.
    + discriminate.
    + pose proof (nonnegative_float_sign _ _ _ Hlo) as ->.
      pose proof (scaled_digits_bound_at 2 1 _ _ Hhi) as Hk.
      change (1 * 10 ^ Z.of_nat 2) with 100 in Hk.
      destruct (hundredths_in_unit_range _ Hk) as [Hfixed Hrange].
      destruct (digits_at_most_spec _ _ _ Hrange) as (Hfinite & Hge & Hle).
      pose proof (fixed_by_round_spec _ _ Hfixed) as Hfix.
      assert (Hr : float_round (S754_finite false m e) 2
                   = Ok (float_of_digits false (scaled_digits m e 2) 2)).
      { cbn [float_round].
        destruct (float_of_digits false (scaled_digits m e 2) 2) as [?|s'| |? ? ?];
          try reflexivity.
        now destruct (Hfinite s'). }
      exists (PFloat (float_of_digits false (scaled_digits m e 2) 2)).
      cbn [py_round]. rewrite Hr, Hfix.
      split; [reflexivity|]. split; [reflexivity|].
      exists (NFloat (float_of_digits false (scaled_digits m e 2) 2)).
      repeat split; assumption.
Qed.

Lemma coordinate_rounding_is_idempotent_witness :
  let word :=
    PDict [("bounding_polygon",
            PDict [("normalized_vertices",
                    PList [PDict [("x", PFloat (float_of_decimal 12345 100000))]])])] in
  exists p,
    vertex_coordinate word 0 "x" = Ok p
    /\ py_round p 2 = Ok p
    /\ confidence_in_unit_range p.
Proof.
  intros word.
  apply (coordinate_rounding_is_idempotent word _ _ _ (PFloat (float_of_decimal 12345 100000))
           0 "x" eq_refl eq_refl eq_refl eq_refl).
  exists (NFloat (float_of_decimal 12345 100000)). repeat split; vm_compute; reflexivity.
Defined.
